(** * Query coordinator services (internal/querycoordv2/services.go)

    A shallow embedding of the RPC handlers of the query coordinator and
    the properties of its admission, validation and resolution logic.

    The handlers are methods of [Server].  The collaborators the server
    holds (meta, dist, targetMgr, nodeMgr, cluster, job scheduler, ...)
    live in other packages; what they answer is a field of the record
    [Server], one per method the handlers call.  A handler runs in the
    monad [M], whose state is the collection store and the chronological
    log of the collaborator calls the handler has issued. *)

From Stdlib Require Import ZArith String List Lia.
From stdpp Require Import base decidable option list gmap strings pretty.

Local Open Scope Z_scope.
Local Open Scope string_scope.

(** ** Errors: pkg/util/merr and cockroachdb/errors *)

Inductive ErrKind :=
| ServiceNotReady
| CollectionNotLoaded
| PartitionNotLoaded
| CollectionNotFullyLoaded
| CollectionOnRecovering
| ParameterInvalid
| NodeNotFound
| SegmentNotFound
| SegmentNotLoaded
| ResourceGroupNotFound
| ChannelLack
| ChannelNotAvailable
| Unexpected.

#[global] Instance ErrKind_eq_dec : EqDecision ErrKind.
Proof. solve_decision. Defined.

(** A Go [error] value: the typed kind [merr] matches on, and the text of
    [Error()]. *)
Record Err := mkErr { errKind : ErrKind; errMsg : string }.

#[global] Instance Err_eq_dec : EqDecision Err.
Proof. solve_decision. Defined.

Module commonpb.

Inductive StateCode := Initializing | Healthy | Abnormal | StandBy | Stopping.

(** [Code = None] is the success status. *)
Record Status := mkStatus { Code : option ErrKind; Reason : string }.

Record KeyValuePair := mkKeyValuePair { Key : string; Value : string }.

Record NodeInfo := mkNodeInfo { NodeId : Z; Address : string; Hostname : string }.

End commonpb.

#[global] Instance StateCode_eq_dec : EqDecision commonpb.StateCode.
Proof. solve_decision. Defined.

#[global] Instance Status_eq_dec : EqDecision commonpb.Status.
Proof. solve_decision. Defined.

Definition StateCode_String (st : commonpb.StateCode) : string :=
  match st with
  | commonpb.Initializing => "Initializing"
  | commonpb.Healthy => "Healthy"
  | commonpb.Abnormal => "Abnormal"
  | commonpb.StandBy => "StandBy"
  | commonpb.Stopping => "Stopping"
  end.

(** [strings.Join] over the optional trailing messages of a [merr] wrapper. *)
Fixpoint joinMsgs (msgs : list string) : string :=
  match msgs with
  | [] => ""
  | m :: rest => ": " ++ m ++ joinMsgs rest
  end.

(** [fmt.Sprintf("%d", n)] *)
Definition fmtd (n : Z) : string := pretty n.

Module errors.

Definition New (msg : string) : Err := mkErr Unexpected msg.

(** [errors.Wrap] prefixes the text and keeps the cause, hence the kind. *)
Definition Wrap (err : Err) (msg : string) : Err :=
  mkErr (errKind err) (msg ++ ": " ++ errMsg err).

End errors.

(** Modelled from the spec: package [merr] is not part of this file.  Its
    wrappers build an error of the kind their name says (section 7, error
    taxonomy), [Status] turns an error into the structured status of a
    response, and [CheckHealthy] is the coordinator-health gate
    (section 6), which tolerates the standby state only in its
    [CheckHealthyStandby] form. *)
Module merr.

Definition WrapErrServiceNotReady (state : commonpb.StateCode) : Err :=
  mkErr ServiceNotReady ("service not ready: " ++ StateCode_String state).

Definition CheckHealthy (state : commonpb.StateCode) : option Err :=
  if decide (state = commonpb.Healthy) then None
  else Some (WrapErrServiceNotReady state).

Definition CheckHealthyStandby (state : commonpb.StateCode) : option Err :=
  if decide (state = commonpb.Healthy) then None
  else if decide (state = commonpb.StandBy) then None
  else Some (WrapErrServiceNotReady state).

Definition Success : commonpb.Status := commonpb.mkStatus None "".

Definition Status (err : option Err) : commonpb.Status :=
  match err with
  | None => Success
  | Some e => commonpb.mkStatus (Some (errKind e)) (errMsg e)
  end.

Definition WrapErrParameterInvalid (expected actual : string) (msg : list string) : Err :=
  mkErr ParameterInvalid
    ("invalid parameter[expected=" ++ expected ++ "][actual=" ++ actual ++ "]" ++ joinMsgs msg).

Definition WrapErrCollectionNotLoaded (collection : Z) (msg : list string) : Err :=
  mkErr CollectionNotLoaded ("collection not loaded[collection=" ++ fmtd collection ++ "]" ++ joinMsgs msg).

Definition WrapErrPartitionNotLoaded (partition : string) (msg : list string) : Err :=
  mkErr PartitionNotLoaded ("partition not loaded[partition=" ++ partition ++ "]" ++ joinMsgs msg).

Definition WrapErrCollectionNotFullyLoaded (collection : Z) (msg : list string) : Err :=
  mkErr CollectionNotFullyLoaded
    ("collection not fully loaded[collection=" ++ fmtd collection ++ "]" ++ joinMsgs msg).

Definition WrapErrCollectionOnRecovering (collection : Z) (msg : list string) : Err :=
  mkErr CollectionOnRecovering
    ("collection on recovering[collection=" ++ fmtd collection ++ "]" ++ joinMsgs msg).

Definition WrapErrNodeNotFound (id : Z) (msg : list string) : Err :=
  mkErr NodeNotFound ("node not found[node=" ++ fmtd id ++ "]" ++ joinMsgs msg).

Definition WrapErrSegmentNotFound (id : Z) (msg : list string) : Err :=
  mkErr SegmentNotFound ("segment not found[segment=" ++ fmtd id ++ "]" ++ joinMsgs msg).

Definition WrapErrSegmentNotLoaded (id : Z) (msg : list string) : Err :=
  mkErr SegmentNotLoaded ("segment not loaded[segment=" ++ fmtd id ++ "]" ++ joinMsgs msg).

Definition WrapErrResourceGroupNotFound (rg : string) (msg : list string) : Err :=
  mkErr ResourceGroupNotFound ("resource group not found[rg=" ++ rg ++ "]" ++ joinMsgs msg).

Definition WrapErrChannelLack (name : string) (msg : list string) : Err :=
  mkErr ChannelLack ("channel lacks[channel=" ++ name ++ "]" ++ joinMsgs msg).

Definition WrapErrChannelNotAvailable (name : string) (msg : list string) : Err :=
  mkErr ChannelNotAvailable ("channel not available[channel=" ++ name ++ "]" ++ joinMsgs msg).

End merr.

(** [multierr.AppendInto(&into, err)] with a non-nil [err]. *)
Definition multierr_AppendInto (into : option Err) (err : Err) : option Err :=
  match into with
  | None => Some err
  | Some e0 => Some (mkErr (errKind e0) (errMsg e0 ++ "; " ++ errMsg err))
  end.

(** ** Data model

    [UniqueID] is [int64]; the handlers only compare and copy identifiers,
    so they are integers here.  Load percentages are [int32]. *)

Definition UniqueID := Z.

Module querypb.

Inductive LoadStatus := LoadStatus_Invalid | LoadStatus_Loading | LoadStatus_Loaded.

Inductive LoadType := LoadType_UnKnownType | LoadType_LoadPartition | LoadType_LoadCollection.

Inductive PartitionState := PartitionState_PartialInMemory | PartitionState_InMemory.

Record PartitionStates := mkPartitionStates { PartitionID : UniqueID; State : PartitionState }.

(** The segment description of a [GetSegmentInfo] answer. *)
Record SegmentInfo := mkSegmentInfo { SegmentID : UniqueID; SegCollectionID : UniqueID; NodeIds : list UniqueID }.

Record ShardLeadersList := mkShardLeadersList
  { ChannelName : string; ShardNodeIds : list UniqueID; NodeAddrs : list string }.

Record ResourceGroupInfo := mkResourceGroupInfo
  { Name : string;
    Capacity : Z;
    NumAvailableNode : Z;
    NumLoadedReplica : gmap Z Z;
    NumOutgoingNode : gmap Z Z;
    NumIncomingNode : gmap Z Z;
    Config : string;
    Nodes : list commonpb.NodeInfo }.

End querypb.

#[global] Instance LoadStatus_eq_dec : EqDecision querypb.LoadStatus.
Proof. solve_decision. Defined.

#[global] Instance LoadType_eq_dec : EqDecision querypb.LoadType.
Proof. solve_decision. Defined.

(** Package [meta]: the objects the managers hand out.  Their
    declarations are outside this file; the fields are the ones the
    handlers read (section 3 of the design lists the same attributes). *)
Module meta.

(** Channel handed out by the target observer; a collection keeps the
    latest one as its refresh notifier. *)
Definition Notifier := Z.

Record Collection := mkCollection
  { CollectionID : UniqueID;
    Status : querypb.LoadStatus;
    LoadPercentage : Z;
    ReleasedPartitions : list UniqueID;
    refreshNotifier : option Notifier }.

Definition SetRefreshNotifier (c : Collection) (ch : Notifier) : Collection :=
  mkCollection (CollectionID c) (Status c) (LoadPercentage c) (ReleasedPartitions c) (Some ch).

Record Partition := mkPartition
  { PartitionID : UniqueID; PartCollectionID : UniqueID; PartLoadPercentage : Z }.

Record Replica := mkReplica
  { ReplicaID : UniqueID;
    ReplicaCollectionID : UniqueID;
    ReplicaResourceGroup : string;
    Nodes : list UniqueID }.

(** [replica.Contains(node)] *)
Definition Contains (r : Replica) (node : UniqueID) : bool := bool_decide (node ∈ Nodes r).

Record Segment := mkSegment
  { SegmentID : UniqueID; SegCollectionID : UniqueID; SegPartitionID : UniqueID; Node : UniqueID }.

Record LeaderView := mkLeaderView
  { ID : UniqueID; LeaderCollectionID : UniqueID; Channel : string; Version : Z }.

Record DmChannel := mkDmChannel { ChannelName : string }.

(** A segment of a target (datapb.SegmentInfo). *)
Record TargetSegment := mkTargetSegment { TargetSegmentID : UniqueID; InsertChannel : string }.

Inductive TargetScope := CurrentTarget | NextTarget.

Inductive SegmentDistFilter :=
| WithCollectionID (collectionID : UniqueID)
| WithNodeID (nodeID : UniqueID)
| WithSegmentID (segmentID : UniqueID).

Inductive LeaderViewFilter :=
| WithChannelName2LeaderView (channelName : string).

Definition DefaultResourceGroupName : string := "__default_resource_group".

(** A resource group as [GetResourceGroup] hands it out. *)
Record ResourceGroup := mkResourceGroup
  { RGNodes : list UniqueID; RGCapacity : Z; RGConfig : string }.

End meta.

#[global] Instance Collection_eq_dec : EqDecision meta.Collection.
Proof. solve_decision. Defined.

#[global] Instance Replica_eq_dec : EqDecision meta.Replica.
Proof. solve_decision. Defined.

#[global] Instance Segment_eq_dec : EqDecision meta.Segment.
Proof. solve_decision. Defined.

#[global] Instance LeaderView_eq_dec : EqDecision meta.LeaderView.
Proof. solve_decision. Defined.

(** A worker node as the node manager hands it out (session.NodeInfo). *)
Module session.

Record NodeInfo := mkNodeInfo
  { ID : UniqueID; Addr : string; Hostname : string; IsStoppingState : bool }.

End session.

(** ** Requests and responses *)

Module ShowCollectionsRequest.
Record t := mk { CollectionIDs : list UniqueID }.
End ShowCollectionsRequest.

Module ShowCollectionsResponse.
Record t := mk
  { Status : commonpb.Status;
    CollectionIDs : list UniqueID;
    InMemoryPercentages : list Z;
    QueryServiceAvailable : list bool;
    RefreshProgress : list Z }.
End ShowCollectionsResponse.

Module ShowPartitionsRequest.
Record t := mk { CollectionID : UniqueID; PartitionIDs : list UniqueID }.
End ShowPartitionsRequest.

Module ShowPartitionsResponse.
Record t := mk
  { Status : commonpb.Status;
    PartitionIDs : list UniqueID;
    InMemoryPercentages : list Z;
    RefreshProgress : list Z }.
End ShowPartitionsResponse.

Module LoadCollectionRequest.
Record t := mk
  { CollectionID : UniqueID;
    ReplicaNumber : Z;
    ResourceGroups : list string;
    Refresh : bool }.
End LoadCollectionRequest.

Module ReleaseCollectionRequest.
Record t := mk { CollectionID : UniqueID }.
End ReleaseCollectionRequest.

Module LoadPartitionsRequest.
Record t := mk
  { CollectionID : UniqueID;
    PartitionIDs : list UniqueID;
    ReplicaNumber : Z;
    ResourceGroups : list string;
    Refresh : bool }.
End LoadPartitionsRequest.

Module ReleasePartitionsRequest.
Record t := mk { CollectionID : UniqueID; PartitionIDs : list UniqueID }.
End ReleasePartitionsRequest.

Module GetPartitionStatesRequest.
Record t := mk { CollectionID : UniqueID; PartitionIDs : list UniqueID }.
End GetPartitionStatesRequest.

Module GetPartitionStatesResponse.
Record t := mk
  { Status : commonpb.Status; PartitionDescriptions : list querypb.PartitionStates }.
End GetPartitionStatesResponse.

Module GetSegmentInfoRequest.
Record t := mk { CollectionID : UniqueID; SegmentIDs : list UniqueID }.
End GetSegmentInfoRequest.

Module GetSegmentInfoResponse.
Record t := mk { Status : commonpb.Status; Infos : list querypb.SegmentInfo }.
End GetSegmentInfoResponse.

Module SyncNewCreatedPartitionRequest.
Record t := mk { CollectionID : UniqueID; PartitionID : UniqueID }.
End SyncNewCreatedPartitionRequest.

Module LoadBalanceRequest.
Record t := mk
  { CollectionID : UniqueID;
    SourceNodeIDs : list UniqueID;
    DstNodeIDs : list UniqueID;
    SealedSegmentIDs : list UniqueID }.
End LoadBalanceRequest.

Module ShowConfigurationsRequest.
Record t := mk { Pattern : string }.
End ShowConfigurationsRequest.

Module ShowConfigurationsResponse.
Record t := mk { Status : commonpb.Status; Configuations : list commonpb.KeyValuePair }.
End ShowConfigurationsResponse.

Module GetMetricsRequest.
Record t := mk { Request : string }.
End GetMetricsRequest.

Module GetMetricsResponse.
Record t := mk { Status : commonpb.Status; Response : string; ComponentName : string }.
End GetMetricsResponse.

Module GetReplicasRequest.
Record t := mk { CollectionID : UniqueID; WithShardNodes : bool }.
End GetReplicasRequest.

(** What [fillReplicaInfo] builds for one replica. *)
Module ReplicaInfo.
Record t := mk
  { ReplicaID : UniqueID; CollectionID : UniqueID; NodeIds : list UniqueID; ResourceGroupName : string }.
End ReplicaInfo.

Module GetReplicasResponse.
(** The status is a pointer the handler leaves nil on one path. *)
Record t := mk { Status : option commonpb.Status; Replicas : list ReplicaInfo.t }.
End GetReplicasResponse.

Module GetShardLeadersRequest.
Record t := mk { CollectionID : UniqueID }.
End GetShardLeadersRequest.

Module GetShardLeadersResponse.
(** [Shards = []] is the nil slice. *)
Record t := mk { Status : commonpb.Status; Shards : list querypb.ShardLeadersList }.
End GetShardLeadersResponse.

Module CheckHealthRequest.
Record t := mk { }.
End CheckHealthRequest.

Module CheckHealthResponse.
Record t := mk { Status : commonpb.Status; IsHealthy : bool; Reasons : list string }.
End CheckHealthResponse.

Module CreateResourceGroupRequest.
Record t := mk { ResourceGroup : string; Config : string }.
End CreateResourceGroupRequest.

Module UpdateResourceGroupsRequest.
Record t := mk { ResourceGroups : list (string * string) }.
End UpdateResourceGroupsRequest.

Module DropResourceGroupRequest.
Record t := mk { ResourceGroup : string }.
End DropResourceGroupRequest.

Module TransferNodeRequest.
Record t := mk { SourceResourceGroup : string; TargetResourceGroup : string; NumNode : Z }.
End TransferNodeRequest.

Module TransferReplicaRequest.
Record t := mk
  { SourceResourceGroup : string;
    TargetResourceGroup : string;
    CollectionID : UniqueID;
    NumReplica : Z }.
End TransferReplicaRequest.

Module ListResourceGroupsRequest.
Record t := mk { }.
End ListResourceGroupsRequest.

Module ListResourceGroupsResponse.
Record t := mk { Status : commonpb.Status; ResourceGroups : list string }.
End ListResourceGroupsResponse.

Module DescribeResourceGroupRequest.
Record t := mk { ResourceGroup : string }.
End DescribeResourceGroupRequest.

Module DescribeResourceGroupResponse.
Record t := mk { Status : commonpb.Status; ResourceGroup : option querypb.ResourceGroupInfo }.
End DescribeResourceGroupResponse.

(** What a node answers to the component-state probe. *)
Module ComponentStates.
Record t := mk { Status : commonpb.Status; StateCode : commonpb.StateCode }.
End ComponentStates.

(** ** Jobs (package job) *)

Module job.

Inductive Job :=
| NewLoadCollectionJob (req : LoadCollectionRequest.t)
| NewReleaseCollectionJob (req : ReleaseCollectionRequest.t)
| NewLoadPartitionJob (req : LoadPartitionsRequest.t)
| NewReleasePartitionJob (req : ReleasePartitionsRequest.t)
| NewSyncNewCreatedPartitionJob (req : SyncNewCreatedPartitionRequest.t).

End job.

(** ** The server and its collaborators

    One field per method of a collaborator (or helper defined outside this
    file) that a handler calls; the field is what the call answers.  A
    theorem quantified over [Server] holds whatever the collaborators
    answer. *)

Record Server := mkServer
  { (* s.State() *)
    server_State : commonpb.StateCode;
    (* s.meta: CollectionManager *)
    meta_CalculateLoadPercentage : UniqueID -> Z;
    meta_GetPartitionsByCollection : UniqueID -> list meta.Partition;
    meta_GetPartitionLoadPercentage : UniqueID -> Z;
    meta_GetLoadType : UniqueID -> querypb.LoadType;
    meta_GetPartition : UniqueID -> option meta.Partition;
    meta_GetAll : list UniqueID;
    meta_IsRefreshed : option meta.Collection -> bool;
    (* meta.GlobalFailedLoadCache *)
    FailedLoadCache_Get : UniqueID -> option Err;
    (* s.meta: ReplicaManager *)
    meta_GetResourceGroupByCollection : UniqueID -> gset string;
    meta_GetByCollectionAndNode : UniqueID -> UniqueID -> option meta.Replica;
    meta_GetByCollection : UniqueID -> list meta.Replica;
    meta_GetByResourceGroup : string -> list meta.Replica;
    meta_TransferReplica : UniqueID -> string -> string -> Z -> option Err;
    (* s.meta: ResourceManager *)
    meta_ContainResourceGroup : string -> bool;
    meta_AddResourceGroup : string -> string -> option Err;
    meta_UpdateResourceGroups : list (string * string) -> option Err;
    meta_RemoveResourceGroup : string -> option Err;
    meta_TransferNode : string -> string -> Z -> option Err;
    meta_ListResourceGroups : list string;
    meta_GetResourceGroup : string -> option meta.ResourceGroup;
    meta_ContainsNode : string -> UniqueID -> bool;
    (* s.dist *)
    dist_SegmentDistManager_GetByFilter : list meta.SegmentDistFilter -> list meta.Segment;
    dist_LeaderViewManager_GetByFilter : list meta.LeaderViewFilter -> list meta.LeaderView;
    (* s.targetMgr, s.targetObserver *)
    targetMgr_GetSealedSegment : UniqueID -> UniqueID -> meta.TargetScope -> option meta.TargetSegment;
    targetMgr_GetDmChannelsByCollection : UniqueID -> meta.TargetScope -> list meta.DmChannel;
    targetMgr_GetSealedSegmentsByCollection : UniqueID -> meta.TargetScope -> gmap Z meta.TargetSegment;
    targetObserver_UpdateNextTarget : UniqueID -> Err + meta.Notifier;
    (* s.nodeMgr *)
    nodeMgr_IsStoppingNode : UniqueID -> Err + bool;
    nodeMgr_Get : UniqueID -> option session.NodeInfo;
    nodeMgr_GetAll : list session.NodeInfo;
    (* s.cluster *)
    cluster_GetComponentStates : UniqueID -> Err + ComponentStates.t;
    (* s.jobScheduler: what a submitted job ends with *)
    job_Wait : job.Job -> option Err;
    (* helpers of the server defined in other files of the package *)
    server_checkAnyReplicaAvailable : UniqueID -> bool;
    server_getCollectionSegmentInfo : UniqueID -> list querypb.SegmentInfo;
    server_balanceSegments :
      UniqueID -> meta.Replica -> UniqueID -> list UniqueID -> list meta.Segment -> bool -> bool -> option Err;
    server_getSystemInfoMetrics : GetMetricsRequest.t -> string * option Err;
    server_fillReplicaInfo : meta.Replica -> bool -> ReplicaInfo.t;
    server_filterDupLeaders : gmap Z meta.LeaderView -> gmap Z meta.LeaderView;
    (* other packages *)
    checkers_CheckLeaderAvailable : meta.LeaderView -> gmap Z meta.TargetSegment -> option Err;
    merr_AnalyzeState : string -> UniqueID -> ComponentStates.t -> option Err;
    utils_MergeMetaSegmentIntoSegmentInfo : list meta.Segment -> querypb.SegmentInfo;
    Params_GetComponentConfigurations : string -> string -> list (string * string);
    metricsinfo_ConstructComponentName : string;
    metricsinfo_ParseMetricType : string -> Err + string;
    metricsinfo_SystemInfoMetrics : string;
    metricsinfo_MsgUnimplementedMetric : string }.

(** The collaborator calls a handler issues, as they appear in its log. *)
Inductive Call :=
| C_State
| C_GetAllCollections
| C_GetCollection (collectionID : UniqueID)
| C_CalculateLoadPercentage (collectionID : UniqueID)
| C_GetPartitionsByCollection (collectionID : UniqueID)
| C_GetPartitionLoadPercentage (partitionID : UniqueID)
| C_GetLoadType (collectionID : UniqueID)
| C_GetPartition (partitionID : UniqueID)
| C_GetAll
| C_SetRefreshNotifier (collectionID : UniqueID) (ch : meta.Notifier)
| C_FailedLoadCache_Get (collectionID : UniqueID)
| C_FailedLoadCache_TryExpire
| C_FailedLoadCache_Remove (collectionID : UniqueID)
| C_GetResourceGroupByCollection (collectionID : UniqueID)
| C_GetByCollectionAndNode (collectionID nodeID : UniqueID)
| C_GetByCollection (collectionID : UniqueID)
| C_GetByResourceGroup (rg : string)
| C_TransferReplica (collectionID : UniqueID) (srcRG dstRG : string) (n : Z)
| C_ContainResourceGroup (rg : string)
| C_AddResourceGroup (rg cfg : string)
| C_UpdateResourceGroups (rgs : list (string * string))
| C_RemoveResourceGroup (rg : string)
| C_TransferNode (srcRG dstRG : string) (n : Z)
| C_RecoverAllCollection
| C_ListResourceGroups
| C_GetResourceGroup (rg : string)
| C_ContainsNode (rg : string) (nodeID : UniqueID)
| C_SegmentDist_GetByFilter (filters : list meta.SegmentDistFilter)
| C_LeaderView_GetByFilter (filters : list meta.LeaderViewFilter)
| C_GetSealedSegment (collectionID segmentID : UniqueID) (scope : meta.TargetScope)
| C_GetDmChannelsByCollection (collectionID : UniqueID) (scope : meta.TargetScope)
| C_GetSealedSegmentsByCollection (collectionID : UniqueID) (scope : meta.TargetScope)
| C_UpdateNextTarget (collectionID : UniqueID)
| C_IsStoppingNode (nodeID : UniqueID)
| C_nodeMgr_Get (nodeID : UniqueID)
| C_nodeMgr_GetAll
| C_GetComponentStates (nodeID : UniqueID)
| C_jobScheduler_Add (j : job.Job)
| C_job_Wait (j : job.Job)
| C_checkAnyReplicaAvailable (collectionID : UniqueID)
| C_getCollectionSegmentInfo (collectionID : UniqueID)
| C_balanceSegments (collectionID : UniqueID) (replica : meta.Replica) (srcNode : UniqueID)
    (dstNodes : list UniqueID) (segments : list meta.Segment) (sync copyMode : bool)
| C_getSystemInfoMetrics
| C_fillReplicaInfo (replica : meta.Replica)
| C_CheckLeaderAvailable (leader : meta.LeaderView)
| C_GetComponentConfigurations (pattern : string).

(** ** The handler monad

    The state a handler threads: the collection store of the collection
    manager (the one store a handler of this file writes to directly, by
    [SetRefreshNotifier]) and the log of collaborator calls, oldest
    first. *)

Record St := mkSt { collections : gmap Z meta.Collection; calls : list Call }.

Definition M (A : Type) : Type := St -> A * St.

Definition ret {A} (a : A) : M A := fun st => (a, st).

Definition bind {A B} (m : M A) (k : A -> M B) : M B :=
  fun st => let (a, st') := m st in k a st'.

Notation "x <- y ; z" := (bind y (fun x => z))
  (at level 20, y at level 100, z at level 200, only parsing).

(** A call [c] to a collaborator that answers [a]. *)
Definition call {A} (c : Call) (a : A) : M A :=
  fun st => (a, mkSt (collections st) (calls st ++ [c])).

(** How a handler ends: with the pair Go returns, or with a runtime
    panic. *)
Inductive Outcome (R : Type) :=
| Returned (resp : R) (err : option Err)
| Panicked.
Arguments Returned {R} resp err.
Arguments Panicked {R}.

(** *** Collaborator calls *)

Definition State (s : Server) : M commonpb.StateCode := call C_State (server_State s).

Definition GetAllCollections : M (list meta.Collection) :=
  fun st => call C_GetAllCollections (map snd (map_to_list (collections st))) st.

Definition GetCollection (collectionID : UniqueID) : M (option meta.Collection) :=
  fun st => call (C_GetCollection collectionID) (collections st !! collectionID) st.

(** [collection.SetRefreshNotifier(ch)] on the collection object the store
    holds for [collectionID]. *)
Definition SetRefreshNotifier (collectionID : UniqueID) (ch : meta.Notifier) : M unit :=
  fun st =>
    (tt, mkSt (alter (fun c => meta.SetRefreshNotifier c ch) collectionID (collections st))
              (calls st ++ [C_SetRefreshNotifier collectionID ch])).

Definition CalculateLoadPercentage (s : Server) (collectionID : UniqueID) : M Z :=
  call (C_CalculateLoadPercentage collectionID) (meta_CalculateLoadPercentage s collectionID).

Definition GetPartitionsByCollection (s : Server) (collectionID : UniqueID) : M (list meta.Partition) :=
  call (C_GetPartitionsByCollection collectionID) (meta_GetPartitionsByCollection s collectionID).

Definition GetPartitionLoadPercentage (s : Server) (partitionID : UniqueID) : M Z :=
  call (C_GetPartitionLoadPercentage partitionID) (meta_GetPartitionLoadPercentage s partitionID).

Definition GetLoadType (s : Server) (collectionID : UniqueID) : M querypb.LoadType :=
  call (C_GetLoadType collectionID) (meta_GetLoadType s collectionID).

Definition GetPartition (s : Server) (partitionID : UniqueID) : M (option meta.Partition) :=
  call (C_GetPartition partitionID) (meta_GetPartition s partitionID).

Definition GetAll (s : Server) : M (list UniqueID) := call C_GetAll (meta_GetAll s).

Definition GlobalFailedLoadCache_Get (s : Server) (collectionID : UniqueID) : M (option Err) :=
  call (C_FailedLoadCache_Get collectionID) (FailedLoadCache_Get s collectionID).

Definition GlobalFailedLoadCache_TryExpire : M unit := call C_FailedLoadCache_TryExpire tt.

Definition GlobalFailedLoadCache_Remove (collectionID : UniqueID) : M unit :=
  call (C_FailedLoadCache_Remove collectionID) tt.

Definition GetResourceGroupByCollection (s : Server) (collectionID : UniqueID) : M (gset string) :=
  call (C_GetResourceGroupByCollection collectionID) (meta_GetResourceGroupByCollection s collectionID).

Definition GetByCollectionAndNode (s : Server) (collectionID nodeID : UniqueID) : M (option meta.Replica) :=
  call (C_GetByCollectionAndNode collectionID nodeID) (meta_GetByCollectionAndNode s collectionID nodeID).

Definition GetByCollection (s : Server) (collectionID : UniqueID) : M (list meta.Replica) :=
  call (C_GetByCollection collectionID) (meta_GetByCollection s collectionID).

Definition GetByResourceGroup (s : Server) (rg : string) : M (list meta.Replica) :=
  call (C_GetByResourceGroup rg) (meta_GetByResourceGroup s rg).

Definition meta_TransferReplica_call (s : Server) (collectionID : UniqueID) (srcRG dstRG : string) (n : Z)
  : M (option Err) :=
  call (C_TransferReplica collectionID srcRG dstRG n) (meta_TransferReplica s collectionID srcRG dstRG n).

Definition ContainResourceGroup (s : Server) (rg : string) : M bool :=
  call (C_ContainResourceGroup rg) (meta_ContainResourceGroup s rg).

Definition AddResourceGroup (s : Server) (rg cfg : string) : M (option Err) :=
  call (C_AddResourceGroup rg cfg) (meta_AddResourceGroup s rg cfg).

Definition ResourceManager_UpdateResourceGroups (s : Server) (rgs : list (string * string)) : M (option Err) :=
  call (C_UpdateResourceGroups rgs) (meta_UpdateResourceGroups s rgs).

Definition RemoveResourceGroup (s : Server) (rg : string) : M (option Err) :=
  call (C_RemoveResourceGroup rg) (meta_RemoveResourceGroup s rg).

Definition ResourceManager_TransferNode (s : Server) (srcRG dstRG : string) (n : Z) : M (option Err) :=
  call (C_TransferNode srcRG dstRG n) (meta_TransferNode s srcRG dstRG n).

Definition RecoverAllCollection : M unit := call C_RecoverAllCollection tt.

Definition ResourceManager_ListResourceGroups (s : Server) : M (list string) :=
  call C_ListResourceGroups (meta_ListResourceGroups s).

Definition GetResourceGroup (s : Server) (rg : string) : M (option meta.ResourceGroup) :=
  call (C_GetResourceGroup rg) (meta_GetResourceGroup s rg).

Definition ContainsNode (s : Server) (rg : string) (nodeID : UniqueID) : M bool :=
  call (C_ContainsNode rg nodeID) (meta_ContainsNode s rg nodeID).

Definition SegmentDistManager_GetByFilter (s : Server) (filters : list meta.SegmentDistFilter)
  : M (list meta.Segment) :=
  call (C_SegmentDist_GetByFilter filters) (dist_SegmentDistManager_GetByFilter s filters).

Definition LeaderViewManager_GetByFilter (s : Server) (filters : list meta.LeaderViewFilter)
  : M (list meta.LeaderView) :=
  call (C_LeaderView_GetByFilter filters) (dist_LeaderViewManager_GetByFilter s filters).

Definition GetSealedSegment (s : Server) (collectionID segmentID : UniqueID) (scope : meta.TargetScope)
  : M (option meta.TargetSegment) :=
  call (C_GetSealedSegment collectionID segmentID scope) (targetMgr_GetSealedSegment s collectionID segmentID scope).

Definition GetDmChannelsByCollection (s : Server) (collectionID : UniqueID) (scope : meta.TargetScope)
  : M (list meta.DmChannel) :=
  call (C_GetDmChannelsByCollection collectionID scope) (targetMgr_GetDmChannelsByCollection s collectionID scope).

Definition GetSealedSegmentsByCollection (s : Server) (collectionID : UniqueID) (scope : meta.TargetScope)
  : M (gmap Z meta.TargetSegment) :=
  call (C_GetSealedSegmentsByCollection collectionID scope)
       (targetMgr_GetSealedSegmentsByCollection s collectionID scope).

Definition UpdateNextTarget (s : Server) (collectionID : UniqueID) : M (Err + meta.Notifier) :=
  call (C_UpdateNextTarget collectionID) (targetObserver_UpdateNextTarget s collectionID).

Definition IsStoppingNode (s : Server) (nodeID : UniqueID) : M (Err + bool) :=
  call (C_IsStoppingNode nodeID) (nodeMgr_IsStoppingNode s nodeID).

Definition nodeMgr_Get_call (s : Server) (nodeID : UniqueID) : M (option session.NodeInfo) :=
  call (C_nodeMgr_Get nodeID) (nodeMgr_Get s nodeID).

Definition nodeMgr_GetAll_call (s : Server) : M (list session.NodeInfo) :=
  call C_nodeMgr_GetAll (nodeMgr_GetAll s).

Definition GetComponentStates (s : Server) (nodeID : UniqueID) : M (Err + ComponentStates.t) :=
  call (C_GetComponentStates nodeID) (cluster_GetComponentStates s nodeID).

Definition jobScheduler_Add (j : job.Job) : M unit := call (C_jobScheduler_Add j) tt.

Definition Wait (s : Server) (j : job.Job) : M (option Err) := call (C_job_Wait j) (job_Wait s j).

Definition checkAnyReplicaAvailable (s : Server) (collectionID : UniqueID) : M bool :=
  call (C_checkAnyReplicaAvailable collectionID) (server_checkAnyReplicaAvailable s collectionID).

Definition getCollectionSegmentInfo (s : Server) (collectionID : UniqueID) : M (list querypb.SegmentInfo) :=
  call (C_getCollectionSegmentInfo collectionID) (server_getCollectionSegmentInfo s collectionID).

Definition balanceSegments (s : Server) (collectionID : UniqueID) (replica : meta.Replica)
  (srcNode : UniqueID) (dstNodes : list UniqueID) (segments : list meta.Segment) (sync copyMode : bool)
  : M (option Err) :=
  call (C_balanceSegments collectionID replica srcNode dstNodes segments sync copyMode)
       (server_balanceSegments s collectionID replica srcNode dstNodes segments sync copyMode).

Definition getSystemInfoMetrics (s : Server) (req : GetMetricsRequest.t) : M (string * option Err) :=
  call C_getSystemInfoMetrics (server_getSystemInfoMetrics s req).

Definition fillReplicaInfo (s : Server) (replica : meta.Replica) (withShardNodes : bool) : M ReplicaInfo.t :=
  call (C_fillReplicaInfo replica) (server_fillReplicaInfo s replica withShardNodes).

Definition CheckLeaderAvailable (s : Server) (leader : meta.LeaderView)
  (currentTargets : gmap Z meta.TargetSegment) : M (option Err) :=
  call (C_CheckLeaderAvailable leader) (checkers_CheckLeaderAvailable s leader currentTargets).

Definition GetComponentConfigurations (s : Server) (componentName pattern : string)
  : M (list (string * string)) :=
  call (C_GetComponentConfigurations pattern) (Params_GetComponentConfigurations s componentName pattern).

(** ** Handlers

    Loops with an early [return] are recursive functions over the slice
    they range over; a Go map or set is ranged over in the order of its
    [elements] (Go leaves that order unspecified, and no property below
    depends on it). *)

(** [fmt.Sprintf("%v", ids)] *)
Definition fmtds (ids : list Z) : string :=
  "[" ++ String.concat " " (map fmtd ids) ++ "]".

(** [lo.SliceToMap]: a later element replaces an earlier one with the same
    key. *)
Definition SliceToMap {A} (key : A -> Z) (l : list A) : gmap Z A :=
  fold_left (fun m a => <[key a := a]> m) l ∅.

(** [typeutil.Set.Insert] on a set kept as a duplicate-free list. *)
Definition Set_Insert {A} `{EqDecision A} (set : list A) (x : A) : list A :=
  if decide (x ∈ set) then set else set ++ [x].

Fixpoint ShowCollections_loop (s : Server) (isGetAll : bool) (collections : list UniqueID)
  (resp : ShowCollectionsResponse.t) : M (Outcome ShowCollectionsResponse.t) :=
  match collections with
  | [] => ret (Returned resp None)
  | collectionID :: rest =>
      collection <- GetCollection collectionID;
      percentage <- CalculateLoadPercentage s collectionID;
      if decide (percentage < 0) then
        if isGetAll then ShowCollections_loop s isGetAll rest resp
        else
          err <- GlobalFailedLoadCache_Get s collectionID;
          match err with
          | Some err =>
              ret (Returned
                     (ShowCollectionsResponse.mk (merr.Status (Some (errors.Wrap err "show collection failed")))
                        [] [] [] [])
                     None)
          | None =>
              ret (Returned
                     (ShowCollectionsResponse.mk
                        (merr.Status (Some (merr.WrapErrCollectionNotLoaded collectionID []))) [] [] [] [])
                     None)
          end
      else
        let refreshProgress := if meta_IsRefreshed s collection then 100 else 0 in
        available <- checkAnyReplicaAvailable s collectionID;
        ShowCollections_loop s isGetAll rest
          (ShowCollectionsResponse.mk
             (ShowCollectionsResponse.Status resp)
             (ShowCollectionsResponse.CollectionIDs resp ++ [collectionID])
             (ShowCollectionsResponse.InMemoryPercentages resp ++ [percentage])
             (ShowCollectionsResponse.QueryServiceAvailable resp ++ [available])
             (ShowCollectionsResponse.RefreshProgress resp ++ [refreshProgress]))
  end.

Definition ShowCollections (s : Server) (req : ShowCollectionsRequest.t)
  : M (Outcome ShowCollectionsResponse.t) :=
  state <- State s;
  match merr.CheckHealthy state with
  | Some err =>
      ret (Returned
             (ShowCollectionsResponse.mk (merr.Status (Some (errors.Wrap err "failed to show collections")))
                [] [] [] [])
             None)
  | None =>
      let ids := ShowCollectionsRequest.CollectionIDs req in
      let isGetAll := bool_decide (length ids = 0%nat) in
      all <- (if isGetAll then GetAllCollections else ret []);
      let collectionSet : gset Z := list_to_set ids ∪ list_to_set (map meta.CollectionID all) in
      let collections := elements collectionSet in
      out <- ShowCollections_loop s isGetAll collections
               (ShowCollectionsResponse.mk (commonpb.mkStatus None "") [] [] [] []);
      _ <- GlobalFailedLoadCache_TryExpire;
      ret out
  end.

Fixpoint ShowPartitions_loop (s : Server) (collectionID : UniqueID) (partitions : list UniqueID)
  (percentages : list Z) : M (Outcome ShowPartitionsResponse.t + list Z) :=
  match partitions with
  | [] => ret (inr percentages)
  | partitionID :: rest =>
      percentage <- GetPartitionLoadPercentage s partitionID;
      if decide (percentage < 0) then
        err <- GlobalFailedLoadCache_Get s collectionID;
        match err with
        | Some err =>
            ret (inl (Returned (ShowPartitionsResponse.mk (merr.Status (Some err)) [] [] []) None))
        | None =>
            ret (inl (Returned
                        (ShowPartitionsResponse.mk
                           (merr.Status (Some (merr.WrapErrPartitionNotLoaded (fmtd partitionID) []))) [] [] [])
                        None))
        end
      else ShowPartitions_loop s collectionID rest (percentages ++ [percentage])
  end.

Definition ShowPartitions (s : Server) (req : ShowPartitionsRequest.t)
  : M (Outcome ShowPartitionsResponse.t) :=
  state <- State s;
  match merr.CheckHealthy state with
  | Some err =>
      ret (Returned
             (ShowPartitionsResponse.mk (merr.Status (Some (errors.Wrap err "failed to show partitions")))
                [] [] [])
             None)
  | None =>
      let collectionID := ShowPartitionsRequest.CollectionID req in
      partitions <-
        (if decide (length (ShowPartitionsRequest.PartitionIDs req) = 0%nat)
         then ps <- GetPartitionsByCollection s collectionID; ret (map meta.PartitionID ps)
         else ret (ShowPartitionsRequest.PartitionIDs req));
      r <- ShowPartitions_loop s collectionID partitions [];
      out <-
        match r with
        | inl early => ret early
        | inr percentages =>
            collection <- GetCollection collectionID;
            let refreshProgress :=
              match collection with
              | Some c => if meta_IsRefreshed s (Some c) then 100 else 0
              | None => 0
              end in
            let refreshProgresses := map (fun _ => refreshProgress) partitions in
            ret (Returned
                   (ShowPartitionsResponse.mk merr.Success partitions percentages refreshProgresses)
                   None)
        end;
      _ <- GlobalFailedLoadCache_TryExpire;
      ret out
  end.

(** refreshCollection must be called after loading a collection.  Note
    that a collection's loading progress always stays at 100% after a
    successful load and will not get updated during refreshCollection. *)
Definition refreshCollection (s : Server) (collectionID : UniqueID) : M (option Err) :=
  collection <- GetCollection collectionID;
  match collection with
  | None => ret (Some (merr.WrapErrCollectionNotLoaded collectionID []))
  | Some c =>
      (* Check that collection is fully loaded. *)
      if decide (meta.Status c ≠ querypb.LoadStatus_Loaded) then
        ret (Some (merr.WrapErrCollectionNotLoaded collectionID ["collection not fully loaded"]))
      else
        (* Pull the latest target. *)
        r <- UpdateNextTarget s collectionID;
        match r with
        | inl err => ret (Some err)
        | inr readyCh =>
            _ <- SetRefreshNotifier collectionID readyCh;
            ret None
        end
  end.

Fixpoint checkResourceGroup_loop (collectionUsedRG : gset string) (len : nat) (rgNames : list string)
  : option Err :=
  match rgNames with
  | [] => None
  | rgName :: rest =>
      if bool_decide (0 < size collectionUsedRG)%nat && negb (bool_decide (rgName ∈ collectionUsedRG)) then
        Some (merr.WrapErrParameterInvalid "created resource group(s)" rgName
                ["given resource group not found"])
      else if bool_decide (1 < len)%nat && bool_decide (rgName = meta.DefaultResourceGroupName) then
        Some (merr.WrapErrParameterInvalid
                "no default resource group mixed with the other resource group(s)" rgName [])
      else checkResourceGroup_loop collectionUsedRG len rest
  end.

Definition checkResourceGroup (s : Server) (collectionID : UniqueID) (resourceGroups : list string)
  : M (option Err) :=
  if decide (length resourceGroups ≠ 0%nat) then
    collectionUsedRG <- GetResourceGroupByCollection s collectionID;
    ret (checkResourceGroup_loop collectionUsedRG (length resourceGroups) resourceGroups)
  else ret None.

Definition LoadCollection (s : Server) (req : LoadCollectionRequest.t) : M (Outcome commonpb.Status) :=
  state <- State s;
  match merr.CheckHealthy state with
  | Some err => ret (Returned (merr.Status (Some (errors.Wrap err "failed to load collection"))) None)
  | None =>
      (* If refresh mode is ON. *)
      if LoadCollectionRequest.Refresh req then
        err <- refreshCollection s (LoadCollectionRequest.CollectionID req);
        ret (Returned (merr.Status err) None)
      else
        err <- checkResourceGroup s (LoadCollectionRequest.CollectionID req)
                 (LoadCollectionRequest.ResourceGroups req);
        match err with
        | Some err => ret (Returned (merr.Status (Some (errors.Wrap err "failed to load collection"))) None)
        | None =>
            let loadJob := job.NewLoadCollectionJob req in
            _ <- jobScheduler_Add loadJob;
            err <- Wait s loadJob;
            match err with
            | Some err =>
                ret (Returned (merr.Status (Some (errors.Wrap err "failed to load collection"))) None)
            | None => ret (Returned merr.Success None)
            end
        end
  end.

Definition ReleaseCollection (s : Server) (req : ReleaseCollectionRequest.t)
  : M (Outcome commonpb.Status) :=
  state <- State s;
  match merr.CheckHealthy state with
  | Some err => ret (Returned (merr.Status (Some (errors.Wrap err "failed to release collection"))) None)
  | None =>
      let releaseJob := job.NewReleaseCollectionJob req in
      _ <- jobScheduler_Add releaseJob;
      err <- Wait s releaseJob;
      match err with
      | Some err =>
          ret (Returned (merr.Status (Some (errors.Wrap err "failed to release collection"))) None)
      | None =>
          _ <- GlobalFailedLoadCache_Remove (ReleaseCollectionRequest.CollectionID req);
          ret (Returned merr.Success None)
      end
  end.

Definition LoadPartitions (s : Server) (req : LoadPartitionsRequest.t) : M (Outcome commonpb.Status) :=
  state <- State s;
  match merr.CheckHealthy state with
  | Some err => ret (Returned (merr.Status (Some (errors.Wrap err "failed to load partitions"))) None)
  | None =>
      (* If refresh mode is ON. *)
      if LoadPartitionsRequest.Refresh req then
        err <- refreshCollection s (LoadPartitionsRequest.CollectionID req);
        ret (Returned (merr.Status err) None)
      else
        err <- checkResourceGroup s (LoadPartitionsRequest.CollectionID req)
                 (LoadPartitionsRequest.ResourceGroups req);
        match err with
        | Some err => ret (Returned (merr.Status (Some (errors.Wrap err "failed to load partitions"))) None)
        | None =>
            let loadJob := job.NewLoadPartitionJob req in
            _ <- jobScheduler_Add loadJob;
            err <- Wait s loadJob;
            match err with
            | Some err =>
                ret (Returned (merr.Status (Some (errors.Wrap err "failed to load partitions"))) None)
            | None => ret (Returned merr.Success None)
            end
        end
  end.

Definition ReleasePartitions (s : Server) (req : ReleasePartitionsRequest.t)
  : M (Outcome commonpb.Status) :=
  state <- State s;
  match merr.CheckHealthy state with
  | Some err => ret (Returned (merr.Status (Some (errors.Wrap err "failed to release partitions"))) None)
  | None =>
      if decide (length (ReleasePartitionsRequest.PartitionIDs req) = 0%nat) then
        ret (Returned
               (merr.Status (Some (merr.WrapErrParameterInvalid "any partition" "empty partition list" [])))
               None)
      else
        let releaseJob := job.NewReleasePartitionJob req in
        _ <- jobScheduler_Add releaseJob;
        err <- Wait s releaseJob;
        match err with
        | Some err =>
            ret (Returned (merr.Status (Some (errors.Wrap err "failed to release partitions"))) None)
        | None =>
            _ <- GlobalFailedLoadCache_Remove (ReleasePartitionsRequest.CollectionID req);
            ret (Returned merr.Success None)
        end
  end.

Fixpoint GetPartitionStates_released (notLoadResp : GetPartitionStatesResponse.t)
  (releasedPartitions : gset Z) (state : querypb.PartitionState) (partitions : list UniqueID)
  (states : list querypb.PartitionStates)
  : Outcome GetPartitionStatesResponse.t + list querypb.PartitionStates :=
  match partitions with
  | [] => inr states
  | partition :: rest =>
      if bool_decide (partition ∈ releasedPartitions) then inl (Returned notLoadResp None)
      else GetPartitionStates_released notLoadResp releasedPartitions state rest
             (states ++ [querypb.mkPartitionStates partition state])
  end.

Fixpoint GetPartitionStates_partitions (s : Server) (notLoadResp : GetPartitionStatesResponse.t)
  (partitions : list UniqueID) (states : list querypb.PartitionStates)
  : M (Outcome GetPartitionStatesResponse.t + list querypb.PartitionStates) :=
  match partitions with
  | [] => ret (inr states)
  | partitionID :: rest =>
      partition <- GetPartition s partitionID;
      match partition with
      | None => ret (inl (Returned notLoadResp None))
      | Some p =>
          let state :=
            if decide (100 <= meta.PartLoadPercentage p) then querypb.PartitionState_InMemory
            else querypb.PartitionState_PartialInMemory in
          GetPartitionStates_partitions s notLoadResp rest
            (states ++ [querypb.mkPartitionStates partitionID state])
      end
  end.

Definition GetPartitionStates (s : Server) (req : GetPartitionStatesRequest.t)
  : M (Outcome GetPartitionStatesResponse.t) :=
  state <- State s;
  match merr.CheckHealthy state with
  | Some err =>
      ret (Returned
             (GetPartitionStatesResponse.mk
                (merr.Status (Some (errors.Wrap err "failed to get partition states"))) [])
             None)
  | None =>
      let partitionIDs := GetPartitionStatesRequest.PartitionIDs req in
      let collectionID := GetPartitionStatesRequest.CollectionID req in
      let notLoadResp :=
        GetPartitionStatesResponse.mk
          (merr.Status (Some (merr.WrapErrPartitionNotLoaded (fmtds partitionIDs) []))) [] in
      loadType <- GetLoadType s collectionID;
      match loadType with
      | querypb.LoadType_LoadCollection =>
          collection <- GetCollection collectionID;
          match collection with
          | None => ret Panicked (* collection.LoadPercentage on a nil collection *)
          | Some c =>
              let state :=
                if decide (100 <= meta.LoadPercentage c) then querypb.PartitionState_InMemory
                else querypb.PartitionState_PartialInMemory in
              let releasedPartitions : gset Z := list_to_set (meta.ReleasedPartitions c) in
              match GetPartitionStates_released notLoadResp releasedPartitions state partitionIDs [] with
              | inl early => ret early
              | inr states => ret (Returned (GetPartitionStatesResponse.mk merr.Success states) None)
              end
          end
      | querypb.LoadType_LoadPartition =>
          r <- GetPartitionStates_partitions s notLoadResp partitionIDs [];
          match r with
          | inl early => ret early
          | inr states => ret (Returned (GetPartitionStatesResponse.mk merr.Success states) None)
          end
      | querypb.LoadType_UnKnownType => ret (Returned notLoadResp None)
      end
  end.

Fixpoint GetSegmentInfo_loop (s : Server) (segmentIDs : list UniqueID) (infos : list querypb.SegmentInfo)
  : M (Outcome GetSegmentInfoResponse.t + list querypb.SegmentInfo) :=
  match segmentIDs with
  | [] => ret (inr infos)
  | segmentID :: rest =>
      segments <- SegmentDistManager_GetByFilter s [meta.WithSegmentID segmentID];
      if decide (length segments = 0%nat) then
        let err := merr.WrapErrSegmentNotLoaded segmentID [] in
        let msg := "segment " ++ fmtd segmentID ++ " not found in any node" in
        ret (inl (Returned (GetSegmentInfoResponse.mk (merr.Status (Some (errors.Wrap err msg))) []) None))
      else
        let info := utils_MergeMetaSegmentIntoSegmentInfo s segments in
        GetSegmentInfo_loop s rest (infos ++ [info])
  end.

Definition GetSegmentInfo (s : Server) (req : GetSegmentInfoRequest.t)
  : M (Outcome GetSegmentInfoResponse.t) :=
  state <- State s;
  match merr.CheckHealthy state with
  | Some err =>
      ret (Returned
             (GetSegmentInfoResponse.mk (merr.Status (Some (errors.Wrap err "failed to get segment info"))) [])
             None)
  | None =>
      if decide (length (GetSegmentInfoRequest.SegmentIDs req) = 0%nat) then
        infos <- getCollectionSegmentInfo s (GetSegmentInfoRequest.CollectionID req);
        ret (Returned (GetSegmentInfoResponse.mk merr.Success infos) None)
      else
        r <- GetSegmentInfo_loop s (GetSegmentInfoRequest.SegmentIDs req) [];
        match r with
        | inl early => ret early
        | inr infos => ret (Returned (GetSegmentInfoResponse.mk merr.Success infos) None)
        end
  end.

Definition SyncNewCreatedPartition (s : Server) (req : SyncNewCreatedPartitionRequest.t)
  : M (Outcome commonpb.Status) :=
  state <- State s;
  match merr.CheckHealthy state with
  | Some err => ret (Returned (merr.Status (Some err)) None)
  | None =>
      let syncJob := job.NewSyncNewCreatedPartitionJob req in
      _ <- jobScheduler_Add syncJob;
      err <- Wait s syncJob;
      match err with
      | Some err => ret (Returned (merr.Status (Some err)) None)
      | None => ret (Returned merr.Success None)
      end
  end.

Definition isStoppingNode (s : Server) (nodeID : UniqueID) : M (option Err) :=
  r <- IsStoppingNode s nodeID;
  match r with
  | inl err => ret (Some err)
  | inr isStopping =>
      if isStopping then
        ret (Some (errors.New
                     ("failed to balance due to the source/destination node[" ++ fmtd nodeID
                      ++ "] is stopping")))
      else ret None
  end.

(** The loop over the named destinations of [LoadBalance]. *)
Fixpoint LoadBalance_dstNodes (replica : meta.Replica) (dstNodeIDs : list UniqueID)
  (dstNodeSet : gset Z) : Err + gset Z :=
  match dstNodeIDs with
  | [] => inr dstNodeSet
  | dstNode :: rest =>
      if negb (meta.Contains replica dstNode) then
        inl (merr.WrapErrNodeNotFound dstNode ["destination node not found in the same replica"])
      else LoadBalance_dstNodes replica rest ({[dstNode]} ∪ dstNodeSet)
  end.

(** check whether dstNode is healthy *)
Fixpoint LoadBalance_checkDst (s : Server) (dstNodes : list UniqueID) : M (option Err) :=
  match dstNodes with
  | [] => ret None
  | dstNode :: rest =>
      err <- isStoppingNode s dstNode;
      match err with
      | Some err =>
          ret (Some (errors.Wrap err
                       ("can't balance, because the destination node[" ++ fmtd dstNode ++ "] is invalid")))
      | None => LoadBalance_checkDst s rest
      end
  end.

(** check whether sealed segment exist *)
Fixpoint LoadBalance_sealed (s : Server) (segmentsMap : gmap Z meta.Segment)
  (sealedSegmentIDs : list UniqueID) (toBalance : list meta.Segment) : M (Err + list meta.Segment) :=
  match sealedSegmentIDs with
  | [] => ret (inr toBalance)
  | segmentID :: rest =>
      match segmentsMap !! segmentID with
      | None => ret (inl (merr.WrapErrSegmentNotFound segmentID ["segment not found in source node"]))
      | Some segment =>
          (* Only balance segments in targets *)
          target <- GetSealedSegment s (meta.SegCollectionID segment) (meta.SegmentID segment)
                      meta.CurrentTarget;
          match target with
          | None => LoadBalance_sealed s segmentsMap rest toBalance
          | Some _ => LoadBalance_sealed s segmentsMap rest (Set_Insert toBalance segment)
          end
      end
  end.

Definition LoadBalance (s : Server) (req : LoadBalanceRequest.t) : M (Outcome commonpb.Status) :=
  state <- State s;
  match merr.CheckHealthy state with
  | Some err => ret (Returned (merr.Status (Some (errors.Wrap err "failed to load balance"))) None)
  | None =>
      let collectionID := LoadBalanceRequest.CollectionID req in
      (* Verify request *)
      if decide (length (LoadBalanceRequest.SourceNodeIDs req) ≠ 1%nat) then
        ret (Returned
               (merr.Status
                  (Some (merr.WrapErrParameterInvalid "only 1 source node"
                           (fmtd (Z.of_nat (length (LoadBalanceRequest.SourceNodeIDs req)))
                            ++ " source nodes") [])))
               None)
      else
          percentage <- CalculateLoadPercentage s collectionID;
          if decide (percentage < 100) then
            ret (Returned (merr.Status (Some (merr.WrapErrCollectionNotFullyLoaded collectionID []))) None)
          else
            let srcNode := nth 0 (LoadBalanceRequest.SourceNodeIDs req) 0 in
            replica <- GetByCollectionAndNode s collectionID srcNode;
            match replica with
            | None =>
                ret (Returned
                       (merr.Status
                          (Some (merr.WrapErrNodeNotFound srcNode
                                   ["source node not found in any replica of collection "
                                    ++ fmtd collectionID])))
                       None)
            | Some replica =>
                err <- isStoppingNode s srcNode;
                match err with
                | Some err =>
                    ret (Returned
                           (merr.Status
                              (Some (errors.Wrap err
                                       ("can't balance, because the source node[" ++ fmtd srcNode
                                        ++ "] is invalid"))))
                           None)
                | None =>
                    (* when no dst node specified, default to use all other nodes in same *)
                    match
                      (if decide (length (LoadBalanceRequest.DstNodeIDs req) = 0%nat)
                       then inr (list_to_set (meta.Nodes replica) : gset Z)
                       else LoadBalance_dstNodes replica (LoadBalanceRequest.DstNodeIDs req) ∅)
                    with
                    | inl err => ret (Returned (merr.Status (Some err)) None)
                    | inr dstNodeSet =>
                        err <- LoadBalance_checkDst s (elements dstNodeSet);
                        match err with
                        | Some err => ret (Returned (merr.Status (Some err)) None)
                        | None =>
                            (* check sealed segment list *)
                            segments <- SegmentDistManager_GetByFilter s
                                          [meta.WithCollectionID collectionID; meta.WithNodeID srcNode];
                            let segmentsMap := SliceToMap meta.SegmentID segments in
                            r <- (if decide (length (LoadBalanceRequest.SealedSegmentIDs req) = 0%nat)
                                  then ret (inr (fold_left Set_Insert segments []))
                                  else LoadBalance_sealed s segmentsMap
                                         (LoadBalanceRequest.SealedSegmentIDs req) []);
                            match r with
                            | inl err => ret (Returned (merr.Status (Some err)) None)
                            | inr toBalance =>
                                err <- balanceSegments s (meta.ReplicaCollectionID replica) replica srcNode
                                         (elements dstNodeSet) toBalance true false;
                                match err with
                                | Some err =>
                                    ret (Returned
                                           (merr.Status (Some (errors.Wrap err "failed to balance segments")))
                                           None)
                                | None => ret (Returned merr.Success None)
                                end
                            end
                        end
                    end
                end
            end
  end.

Definition ShowConfigurations (s : Server) (req : ShowConfigurationsRequest.t)
  : M (Outcome ShowConfigurationsResponse.t) :=
  state <- State s;
  match merr.CheckHealthy state with
  | Some err =>
      ret (Returned
             (ShowConfigurationsResponse.mk
                (merr.Status (Some (errors.Wrap err "failed to show configurations"))) [])
             None)
  | None =>
      configs <- GetComponentConfigurations s "querycoord" (ShowConfigurationsRequest.Pattern req);
      let configList := map (fun kv => commonpb.mkKeyValuePair (fst kv) (snd kv)) configs in
      ret (Returned (ShowConfigurationsResponse.mk merr.Success configList) None)
  end.

Definition GetMetrics (s : Server) (req : GetMetricsRequest.t) : M (Outcome GetMetricsResponse.t) :=
  state <- State s;
  match merr.CheckHealthyStandby state with
  | Some err =>
      ret (Returned
             (GetMetricsResponse.mk (merr.Status (Some (errors.Wrap err "failed to get metrics"))) "" "")
             None)
  | None =>
      let componentName := metricsinfo_ConstructComponentName s in
      match metricsinfo_ParseMetricType s (GetMetricsRequest.Request req) with
      | inl err =>
          ret (Returned
                 (GetMetricsResponse.mk
                    (merr.Status (Some (errors.Wrap err "failed to parse metric type"))) "" componentName)
                 None)
      | inr metricType =>
          if decide (metricType ≠ metricsinfo_SystemInfoMetrics s) then
            let err := errors.New (metricsinfo_MsgUnimplementedMetric s) in
            ret (Returned
                   (GetMetricsResponse.mk (merr.Status (Some (errors.Wrap err "invalid metric type")))
                      "" componentName)
                   None)
          else
            r <- getSystemInfoMetrics s req;
            match snd r with
            | Some err =>
                ret (Returned
                       (GetMetricsResponse.mk
                          (merr.Status (Some (errors.Wrap err "failed to get system info metrics")))
                          (fst r) componentName)
                       None)
            | None => ret (Returned (GetMetricsResponse.mk merr.Success (fst r) componentName) None)
            end
      end
  end.

(** A loop without early exit that calls collaborators. *)
Fixpoint foldM {A B} (f : B -> A -> M B) (l : list A) (b : B) : M B :=
  match l with
  | [] => ret b
  | a :: rest => b' <- f b a; foldM f rest b'
  end.

Definition GetReplicas (s : Server) (req : GetReplicasRequest.t) : M (Outcome GetReplicasResponse.t) :=
  state <- State s;
  match merr.CheckHealthy state with
  | Some err =>
      ret (Returned
             (GetReplicasResponse.mk (Some (merr.Status (Some (errors.Wrap err "failed to get replicas")))) [])
             None)
  | None =>
      replicas <- GetByCollection s (GetReplicasRequest.CollectionID req);
      if decide (length replicas = 0%nat) then
        ret (Returned (GetReplicasResponse.mk None []) None)
      else
        infos <- foldM (fun (acc : list ReplicaInfo.t) replica =>
                          info <- fillReplicaInfo s replica (GetReplicasRequest.WithShardNodes req);
                          ret (acc ++ [info])%list)
                   replicas [];
        ret (Returned (GetReplicasResponse.mk (Some merr.Success) infos) None)
  end.

(** The loop of [GetShardLeaders] over the leader views of one channel:
    the readable leaders by node, and the accumulated [channelErr]. *)
Definition GetShardLeaders_leader (s : Server) (currentTargets : gmap Z meta.TargetSegment)
  (acc : gmap Z meta.LeaderView * option Err) (leader : meta.LeaderView)
  : M (gmap Z meta.LeaderView * option Err) :=
  err <- CheckLeaderAvailable s leader currentTargets;
  match err with
  | Some err => ret (fst acc, multierr_AppendInto (snd acc) err)
  | None => ret (<[meta.ID leader := leader]> (fst acc), snd acc)
  end.

Definition GetShardLeaders_leaders (s : Server) (currentTargets : gmap Z meta.TargetSegment)
  (leaders : list meta.LeaderView) (channelErr : option Err)
  : M (gmap Z meta.LeaderView * option Err) :=
  foldM (GetShardLeaders_leader s currentTargets) leaders (∅, channelErr).

(** The addressing loop: identifiers and addresses of the leaders the
    node manager still knows. *)
Definition GetShardLeaders_addrs (s : Server) (readableLeaders : list meta.LeaderView)
  : M (list UniqueID * list string) :=
  foldM (fun (acc : list UniqueID * list string) leader =>
           info <- nodeMgr_Get_call s (meta.ID leader);
           match info with
           | Some info => ret ((fst acc ++ [session.ID info])%list, (snd acc ++ [session.Addr info])%list)
           | None => ret acc
           end)
        readableLeaders ([], []).

Fixpoint GetShardLeaders_channels (s : Server) (currentTargets : gmap Z meta.TargetSegment)
  (channels : list meta.DmChannel) (resp : GetShardLeadersResponse.t)
  : M (Outcome GetShardLeadersResponse.t) :=
  match channels with
  | [] => ret (Returned resp None)
  | channel :: rest =>
      let name := meta.ChannelName channel in
      leaders <- LeaderViewManager_GetByFilter s [meta.WithChannelName2LeaderView name];
      let channelErr :=
        if decide (length leaders = 0%nat)
        then Some (merr.WrapErrChannelLack name ["channel not subscribed"])
        else None in
      r <- GetShardLeaders_leaders s currentTargets leaders channelErr;
      let readableLeaders := fst r in
      let channelErr := snd r in
      if decide (size readableLeaders = 0%nat) then
        match channelErr with
        | None => ret Panicked (* channelErr.Error() on a nil error *)
        | Some channelErr =>
            ret (Returned
                   (GetShardLeadersResponse.mk
                      (merr.Status
                         (Some (errors.Wrap (merr.WrapErrChannelNotAvailable name []) (errMsg channelErr))))
                      [])
                   None)
        end
      else
        let readableLeaders := server_filterDupLeaders s readableLeaders in
        a <- GetShardLeaders_addrs s (map snd (map_to_list readableLeaders));
        let ids := fst a in
        let addrs := snd a in
        (* to avoid node down during GetShardLeaders *)
        if decide (length ids = 0%nat) then
          match channelErr with
          | None => ret Panicked (* channelErr.Error() on a nil error *)
          | Some channelErr =>
              ret (Returned
                     (GetShardLeadersResponse.mk
                        (merr.Status
                           (Some (errors.Wrap (merr.WrapErrChannelNotAvailable name []) (errMsg channelErr))))
                        [])
                     None)
          end
        else
          GetShardLeaders_channels s currentTargets rest
            (GetShardLeadersResponse.mk
               (GetShardLeadersResponse.Status resp)
               (GetShardLeadersResponse.Shards resp ++ [querypb.mkShardLeadersList name ids addrs]))
  end.

(** The second half of [GetShardLeaders], from the channel lookup on: what
    a collection that passed the load check goes through. *)
Definition GetShardLeaders_resolve (s : Server) (collectionID : UniqueID)
  (resp : GetShardLeadersResponse.t) : M (Outcome GetShardLeadersResponse.t) :=
  channels <- GetDmChannelsByCollection s collectionID meta.CurrentTarget;
  if decide (length channels = 0%nat) then
    ret (Returned
           (GetShardLeadersResponse.mk
              (merr.Status
                 (Some (merr.WrapErrCollectionOnRecovering collectionID
                          ["loaded collection do not found any channel in target, may be in recovery"])))
              (GetShardLeadersResponse.Shards resp))
           None)
  else
    currentTargets <- GetSealedSegmentsByCollection s collectionID meta.CurrentTarget;
    GetShardLeaders_channels s currentTargets channels resp.

Definition GetShardLeaders (s : Server) (req : GetShardLeadersRequest.t)
  : M (Outcome GetShardLeadersResponse.t) :=
  state <- State s;
  match merr.CheckHealthy state with
  | Some err =>
      ret (Returned
             (GetShardLeadersResponse.mk
                (merr.Status (Some (errors.Wrap err "failed to get shard leaders"))) [])
             None)
  | None =>
      let collectionID := GetShardLeadersRequest.CollectionID req in
      let resp := GetShardLeadersResponse.mk merr.Success [] in
      percentage <- CalculateLoadPercentage s collectionID;
      if decide (percentage < 0) then
        ret (Returned
               (GetShardLeadersResponse.mk
                  (merr.Status (Some (merr.WrapErrCollectionNotLoaded collectionID [])))
                  (GetShardLeadersResponse.Shards resp))
               None)
      else
        collection <- GetCollection collectionID;
        let percentage :=
          match collection with
          | Some c =>
              (* when collection is loaded, regard collection as readable, set percentage == 100 *)
              if decide (meta.Status c = querypb.LoadStatus_Loaded) then 100 else percentage
          | None => percentage
          end in
        if decide (percentage < 100) then
          ret (Returned
                 (GetShardLeadersResponse.mk
                    (merr.Status (Some (merr.WrapErrCollectionNotFullyLoaded collectionID [])))
                    (GetShardLeadersResponse.Shards resp))
                 None)
        else GetShardLeaders_resolve s collectionID resp
  end.

(** The fan-out of [checkNodeHealth]: one task per node.  The tasks run
    concurrently; the list is taken in the order in which the tasks
    complete, which is the order in which the reasons are appended under
    the mutex and the order that decides which error [group.Wait] keeps
    (the first).  A task that fails does not stop the others from
    reporting. *)
Definition checkNodeHealth_task (s : Server) (acc : list string * option Err)
  (node : session.NodeInfo) : M (list string * option Err) :=
  r <- GetComponentStates s (session.ID node);
  match r with
  | inl err =>
      ret (fst acc, match snd acc with Some first => Some first | None => Some err end)
  | inr resp =>
      match merr_AnalyzeState s "QueryNode" (session.ID node) resp with
      | Some err => ret ((fst acc ++ [errMsg err])%list, snd acc)
      | None => ret acc
      end
  end.

Definition checkNodeHealth_tasks (s : Server) (nodes : list session.NodeInfo)
  : M (list string * option Err) :=
  foldM (checkNodeHealth_task s) nodes ([], None).

Definition checkNodeHealth (s : Server) : M (list string * option Err) :=
  nodes <- nodeMgr_GetAll_call s;
  checkNodeHealth_tasks s nodes.

Definition CheckHealth (s : Server) (req : CheckHealthRequest.t) : M (Outcome CheckHealthResponse.t) :=
  state <- State s;
  match merr.CheckHealthy state with
  | Some err =>
      ret (Returned (CheckHealthResponse.mk (merr.Status (Some err)) false [errMsg err]) None)
  | None =>
      r <- checkNodeHealth s;
      let errReasons := fst r in
      let err := snd r in
      if bool_decide (err ≠ None) || bool_decide (length errReasons ≠ 0%nat) then
        ret (Returned (CheckHealthResponse.mk merr.Success false errReasons) None)
      else
        ret (Returned (CheckHealthResponse.mk merr.Success true errReasons) None)
  end.

Definition CreateResourceGroup (s : Server) (req : CreateResourceGroupRequest.t)
  : M (Outcome commonpb.Status) :=
  state <- State s;
  match merr.CheckHealthy state with
  | Some err => ret (Returned (merr.Status (Some err)) None)
  | None =>
      err <- AddResourceGroup s (CreateResourceGroupRequest.ResourceGroup req)
               (CreateResourceGroupRequest.Config req);
      match err with
      | Some err => ret (Returned (merr.Status (Some err)) None)
      | None => ret (Returned merr.Success None)
      end
  end.

Definition UpdateResourceGroups (s : Server) (req : UpdateResourceGroupsRequest.t)
  : M (Outcome commonpb.Status) :=
  state <- State s;
  match merr.CheckHealthy state with
  | Some err => ret (Returned (merr.Status (Some err)) None)
  | None =>
      err <- ResourceManager_UpdateResourceGroups s (UpdateResourceGroupsRequest.ResourceGroups req);
      match err with
      | Some err => ret (Returned (merr.Status (Some err)) None)
      | None => ret (Returned merr.Success None)
      end
  end.

Definition DropResourceGroup (s : Server) (req : DropResourceGroupRequest.t)
  : M (Outcome commonpb.Status) :=
  state <- State s;
  match merr.CheckHealthy state with
  | Some err => ret (Returned (merr.Status (Some err)) None)
  | None =>
      let rgName := DropResourceGroupRequest.ResourceGroup req in
      replicas <- GetByResourceGroup s rgName;
      match replicas with
      | first :: _ =>
          let err :=
            merr.WrapErrParameterInvalid "empty resource group"
              ("resource group " ++ rgName ++ " has collection "
               ++ fmtd (meta.ReplicaCollectionID first) ++ " loaded") [] in
          ret (Returned
                 (merr.Status
                    (Some (errors.Wrap err
                             ("some replicas still loaded in resource group[" ++ rgName
                              ++ "], release it first"))))
                 None)
      | [] =>
          err <- RemoveResourceGroup s rgName;
          match err with
          | Some err => ret (Returned (merr.Status (Some err)) None)
          | None => ret (Returned merr.Success None)
          end
      end
  end.

(** go:deprecated TransferNode transfer nodes between resource groups. *)
Definition TransferNode (s : Server) (req : TransferNodeRequest.t) : M (Outcome commonpb.Status) :=
  state <- State s;
  match merr.CheckHealthy state with
  | Some err => ret (Returned (merr.Status (Some err)) None)
  | None =>
      (* Move node from source resource group to target resource group. *)
      err <- ResourceManager_TransferNode s (TransferNodeRequest.SourceResourceGroup req)
               (TransferNodeRequest.TargetResourceGroup req) (TransferNodeRequest.NumNode req);
      match err with
      | Some err => ret (Returned (merr.Status (Some err)) None)
      | None =>
          (* Recover all replica on the source and target resource group. *)
          _ <- RecoverAllCollection;
          ret (Returned merr.Success None)
      end
  end.

Definition TransferReplica (s : Server) (req : TransferReplicaRequest.t) : M (Outcome commonpb.Status) :=
  state <- State s;
  match merr.CheckHealthy state with
  | Some err => ret (Returned (merr.Status (Some err)) None)
  | None =>
      let source := TransferReplicaRequest.SourceResourceGroup req in
      let target := TransferReplicaRequest.TargetResourceGroup req in
      ok <- ContainResourceGroup s source;
      if negb ok then
        let err := merr.WrapErrResourceGroupNotFound source [] in
        ret (Returned
               (merr.Status
                  (Some (errors.Wrap err ("the source resource group[" ++ source ++ "] doesn't exist"))))
               None)
      else
        ok <- ContainResourceGroup s target;
        if negb ok then
          let err := merr.WrapErrResourceGroupNotFound target [] in
          ret (Returned
                 (merr.Status
                    (Some (errors.Wrap err ("the target resource group[" ++ target ++ "] doesn't exist"))))
                 None)
        else
          (* Apply change into replica manager. *)
          err <- meta_TransferReplica_call s (TransferReplicaRequest.CollectionID req) source target
                   (TransferReplicaRequest.NumReplica req);
          ret (Returned (merr.Status err) None)
  end.

Definition ListResourceGroups (s : Server) (req : ListResourceGroupsRequest.t)
  : M (Outcome ListResourceGroupsResponse.t) :=
  state <- State s;
  match merr.CheckHealthy state with
  | Some err => ret (Returned (ListResourceGroupsResponse.mk (merr.Status (Some err)) []) None)
  | None =>
      rgs <- ResourceManager_ListResourceGroups s;
      ret (Returned (ListResourceGroupsResponse.mk merr.Success rgs) None)
  end.

(** Conversion to [int32], and [m[k]++] on a [map[int64]int32]. *)
Definition int32 (z : Z) : Z := (z + 2147483648) mod 4294967296 - 2147483648.

Definition incr (m : gmap Z Z) (k : Z) : gmap Z Z := <[k := int32 (default 0 (m !! k) + 1)]> m.

(** The two counting passes and the node listing of
    [DescribeResourceGroup]. *)
Definition DescribeResourceGroup_outgoing (s : Server) (replicasInRG : list meta.Replica)
  : M (gmap Z Z * gmap Z Z) :=
  foldM (fun (acc : gmap Z Z * gmap Z Z) replica =>
           let loadedReplicas := incr (fst acc) (meta.ReplicaCollectionID replica) in
           outgoingNodes <-
             foldM (fun (out : gmap Z Z) node =>
                      c <- ContainsNode s (meta.ReplicaResourceGroup replica) node;
                      if negb c then ret (incr out (meta.ReplicaCollectionID replica)) else ret out)
                   (meta.Nodes replica) (snd acc);
           ret (loadedReplicas, outgoingNodes))
        replicasInRG (∅, ∅).

Definition DescribeResourceGroup_incoming (s : Server) (rgName : string) (collections : list UniqueID)
  : M (gmap Z Z) :=
  foldM (fun (incomingNodes : gmap Z Z) collection =>
           replicas <- GetByCollection s collection;
           foldM (fun (inc : gmap Z Z) replica =>
                    if decide (meta.ReplicaResourceGroup replica = rgName) then ret inc
                    else
                      foldM (fun (inc : gmap Z Z) node =>
                               c <- ContainsNode s rgName node;
                               if c then ret (incr inc collection) else ret inc)
                            (meta.Nodes replica) inc)
                 replicas incomingNodes)
        collections ∅.

Definition DescribeResourceGroup_nodes (s : Server) (nodeIDs : list UniqueID)
  : M (list commonpb.NodeInfo) :=
  foldM (fun (nodes : list commonpb.NodeInfo) nodeID =>
           nodeSessionInfo <- nodeMgr_Get_call s nodeID;
           (* Filter offline nodes and nodes in stopping state *)
           match nodeSessionInfo with
           | Some info =>
               if negb (session.IsStoppingState info) then
                 ret (nodes ++ [commonpb.mkNodeInfo (session.ID info) (session.Addr info)
                                  (session.Hostname info)])%list
               else ret nodes
           | None => ret nodes
           end)
        nodeIDs [].

Definition DescribeResourceGroup (s : Server) (req : DescribeResourceGroupRequest.t)
  : M (Outcome DescribeResourceGroupResponse.t) :=
  state <- State s;
  match merr.CheckHealthy state with
  | Some err => ret (Returned (DescribeResourceGroupResponse.mk (merr.Status (Some err)) None) None)
  | None =>
      let rgName := DescribeResourceGroupRequest.ResourceGroup req in
      rg <- GetResourceGroup s rgName;
      match rg with
      | None =>
          ret (Returned
                 (DescribeResourceGroupResponse.mk
                    (merr.Status (Some (merr.WrapErrResourceGroupNotFound rgName []))) None)
                 None)
      | Some rg =>
          replicasInRG <- GetByResourceGroup s rgName;
          counts <- DescribeResourceGroup_outgoing s replicasInRG;
          collections <- GetAll s;
          incomingNodes <- DescribeResourceGroup_incoming s rgName collections;
          nodes <- DescribeResourceGroup_nodes s (meta.RGNodes rg);
          ret (Returned
                 (DescribeResourceGroupResponse.mk merr.Success
                    (Some (querypb.mkResourceGroupInfo rgName
                             (int32 (meta.RGCapacity rg))
                             (int32 (Z.of_nat (length nodes)))
                             (fst counts) (snd counts) incomingNodes
                             (meta.RGConfig rg) nodes)))
                 None)
      end
  end.

(** ** The RPC surface: every handler of the file behind one entry
    point. *)

Inductive Request :=
| ReqShowCollections (req : ShowCollectionsRequest.t)
| ReqShowPartitions (req : ShowPartitionsRequest.t)
| ReqLoadCollection (req : LoadCollectionRequest.t)
| ReqReleaseCollection (req : ReleaseCollectionRequest.t)
| ReqLoadPartitions (req : LoadPartitionsRequest.t)
| ReqReleasePartitions (req : ReleasePartitionsRequest.t)
| ReqGetPartitionStates (req : GetPartitionStatesRequest.t)
| ReqGetSegmentInfo (req : GetSegmentInfoRequest.t)
| ReqSyncNewCreatedPartition (req : SyncNewCreatedPartitionRequest.t)
| ReqLoadBalance (req : LoadBalanceRequest.t)
| ReqShowConfigurations (req : ShowConfigurationsRequest.t)
| ReqGetMetrics (req : GetMetricsRequest.t)
| ReqGetReplicas (req : GetReplicasRequest.t)
| ReqGetShardLeaders (req : GetShardLeadersRequest.t)
| ReqCheckHealth (req : CheckHealthRequest.t)
| ReqCreateResourceGroup (req : CreateResourceGroupRequest.t)
| ReqUpdateResourceGroups (req : UpdateResourceGroupsRequest.t)
| ReqDropResourceGroup (req : DropResourceGroupRequest.t)
| ReqTransferNode (req : TransferNodeRequest.t)
| ReqTransferReplica (req : TransferReplicaRequest.t)
| ReqListResourceGroups (req : ListResourceGroupsRequest.t)
| ReqDescribeResourceGroup (req : DescribeResourceGroupRequest.t).

(** The Go-level error a handler hands to the transport, if it returns. *)
Definition goError {R} (o : Outcome R) : option (option Err) :=
  match o with
  | Returned _ err => Some err
  | Panicked => None
  end.

(** The transport-level result of serving [r]: [None] when the handler
    panics, otherwise the error value it returns next to its response. *)
Definition serve (s : Server) (r : Request) (st : St) : option (option Err) :=
  match r with
  | ReqShowCollections req => goError (fst (ShowCollections s req st))
  | ReqShowPartitions req => goError (fst (ShowPartitions s req st))
  | ReqLoadCollection req => goError (fst (LoadCollection s req st))
  | ReqReleaseCollection req => goError (fst (ReleaseCollection s req st))
  | ReqLoadPartitions req => goError (fst (LoadPartitions s req st))
  | ReqReleasePartitions req => goError (fst (ReleasePartitions s req st))
  | ReqGetPartitionStates req => goError (fst (GetPartitionStates s req st))
  | ReqGetSegmentInfo req => goError (fst (GetSegmentInfo s req st))
  | ReqSyncNewCreatedPartition req => goError (fst (SyncNewCreatedPartition s req st))
  | ReqLoadBalance req => goError (fst (LoadBalance s req st))
  | ReqShowConfigurations req => goError (fst (ShowConfigurations s req st))
  | ReqGetMetrics req => goError (fst (GetMetrics s req st))
  | ReqGetReplicas req => goError (fst (GetReplicas s req st))
  | ReqGetShardLeaders req => goError (fst (GetShardLeaders s req st))
  | ReqCheckHealth req => goError (fst (CheckHealth s req st))
  | ReqCreateResourceGroup req => goError (fst (CreateResourceGroup s req st))
  | ReqUpdateResourceGroups req => goError (fst (UpdateResourceGroups s req st))
  | ReqDropResourceGroup req => goError (fst (DropResourceGroup s req st))
  | ReqTransferNode req => goError (fst (TransferNode s req st))
  | ReqTransferReplica req => goError (fst (TransferReplica s req st))
  | ReqListResourceGroups req => goError (fst (ListResourceGroups s req st))
  | ReqDescribeResourceGroup req => goError (fst (DescribeResourceGroup s req st))
  end.

(** ** Observing a run *)

(** The collaborator calls [m] issues when run from [st], oldest first. *)
Definition issued {A} (m : M A) (st : St) : list Call :=
  drop (length (calls st)) (calls (snd (m st))).

Definition is_jobScheduler_Add (c : Call) : bool :=
  match c with C_jobScheduler_Add _ => true | _ => false end.

Definition is_TransferReplica (c : Call) : bool :=
  match c with C_TransferReplica _ _ _ _ => true | _ => false end.

Definition is_balanceSegments (c : Call) : bool :=
  match c with C_balanceSegments _ _ _ _ _ _ _ => true | _ => false end.

(** The status a handler returned, if it returned. *)
Definition statusOf (o : Outcome commonpb.Status) : option commonpb.Status :=
  match o with Returned st _ => Some st | Panicked => None end.

(** The failure kind of the status a handler returned. *)
Definition failureOf (o : Outcome commonpb.Status) : option ErrKind :=
  match o with Returned st _ => commonpb.Code st | Panicked => None end.

(** The initial state of a run: a collection store and an empty log. *)
Definition start (cs : gmap Z meta.Collection) : St := mkSt cs [].

(** ** Concrete deployments

    A deployment fixes what the collaborators answer; every field the
    scenario does not mention answers with the neutral value (no error,
    nothing found). *)

Record Scenario := mkScenario
  { sc_State : commonpb.StateCode;
    sc_percentage : UniqueID -> Z;
    sc_usedRG : UniqueID -> gset string;
    sc_replicaOf : UniqueID -> UniqueID -> option meta.Replica;
    sc_containRG : string -> bool;
    sc_segments : list meta.Segment;
    sc_inTarget : UniqueID -> bool;
    sc_channels : list meta.DmChannel;
    sc_leaders : list meta.LeaderView;
    sc_leaderErr : meta.LeaderView -> option Err;
    sc_nodes : list session.NodeInfo;
    sc_registered : UniqueID -> bool;
    sc_probe : UniqueID -> Err + ComponentStates.t;
    sc_updateNextTarget : UniqueID -> Err + meta.Notifier }.

Definition scenarioServer (sc : Scenario) : Server :=
  {| server_State := sc_State sc;
     meta_CalculateLoadPercentage := sc_percentage sc;
     meta_GetPartitionsByCollection := fun _ => [];
     meta_GetPartitionLoadPercentage := fun _ => 100;
     meta_GetLoadType := fun _ => querypb.LoadType_LoadCollection;
     meta_GetPartition := fun _ => None;
     meta_GetAll := [];
     meta_IsRefreshed := fun _ => true;
     FailedLoadCache_Get := fun _ => None;
     meta_GetResourceGroupByCollection := sc_usedRG sc;
     meta_GetByCollectionAndNode := sc_replicaOf sc;
     meta_GetByCollection := fun _ => [];
     meta_GetByResourceGroup := fun _ => [];
     meta_TransferReplica := fun _ _ _ _ => None;
     meta_ContainResourceGroup := sc_containRG sc;
     meta_AddResourceGroup := fun _ _ => None;
     meta_UpdateResourceGroups := fun _ => None;
     meta_RemoveResourceGroup := fun _ => None;
     meta_TransferNode := fun _ _ _ => None;
     meta_ListResourceGroups := [meta.DefaultResourceGroupName];
     meta_GetResourceGroup := fun _ => None;
     meta_ContainsNode := fun _ _ => false;
     dist_SegmentDistManager_GetByFilter := fun _ => sc_segments sc;
     dist_LeaderViewManager_GetByFilter := fun _ => sc_leaders sc;
     targetMgr_GetSealedSegment :=
       fun _ segmentID _ =>
         if sc_inTarget sc segmentID then Some (meta.mkTargetSegment segmentID "ch") else None;
     targetMgr_GetDmChannelsByCollection := fun _ _ => sc_channels sc;
     targetMgr_GetSealedSegmentsByCollection := fun _ _ => ∅;
     targetObserver_UpdateNextTarget := sc_updateNextTarget sc;
     nodeMgr_IsStoppingNode :=
       fun nodeID =>
         match find (fun n => bool_decide (session.ID n = nodeID)) (sc_nodes sc) with
         | Some n => inr (session.IsStoppingState n)
         | None => inl (merr.WrapErrNodeNotFound nodeID [])
         end;
     nodeMgr_Get :=
       fun nodeID =>
         if sc_registered sc nodeID
         then find (fun n => bool_decide (session.ID n = nodeID)) (sc_nodes sc)
         else None;
     nodeMgr_GetAll := sc_nodes sc;
     cluster_GetComponentStates := sc_probe sc;
     job_Wait := fun _ => None;
     server_checkAnyReplicaAvailable := fun _ => true;
     server_getCollectionSegmentInfo := fun _ => [];
     server_balanceSegments := fun _ _ _ _ _ _ _ => None;
     server_getSystemInfoMetrics := fun _ => ("", None);
     server_fillReplicaInfo :=
       fun r _ =>
         ReplicaInfo.mk (meta.ReplicaID r) (meta.ReplicaCollectionID r) (meta.Nodes r)
           (meta.ReplicaResourceGroup r);
     server_filterDupLeaders := fun leaders => leaders;
     checkers_CheckLeaderAvailable := fun leader _ => sc_leaderErr sc leader;
     merr_AnalyzeState :=
       fun role nodeID resp =>
         if decide (ComponentStates.StateCode resp = commonpb.Healthy) then None
         else Some (mkErr ServiceNotReady
                      (role ++ " " ++ fmtd nodeID ++ " is "
                       ++ StateCode_String (ComponentStates.StateCode resp)));
     utils_MergeMetaSegmentIntoSegmentInfo := fun _ => querypb.mkSegmentInfo 0 0 [];
     Params_GetComponentConfigurations := fun _ _ => [];
     metricsinfo_ConstructComponentName := "querycoord";
     metricsinfo_ParseMetricType := fun req => inr req;
     metricsinfo_SystemInfoMetrics := "system_info";
     metricsinfo_MsgUnimplementedMetric := "sorry, but this metric request type is not implemented" |}.

(** A healthy coordinator over three registered, healthy nodes, with
    collection 100 fully loaded on the replica of nodes 1 and 2 in
    resource group rgA. *)
Definition node (id : UniqueID) (stopping : bool) : session.NodeInfo :=
  session.mkNodeInfo id ("10.0.0." ++ fmtd id ++ ":21123") ("qn-" ++ fmtd id) stopping.

Definition replica12 : meta.Replica := meta.mkReplica 7 100 "rgA" [1; 2].

Definition healthyProbe : Err + ComponentStates.t :=
  inr (ComponentStates.mk merr.Success commonpb.Healthy).

Definition baseline : Scenario :=
  {| sc_State := commonpb.Healthy;
     sc_percentage := fun id => if decide (id = 100) then 100 else -1;
     sc_usedRG := fun id => if decide (id = 100) then {["rgA"]} else ∅;
     sc_replicaOf :=
       fun id nodeID =>
         if decide (id = 100) then
           if bool_decide (nodeID ∈ meta.Nodes replica12) then Some replica12 else None
         else None;
     sc_containRG := fun rg => bool_decide (rg ∈ ["rgA"; meta.DefaultResourceGroupName]);
     sc_segments := [meta.mkSegment 11 100 1 1; meta.mkSegment 12 100 1 1];
     sc_inTarget := fun segmentID => bool_decide (segmentID = 11);
     sc_channels := [meta.mkDmChannel "dml-0"];
     sc_leaders := [meta.mkLeaderView 1 100 "dml-0" 3];
     sc_leaderErr := fun _ => None;
     sc_nodes := [node 1 false; node 2 false; node 3 false];
     sc_registered := fun _ => true;
     sc_probe := fun _ => healthyProbe;
     sc_updateNextTarget := fun _ => inr 1 |}.

Definition loaded100 : gmap Z meta.Collection :=
  {[ 100 := meta.mkCollection 100 querypb.LoadStatus_Loaded 100 [] None ]}.

(** ** The properties in the words of the design *)

(** The validation rule of section 4.2 in the words of the design: a
    request violates it when the collection already has replicas and a
    named group holds none of them, or when it names more than one group
    and the default group is among them. *)
Definition violatesGroupRule (collectionUsedRG : gset string) (resourceGroups : list string) : Prop :=
  (collectionUsedRG ≠ ∅ /\ exists rg, rg ∈ resourceGroups /\ rg ∉ collectionUsedRG)
  \/ ((1 < length resourceGroups)%nat /\ meta.DefaultResourceGroupName ∈ resourceGroups).

(** A collection the refresh path accepts: present in the store with load
    status Loaded. *)
Definition isLoaded (cs : gmap Z meta.Collection) (collectionID : UniqueID) : Prop :=
  exists c, cs !! collectionID = Some c /\ meta.Status c = querypb.LoadStatus_Loaded.

(** The load percentage recorded for a collection, if it is in the
    store. *)
Definition percentageOf (st : St) (collectionID : UniqueID) : option Z :=
  meta.LoadPercentage <$> (collections st !! collectionID).

(** A segment identifier resides on the source node when the distribution
    of the collection on that node holds a segment with that
    identifier. *)
Definition residesOnSource (s : Server) (collectionID srcNode segmentID : UniqueID) : Prop :=
  exists seg,
    seg ∈ dist_SegmentDistManager_GetByFilter s
            [meta.WithCollectionID collectionID; meta.WithNodeID srcNode]
    /\ meta.SegmentID seg = segmentID.

(** A segment belongs to the current target. *)
Definition inCurrentTarget (s : Server) (seg : meta.Segment) : Prop :=
  is_Some (targetMgr_GetSealedSegment s (meta.SegCollectionID seg) (meta.SegmentID seg) meta.CurrentTarget).

(** The destination set of a request whose named destinations all belong
    to the replica. *)
Definition dstNodeSetOf (replica : meta.Replica) (dstNodeIDs : list UniqueID) : gset Z :=
  if decide (length dstNodeIDs = 0%nat) then list_to_set (meta.Nodes replica)
  else list_to_set dstNodeIDs.

(** The destinations of the first [balanceSegments] call of a log. *)
Fixpoint balanceDestinations (l : list Call) : option (list UniqueID) :=
  match l with
  | [] => None
  | C_balanceSegments _ _ _ dstNodes _ _ _ :: _ => Some dstNodes
  | _ :: rest => balanceDestinations rest
  end.

(** A run that only adds [l] to the log and leaves the store alone. *)
Definition logs {A} (m : M A) (st : St) (a : A) (l : list Call) : Prop :=
  m st = (a, mkSt (collections st) (calls st ++ l)).

(** The reasons of the nodes that answered the probe with a non-healthy
    state, in the order of [nodes]. *)
Fixpoint unhealthyReasons (s : Server) (nodes : list session.NodeInfo) : list string :=
  match nodes with
  | [] => []
  | node :: rest =>
      match cluster_GetComponentStates s (session.ID node) with
      | inr resp =>
          match merr_AnalyzeState s "QueryNode" (session.ID node) resp with
          | Some err => errMsg err :: unhealthyReasons s rest
          | None => unhealthyReasons s rest
          end
      | inl _ => unhealthyReasons s rest
      end
  end.

(** The first transport error among the probes of [nodes], if any. *)
Fixpoint firstProbeError (s : Server) (nodes : list session.NodeInfo) : option Err :=
  match nodes with
  | [] => None
  | node :: rest =>
      match cluster_GetComponentStates s (session.ID node) with
      | inl err => Some err
      | inr _ => firstProbeError s rest
      end
  end.

(** The failure kind and the shard list of a [GetShardLeaders] answer. *)
Definition leadersFailure (o : Outcome GetShardLeadersResponse.t) : option ErrKind :=
  match o with
  | Returned r _ => commonpb.Code (GetShardLeadersResponse.Status r)
  | Panicked => None
  end.

(** A transport error of the probe RPC. *)
Definition transportError : Err := mkErr Unexpected "rpc error: code = Unavailable".

(** Node 1 reports an abnormal state; node 2 is probed with the given
    answer; node 3 is healthy. *)
Definition fleetWithNode2 (probe2 : Err + ComponentStates.t) : Scenario :=
  {| sc_State := sc_State baseline;
     sc_percentage := sc_percentage baseline;
     sc_usedRG := sc_usedRG baseline;
     sc_replicaOf := sc_replicaOf baseline;
     sc_containRG := sc_containRG baseline;
     sc_segments := sc_segments baseline;
     sc_inTarget := sc_inTarget baseline;
     sc_channels := sc_channels baseline;
     sc_leaders := sc_leaders baseline;
     sc_leaderErr := sc_leaderErr baseline;
     sc_nodes := sc_nodes baseline;
     sc_registered := sc_registered baseline;
     sc_probe :=
       fun nodeID =>
         if decide (nodeID = 1) then inr (ComponentStates.mk merr.Success commonpb.Abnormal)
         else if decide (nodeID = 2) then probe2
         else healthyProbe;
     sc_updateNextTarget := sc_updateNextTarget baseline |}.

(** A single-node fleet whose node cannot be reached. *)
Definition unreachableFleet : Scenario :=
  {| sc_State := sc_State baseline;
     sc_percentage := sc_percentage baseline;
     sc_usedRG := sc_usedRG baseline;
     sc_replicaOf := sc_replicaOf baseline;
     sc_containRG := sc_containRG baseline;
     sc_segments := sc_segments baseline;
     sc_inTarget := sc_inTarget baseline;
     sc_channels := sc_channels baseline;
     sc_leaders := sc_leaders baseline;
     sc_leaderErr := sc_leaderErr baseline;
     sc_nodes := [node 1 false];
     sc_registered := sc_registered baseline;
     sc_probe := fun _ => inl transportError;
     sc_updateNextTarget := sc_updateNextTarget baseline |}.

(** The baseline after node 1, the only leader of channel dml-0, has left
    the node manager: its leader view still passes the availability
    check, the address lookup finds nothing. *)
Definition leaderGone : Scenario :=
  {| sc_State := sc_State baseline;
     sc_percentage := sc_percentage baseline;
     sc_usedRG := sc_usedRG baseline;
     sc_replicaOf := sc_replicaOf baseline;
     sc_containRG := sc_containRG baseline;
     sc_segments := sc_segments baseline;
     sc_inTarget := sc_inTarget baseline;
     sc_channels := sc_channels baseline;
     sc_leaders := sc_leaders baseline;
     sc_leaderErr := sc_leaderErr baseline;
     sc_nodes := sc_nodes baseline;
     sc_registered := fun nodeID => negb (bool_decide (nodeID = 1));
     sc_probe := sc_probe baseline;
     sc_updateNextTarget := sc_updateNextTarget baseline |}.

(** Collection 100 still marked Loaded while its load percentage is 50
    (a partition is being loaded into it). *)
Definition catchingUp : Scenario :=
  {| sc_State := sc_State baseline;
     sc_percentage := fun id => if decide (id = 100) then 50 else -1;
     sc_usedRG := sc_usedRG baseline;
     sc_replicaOf := sc_replicaOf baseline;
     sc_containRG := sc_containRG baseline;
     sc_segments := sc_segments baseline;
     sc_inTarget := sc_inTarget baseline;
     sc_channels := sc_channels baseline;
     sc_leaders := sc_leaders baseline;
     sc_leaderErr := sc_leaderErr baseline;
     sc_nodes := sc_nodes baseline;
     sc_registered := sc_registered baseline;
     sc_probe := sc_probe baseline;
     sc_updateNextTarget := sc_updateNextTarget baseline |}.

Definition loaded50 : gmap Z meta.Collection :=
  {[ 100 := meta.mkCollection 100 querypb.LoadStatus_Loaded 50 [] None ]}.

(** Collection 100 still loading, half way. *)
Definition loading50 : gmap Z meta.Collection :=
  {[ 100 := meta.mkCollection 100 querypb.LoadStatus_Loading 50 [] None ]}.

(** A handler outcome whose Go-level error, if the handler returned, is
    nil. *)
Definition nilError {R} (o : Outcome R) : Prop :=
  goError o = None \/ goError o = Some None.

(** ** The whole surface, observed

    [handle] runs the handler of a request and keeps, of its response,
    the status (a pointer that [GetReplicas] leaves nil on one path). *)

Definition mapOutcome {A B} (f : A -> B) (o : Outcome A) : Outcome B :=
  match o with
  | Returned resp err => Returned (f resp) err
  | Panicked => Panicked
  end.

Definition observe {R} (status : R -> option commonpb.Status) (m : M (Outcome R))
  : M (Outcome (option commonpb.Status)) :=
  fun st => let (o, st') := m st in (mapOutcome status o, st').

Definition handle (s : Server) (r : Request) : M (Outcome (option commonpb.Status)) :=
  match r with
  | ReqShowCollections req =>
      observe (fun resp => Some (ShowCollectionsResponse.Status resp)) (ShowCollections s req)
  | ReqShowPartitions req =>
      observe (fun resp => Some (ShowPartitionsResponse.Status resp)) (ShowPartitions s req)
  | ReqLoadCollection req => observe Some (LoadCollection s req)
  | ReqReleaseCollection req => observe Some (ReleaseCollection s req)
  | ReqLoadPartitions req => observe Some (LoadPartitions s req)
  | ReqReleasePartitions req => observe Some (ReleasePartitions s req)
  | ReqGetPartitionStates req =>
      observe (fun resp => Some (GetPartitionStatesResponse.Status resp)) (GetPartitionStates s req)
  | ReqGetSegmentInfo req =>
      observe (fun resp => Some (GetSegmentInfoResponse.Status resp)) (GetSegmentInfo s req)
  | ReqSyncNewCreatedPartition req => observe Some (SyncNewCreatedPartition s req)
  | ReqLoadBalance req => observe Some (LoadBalance s req)
  | ReqShowConfigurations req =>
      observe (fun resp => Some (ShowConfigurationsResponse.Status resp)) (ShowConfigurations s req)
  | ReqGetMetrics req => observe (fun resp => Some (GetMetricsResponse.Status resp)) (GetMetrics s req)
  | ReqGetReplicas req => observe GetReplicasResponse.Status (GetReplicas s req)
  | ReqGetShardLeaders req =>
      observe (fun resp => Some (GetShardLeadersResponse.Status resp)) (GetShardLeaders s req)
  | ReqCheckHealth req => observe (fun resp => Some (CheckHealthResponse.Status resp)) (CheckHealth s req)
  | ReqCreateResourceGroup req => observe Some (CreateResourceGroup s req)
  | ReqUpdateResourceGroups req => observe Some (UpdateResourceGroups s req)
  | ReqDropResourceGroup req => observe Some (DropResourceGroup s req)
  | ReqTransferNode req => observe Some (TransferNode s req)
  | ReqTransferReplica req => observe Some (TransferReplica s req)
  | ReqListResourceGroups req =>
      observe (fun resp => Some (ListResourceGroupsResponse.Status resp)) (ListResourceGroups s req)
  | ReqDescribeResourceGroup req =>
      observe (fun resp => Some (DescribeResourceGroupResponse.Status resp)) (DescribeResourceGroup s req)
  end.

#[global] Instance LoadCollectionRequest_eq_dec : EqDecision LoadCollectionRequest.t.
Proof. solve_decision. Defined.

#[global] Instance ReleaseCollectionRequest_eq_dec : EqDecision ReleaseCollectionRequest.t.
Proof. solve_decision. Defined.

#[global] Instance LoadPartitionsRequest_eq_dec : EqDecision LoadPartitionsRequest.t.
Proof. solve_decision. Defined.

#[global] Instance ReleasePartitionsRequest_eq_dec : EqDecision ReleasePartitionsRequest.t.
Proof. solve_decision. Defined.

#[global] Instance SyncNewCreatedPartitionRequest_eq_dec : EqDecision SyncNewCreatedPartitionRequest.t.
Proof. solve_decision. Defined.

#[global] Instance Job_eq_dec : EqDecision job.Job.
Proof. solve_decision. Defined.

(** The requests gated by [CheckHealthy]; [GetMetrics] alone goes through
    [CheckHealthyStandby]. *)
Definition isGetMetrics (r : Request) : bool :=
  match r with ReqGetMetrics _ => true | _ => false end.

(** A load request in refresh mode. *)
Definition isRefresh (r : Request) : bool :=
  match r with
  | ReqLoadCollection req => LoadCollectionRequest.Refresh req
  | ReqLoadPartitions req => LoadPartitionsRequest.Refresh req
  | _ => false
  end.

(** The collaborator calls that, going by the method called, only read:
    the getters, the membership and availability checks, the probe of a
    node, and the helpers that assemble a response. *)
Definition isRead (c : Call) : bool :=
  match c with
  | C_State | C_GetAllCollections | C_GetCollection _ | C_CalculateLoadPercentage _
  | C_GetPartitionsByCollection _ | C_GetPartitionLoadPercentage _ | C_GetLoadType _
  | C_GetPartition _ | C_GetAll | C_FailedLoadCache_Get _ | C_GetResourceGroupByCollection _
  | C_GetByCollectionAndNode _ _ | C_GetByCollection _ | C_GetByResourceGroup _
  | C_ContainResourceGroup _ | C_ListResourceGroups | C_GetResourceGroup _ | C_ContainsNode _ _
  | C_SegmentDist_GetByFilter _ | C_LeaderView_GetByFilter _ | C_GetSealedSegment _ _ _
  | C_GetDmChannelsByCollection _ _ | C_GetSealedSegmentsByCollection _ _ | C_IsStoppingNode _
  | C_nodeMgr_Get _ | C_nodeMgr_GetAll | C_GetComponentStates _ | C_checkAnyReplicaAvailable _
  | C_getCollectionSegmentInfo _ | C_getSystemInfoMetrics | C_fillReplicaInfo _
  | C_CheckLeaderAvailable _ | C_GetComponentConfigurations _ => true
  | _ => false
  end.

(** The calls other than reads that the handler of a request makes: its
    footprint. *)
Definition writes (r : Request) (c : Call) : bool :=
  match r, c with
  | ReqShowCollections _, C_FailedLoadCache_TryExpire => true
  | ReqShowPartitions _, C_FailedLoadCache_TryExpire => true
  | ReqLoadCollection req, C_jobScheduler_Add j => bool_decide (j = job.NewLoadCollectionJob req)
  | ReqLoadCollection req, C_job_Wait j => bool_decide (j = job.NewLoadCollectionJob req)
  | ReqLoadPartitions req, C_jobScheduler_Add j => bool_decide (j = job.NewLoadPartitionJob req)
  | ReqLoadPartitions req, C_job_Wait j => bool_decide (j = job.NewLoadPartitionJob req)
  | ReqReleaseCollection req, C_jobScheduler_Add j => bool_decide (j = job.NewReleaseCollectionJob req)
  | ReqReleaseCollection req, C_job_Wait j => bool_decide (j = job.NewReleaseCollectionJob req)
  | ReqReleaseCollection req, C_FailedLoadCache_Remove id =>
      bool_decide (id = ReleaseCollectionRequest.CollectionID req)
  | ReqReleasePartitions req, C_jobScheduler_Add j => bool_decide (j = job.NewReleasePartitionJob req)
  | ReqReleasePartitions req, C_job_Wait j => bool_decide (j = job.NewReleasePartitionJob req)
  | ReqReleasePartitions req, C_FailedLoadCache_Remove id =>
      bool_decide (id = ReleasePartitionsRequest.CollectionID req)
  | ReqSyncNewCreatedPartition req, C_jobScheduler_Add j =>
      bool_decide (j = job.NewSyncNewCreatedPartitionJob req)
  | ReqSyncNewCreatedPartition req, C_job_Wait j =>
      bool_decide (j = job.NewSyncNewCreatedPartitionJob req)
  | ReqLoadBalance _, C_balanceSegments _ _ _ _ _ sync copyMode => sync && negb copyMode
  | ReqCreateResourceGroup _, C_AddResourceGroup _ _ => true
  | ReqUpdateResourceGroups _, C_UpdateResourceGroups _ => true
  | ReqDropResourceGroup _, C_RemoveResourceGroup _ => true
  | ReqTransferNode _, C_TransferNode _ _ _ => true
  | ReqTransferNode _, C_RecoverAllCollection => true
  | ReqTransferReplica _, C_TransferReplica _ _ _ _ => true
  | _, _ => false
  end.

Definition allowed (r : Request) (c : Call) : bool := isRead c || writes r c.

(** A computation that leaves the collection store alone and issues only
    calls that satisfy [p]. *)
Definition frames {A} (p : Call -> bool) (m : M A) : Prop :=
  forall st, exists l,
    snd (m st) = mkSt (collections st) (calls st ++ l) /\ forallb p l = true.

(** The partitions a [ShowPartitions] request is about: the ones it
    names, or every partition of the collection when it names none. *)
Definition shownPartitions (s : Server) (req : ShowPartitionsRequest.t) : list UniqueID :=
  match ShowPartitionsRequest.PartitionIDs req with
  | [] => map meta.PartitionID (meta_GetPartitionsByCollection s (ShowPartitionsRequest.CollectionID req))
  | ids => ids
  end.

(** The state reported for a load percentage: in memory from 100 on. *)
Definition partitionStateOf (percentage : Z) : querypb.PartitionState :=
  if decide (100 <= percentage) then querypb.PartitionState_InMemory
  else querypb.PartitionState_PartialInMemory.

(** The answer of [GetPartitionStates] for partitions that are not
    loaded. *)
Definition partitionsNotLoaded (req : GetPartitionStatesRequest.t) : GetPartitionStatesResponse.t :=
  GetPartitionStatesResponse.mk
    (merr.Status
       (Some (merr.WrapErrPartitionNotLoaded (fmtds (GetPartitionStatesRequest.PartitionIDs req)) [])))
    [].

(** A [map[int64]int32] that counts: the number of occurrences of [k]
    among the keys counted, absent when there is none. *)
Definition tally (keys : list Z) (k : Z) : option Z :=
  match length (filter (fun x => x = k) keys) with
  | O => None
  | S n => Some (int32 (Z.of_nat (S n)))
  end.

(** One key per node of a replica of the group that the group of the
    replica does not hold. *)
Definition outgoingKeys (s : Server) (replicasInRG : list meta.Replica) : list Z :=
  flat_map (fun replica =>
              flat_map (fun node =>
                          if meta_ContainsNode s (meta.ReplicaResourceGroup replica) node then []
                          else [meta.ReplicaCollectionID replica])
                (meta.Nodes replica))
    replicasInRG.

(** One key per node that a replica of another group borrows from the
    group [rgName]. *)
Definition incomingKeys (s : Server) (rgName : string) (collections : list UniqueID) : list Z :=
  flat_map (fun collection =>
              flat_map (fun replica =>
                          if decide (meta.ReplicaResourceGroup replica = rgName) then []
                          else flat_map (fun node =>
                                           if meta_ContainsNode s rgName node then [collection] else [])
                                 (meta.Nodes replica))
                (meta_GetByCollection s collection))
    collections.

(** The nodes of a group that are registered and not stopping, as the
    response lists them. *)
Definition servingNodes (s : Server) (nodeIDs : list UniqueID) : list commonpb.NodeInfo :=
  flat_map (fun nodeID =>
              match nodeMgr_Get s nodeID with
              | Some info =>
                  if session.IsStoppingState info then []
                  else [commonpb.mkNodeInfo (session.ID info) (session.Addr info) (session.Hostname info)]
              | None => []
              end)
    nodeIDs.

(** A node whose probe succeeds and reports a state that
    [merr.AnalyzeState] accepts. *)
Definition nodeHealthy (s : Server) (node : session.NodeInfo) : Prop :=
  exists resp,
    cluster_GetComponentStates s (session.ID node) = inr resp
    /\ merr_AnalyzeState s "QueryNode" (session.ID node) resp = None.

(** A node identifier and address taken from one entry of the node
    manager. *)
Definition addressable (s : Server) (id : UniqueID) (addr : string) : Prop :=
  exists k info, nodeMgr_Get s k = Some info /\ session.ID info = id /\ session.Addr info = addr.

(** A shard entry that names at least one node, each with its address. *)
Definition shardServed (s : Server) (shard : querypb.ShardLeadersList) : Prop :=
  querypb.ShardNodeIds shard ≠ []
  /\ Forall2 (addressable s) (querypb.ShardNodeIds shard) (querypb.NodeAddrs shard).

(** What is known of a [balanceSegments] call once [LoadBalance] has let
    it through. *)
Definition balanceChecked (s : Server) (req : LoadBalanceRequest.t) (collectionID : UniqueID)
  (replica : meta.Replica) (srcNode : UniqueID) (dstNodes : list UniqueID)
  (segments : list meta.Segment) (sync copyMode : bool) : Prop :=
  server_State s = commonpb.Healthy
  /\ LoadBalanceRequest.SourceNodeIDs req = [srcNode]
  /\ 100 <= meta_CalculateLoadPercentage s (LoadBalanceRequest.CollectionID req)
  /\ meta_GetByCollectionAndNode s (LoadBalanceRequest.CollectionID req) srcNode = Some replica
  /\ collectionID = meta.ReplicaCollectionID replica
  /\ nodeMgr_IsStoppingNode s srcNode = inr false
  /\ Forall (fun d => d ∈ meta.Nodes replica /\ nodeMgr_IsStoppingNode s d = inr false) dstNodes
  /\ (LoadBalanceRequest.DstNodeIDs req ≠ [] ->
      forall d, d ∈ dstNodes <-> d ∈ LoadBalanceRequest.DstNodeIDs req)
  /\ Forall (fun seg =>
               seg ∈ dist_SegmentDistManager_GetByFilter s
                       [meta.WithCollectionID (LoadBalanceRequest.CollectionID req);
                        meta.WithNodeID srcNode])
       segments
  /\ sync = true /\ copyMode = false.

(** The calls [LoadBalance] may issue: queries, and checked calls of the
    balance executor. *)
Definition balanceSafe (s : Server) (req : LoadBalanceRequest.t) (c : Call) : Prop :=
  match c with
  | C_balanceSegments collectionID replica srcNode dstNodes segments sync copyMode =>
      balanceChecked s req collectionID replica srcNode dstNodes segments sync copyMode
  | _ => isRead c = true
  end.

(** A computation that leaves the collection store alone and issues only
    calls that satisfy [P]. *)
Definition framesP {A} (P : Call -> Prop) (m : M A) : Prop :=
  forall st, exists l,
    snd (m st) = mkSt (collections st) (calls st ++ l) /\ Forall P l.

(** The job a request is turned into, for the five handlers that work
    through the job scheduler. *)
Definition jobOf (r : Request) : option job.Job :=
  match r with
  | ReqLoadCollection req => Some (job.NewLoadCollectionJob req)
  | ReqReleaseCollection req => Some (job.NewReleaseCollectionJob req)
  | ReqLoadPartitions req => Some (job.NewLoadPartitionJob req)
  | ReqReleasePartitions req => Some (job.NewReleasePartitionJob req)
  | ReqSyncNewCreatedPartition req => Some (job.NewSyncNewCreatedPartitionJob req)
  | _ => None
  end.

(** What a handler does after a successful wait: the release handlers
    drop the failed-load record of their collection. *)
Definition afterJob (r : Request) : list Call :=
  match r with
  | ReqReleaseCollection req => [C_FailedLoadCache_Remove (ReleaseCollectionRequest.CollectionID req)]
  | ReqReleasePartitions req => [C_FailedLoadCache_Remove (ReleasePartitionsRequest.CollectionID req)]
  | _ => []
  end.

(** A coordinator on standby. *)
Definition standby : Scenario :=
  {| sc_State := commonpb.StandBy;
     sc_percentage := sc_percentage baseline;
     sc_usedRG := sc_usedRG baseline;
     sc_replicaOf := sc_replicaOf baseline;
     sc_containRG := sc_containRG baseline;
     sc_segments := sc_segments baseline;
     sc_inTarget := sc_inTarget baseline;
     sc_channels := sc_channels baseline;
     sc_leaders := sc_leaders baseline;
     sc_leaderErr := sc_leaderErr baseline;
     sc_nodes := sc_nodes baseline;
     sc_registered := sc_registered baseline;
     sc_probe := sc_probe baseline;
     sc_updateNextTarget := sc_updateNextTarget baseline |}.

(** The collection a load request in refresh mode is about. *)
Definition refreshTarget (r : Request) : option UniqueID :=
  match r with
  | ReqLoadCollection req =>
      if LoadCollectionRequest.Refresh req then Some (LoadCollectionRequest.CollectionID req) else None
  | ReqLoadPartitions req =>
      if LoadPartitionsRequest.Refresh req then Some (LoadPartitionsRequest.CollectionID req) else None
  | _ => None
  end.

(** ** Deployments with partitions, replicas and resource groups

    What the meta store holds besides the collections: the partitions of
    each collection with their load percentage, the way each collection
    was loaded, the replicas, and the resource groups with their nodes.
    The replica and resource managers answer from these. *)

Record Catalog := mkCatalog
  { cat_partitions : UniqueID -> list meta.Partition;
    cat_partitionPercentage : UniqueID -> Z;
    cat_loadType : UniqueID -> querypb.LoadType;
    cat_failedLoad : UniqueID -> option Err;
    cat_all : list UniqueID;
    cat_replicas : list meta.Replica;
    cat_groups : string -> option meta.ResourceGroup }.

Definition catalogServer (sc : Scenario) (cat : Catalog) : Server :=
  let base := scenarioServer sc in
  {| server_State := server_State base;
     meta_CalculateLoadPercentage := meta_CalculateLoadPercentage base;
     meta_GetPartitionsByCollection := cat_partitions cat;
     meta_GetPartitionLoadPercentage := cat_partitionPercentage cat;
     meta_GetLoadType := cat_loadType cat;
     meta_GetPartition :=
       fun partitionID =>
         find (fun p => bool_decide (meta.PartitionID p = partitionID))
           (flat_map (cat_partitions cat) (cat_all cat));
     meta_GetAll := cat_all cat;
     meta_IsRefreshed := meta_IsRefreshed base;
     FailedLoadCache_Get := cat_failedLoad cat;
     meta_GetResourceGroupByCollection := meta_GetResourceGroupByCollection base;
     meta_GetByCollectionAndNode := meta_GetByCollectionAndNode base;
     meta_GetByCollection :=
       fun collectionID =>
         filter (fun r => meta.ReplicaCollectionID r = collectionID) (cat_replicas cat);
     meta_GetByResourceGroup :=
       fun rg => filter (fun r => meta.ReplicaResourceGroup r = rg) (cat_replicas cat);
     meta_TransferReplica := meta_TransferReplica base;
     meta_ContainResourceGroup := fun rg => bool_decide (is_Some (cat_groups cat rg));
     meta_AddResourceGroup := meta_AddResourceGroup base;
     meta_UpdateResourceGroups := meta_UpdateResourceGroups base;
     meta_RemoveResourceGroup := meta_RemoveResourceGroup base;
     meta_TransferNode := meta_TransferNode base;
     meta_ListResourceGroups := meta_ListResourceGroups base;
     meta_GetResourceGroup := cat_groups cat;
     meta_ContainsNode :=
       fun rg nodeID =>
         match cat_groups cat rg with
         | Some g => bool_decide (nodeID ∈ meta.RGNodes g)
         | None => false
         end;
     dist_SegmentDistManager_GetByFilter := dist_SegmentDistManager_GetByFilter base;
     dist_LeaderViewManager_GetByFilter := dist_LeaderViewManager_GetByFilter base;
     targetMgr_GetSealedSegment := targetMgr_GetSealedSegment base;
     targetMgr_GetDmChannelsByCollection := targetMgr_GetDmChannelsByCollection base;
     targetMgr_GetSealedSegmentsByCollection := targetMgr_GetSealedSegmentsByCollection base;
     targetObserver_UpdateNextTarget := targetObserver_UpdateNextTarget base;
     nodeMgr_IsStoppingNode := nodeMgr_IsStoppingNode base;
     nodeMgr_Get := nodeMgr_Get base;
     nodeMgr_GetAll := nodeMgr_GetAll base;
     cluster_GetComponentStates := cluster_GetComponentStates base;
     job_Wait := job_Wait base;
     server_checkAnyReplicaAvailable := server_checkAnyReplicaAvailable base;
     server_getCollectionSegmentInfo := server_getCollectionSegmentInfo base;
     server_balanceSegments := server_balanceSegments base;
     server_getSystemInfoMetrics := server_getSystemInfoMetrics base;
     server_fillReplicaInfo := server_fillReplicaInfo base;
     server_filterDupLeaders := server_filterDupLeaders base;
     checkers_CheckLeaderAvailable := checkers_CheckLeaderAvailable base;
     merr_AnalyzeState := merr_AnalyzeState base;
     utils_MergeMetaSegmentIntoSegmentInfo := utils_MergeMetaSegmentIntoSegmentInfo base;
     Params_GetComponentConfigurations := Params_GetComponentConfigurations base;
     metricsinfo_ConstructComponentName := metricsinfo_ConstructComponentName base;
     metricsinfo_ParseMetricType := metricsinfo_ParseMetricType base;
     metricsinfo_SystemInfoMetrics := metricsinfo_SystemInfoMetrics base;
     metricsinfo_MsgUnimplementedMetric := metricsinfo_MsgUnimplementedMetric base |}.

(** Collection 100 loaded by partitions: partition 7 fully, partition 8
    at 40 percent, partition 9 not loaded.  Its replica 7 sits in group
    rgA on nodes 1 and 2; its replica 8 sits in group rgB on node 3 and
    borrows node 2 from rgA. *)
Definition replica8 : meta.Replica := meta.mkReplica 8 100 "rgB" [3; 2].

Definition twoGroups : Catalog :=
  {| cat_partitions :=
       fun collectionID =>
         if decide (collectionID = 100) then [meta.mkPartition 7 100 100; meta.mkPartition 8 100 40]
         else [];
     cat_partitionPercentage :=
       fun partitionID =>
         if decide (partitionID = 7) then 100 else if decide (partitionID = 8) then 40 else -1;
     cat_loadType :=
       fun collectionID =>
         if decide (collectionID = 100) then querypb.LoadType_LoadPartition
         else querypb.LoadType_UnKnownType;
     cat_failedLoad := fun _ => None;
     cat_all := [100];
     cat_replicas := [replica12; replica8];
     cat_groups :=
       fun rg =>
         if decide (rg = "rgA") then Some (meta.mkResourceGroup [1; 2] 2 "")
         else if decide (rg = "rgB") then Some (meta.mkResourceGroup [3] 1 "")
         else None |}.

(** The baseline with nothing in the segment distribution. *)
Definition unsegmented : Scenario :=
  {| sc_State := sc_State baseline;
     sc_percentage := sc_percentage baseline;
     sc_usedRG := sc_usedRG baseline;
     sc_replicaOf := sc_replicaOf baseline;
     sc_containRG := sc_containRG baseline;
     sc_segments := [];
     sc_inTarget := sc_inTarget baseline;
     sc_channels := sc_channels baseline;
     sc_leaders := sc_leaders baseline;
     sc_leaderErr := sc_leaderErr baseline;
     sc_nodes := sc_nodes baseline;
     sc_registered := sc_registered baseline;
     sc_probe := sc_probe baseline;
     sc_updateNextTarget := sc_updateNextTarget baseline |}.

Definition is_GetSealedSegment (c : Call) : bool :=
  match c with C_GetSealedSegment _ _ _ => true | _ => false end.

(** A leader view that the leader-view manager reports for some channel. *)
Definition reportedLeader (s : Server) (leader : meta.LeaderView) : Prop :=
  exists name,
    leader ∈ dist_LeaderViewManager_GetByFilter s [meta.WithChannelName2LeaderView name].

(** Among the reported leaders of a channel, the duplicate filter keeps
    one that the node manager knows. *)
Definition leadersStayAddressable (s : Server) : Prop :=
  forall readable : gmap Z meta.LeaderView,
    readable ≠ ∅ ->
    (forall k leader, readable !! k = Some leader -> reportedLeader s leader) ->
    exists k leader,
      server_filterDupLeaders s readable !! k = Some leader
      /\ is_Some (nodeMgr_Get s (meta.ID leader)).

(** What [isStoppingNode] answers for a node: the error of the node
    manager, an error of its own for a stopping node, nothing for a node
    in service. *)
Definition stoppingError (s : Server) (nodeID : UniqueID) : option Err :=
  match nodeMgr_IsStoppingNode s nodeID with
  | inl err => Some err
  | inr true =>
      Some (errors.New
              ("failed to balance due to the source/destination node[" ++ fmtd nodeID ++ "] is stopping"))
  | inr false => None
  end.

(** The baseline while node 2 is stopping. *)
Definition node2Stopping : Scenario :=
  {| sc_State := sc_State baseline;
     sc_percentage := sc_percentage baseline;
     sc_usedRG := sc_usedRG baseline;
     sc_replicaOf := sc_replicaOf baseline;
     sc_containRG := sc_containRG baseline;
     sc_segments := sc_segments baseline;
     sc_inTarget := sc_inTarget baseline;
     sc_channels := sc_channels baseline;
     sc_leaders := sc_leaders baseline;
     sc_leaderErr := sc_leaderErr baseline;
     sc_nodes := [node 1 false; node 2 true; node 3 false];
     sc_registered := sc_registered baseline;
     sc_probe := sc_probe baseline;
     sc_updateNextTarget := sc_updateNextTarget baseline |}.

(** * Properties *)

Create HintDb calls.
#[local] Hint Unfold State GetAllCollections GetCollection SetRefreshNotifier CalculateLoadPercentage
  GetPartitionsByCollection GetPartitionLoadPercentage GetLoadType GetPartition GetAll
  GlobalFailedLoadCache_Get GlobalFailedLoadCache_TryExpire GlobalFailedLoadCache_Remove
  GetResourceGroupByCollection GetByCollectionAndNode GetByCollection GetByResourceGroup
  meta_TransferReplica_call ContainResourceGroup AddResourceGroup ResourceManager_UpdateResourceGroups
  RemoveResourceGroup ResourceManager_TransferNode RecoverAllCollection
  ResourceManager_ListResourceGroups GetResourceGroup ContainsNode SegmentDistManager_GetByFilter
  LeaderViewManager_GetByFilter GetSealedSegment GetDmChannelsByCollection
  GetSealedSegmentsByCollection UpdateNextTarget IsStoppingNode nodeMgr_Get_call nodeMgr_GetAll_call
  GetComponentStates jobScheduler_Add Wait checkAnyReplicaAvailable getCollectionSegmentInfo
  balanceSegments getSystemInfoMetrics fillReplicaInfo CheckLeaderAvailable
  GetComponentConfigurations : calls.

(** Runs the straight-line prefix of a handler. *)
Ltac step := autounfold with calls in *; unfold bind, call, ret in *; simpl in *.

(** Brings the log of a run into the form [calls st ++ issued] and reads
    the issued part off. *)
Ltac read_log := rewrite <- ?app_assoc, drop_app_length.

(** ** LoadBalance: the source-node count *)

(** C9. LoadBalance rejects every request whose sourceNodeIDs list has a
    length other than 1, with a ParameterInvalid failure once the health
    gate has passed, and the only collaborator call it has issued by then
    is the read of the coordinator state: the load percentage, the replica
    lookup and the distribution are not consulted. *)
Theorem LoadBalance_source_count (s : Server) (req : LoadBalanceRequest.t) (st : St) :
  length (LoadBalanceRequest.SourceNodeIDs req) ≠ 1%nat ->
  exists status,
    fst (LoadBalance s req st) = Returned status None
    /\ is_Some (commonpb.Code status)
    /\ (server_State s = commonpb.Healthy -> commonpb.Code status = Some ParameterInvalid)
    /\ issued (LoadBalance s req) st = [C_State].
Proof.
  intros Hlen. unfold issued, LoadBalance, merr.CheckHealthy. step.
  destruct (decide (server_State s = commonpb.Healthy)) as [Hh|Hh]; simpl.
  - destruct (decide (length (LoadBalanceRequest.SourceNodeIDs req) ≠ 1%nat)) as [_|Hn]; [|tauto].
    simpl. eexists. split; [reflexivity|]. split; [eauto|]. split; [reflexivity|].
    by rewrite drop_app_length.
  - eexists. split; [reflexivity|]. split; [simpl; eauto|]. split; [done|].
    by rewrite drop_app_length.
Qed.

Lemma LoadBalance_source_count_witness :
  length (LoadBalanceRequest.SourceNodeIDs (LoadBalanceRequest.mk 100 [1; 2] [] [])) ≠ 1%nat
  /\ exists status,
       fst (LoadBalance (scenarioServer baseline) (LoadBalanceRequest.mk 100 [1; 2] [] [])
              (start loaded100)) = Returned status None
       /\ is_Some (commonpb.Code status)
       /\ (server_State (scenarioServer baseline) = commonpb.Healthy ->
           commonpb.Code status = Some ParameterInvalid)
       /\ issued (LoadBalance (scenarioServer baseline) (LoadBalanceRequest.mk 100 [1; 2] [] []))
            (start loaded100) = [C_State].
Proof.
  split; [simpl; lia|].
  apply (LoadBalance_source_count (scenarioServer baseline) (LoadBalanceRequest.mk 100 [1; 2] [] [])
           (start loaded100)).
  simpl; lia.
Defined.

(** ** TransferReplica *)

(** C8. On a healthy coordinator, TransferReplica fails with
    ResourceGroupNotFound when the source or the target resource group
    does not exist, without calling the replica manager; when both exist
    it applies the change through [meta.TransferReplica], once, with the
    arguments of the request, and answers with the status of that call. *)
Theorem TransferReplica_groups (s : Server) (req : TransferReplicaRequest.t) (st : St) :
  server_State s = commonpb.Healthy ->
  let source := TransferReplicaRequest.SourceResourceGroup req in
  let target := TransferReplicaRequest.TargetResourceGroup req in
  let collectionID := TransferReplicaRequest.CollectionID req in
  let n := TransferReplicaRequest.NumReplica req in
  (meta_ContainResourceGroup s source = false \/ meta_ContainResourceGroup s target = false ->
     failureOf (fst (TransferReplica s req st)) = Some ResourceGroupNotFound
     /\ existsb is_TransferReplica (issued (TransferReplica s req) st) = false)
  /\ (meta_ContainResourceGroup s source = true /\ meta_ContainResourceGroup s target = true ->
        fst (TransferReplica s req st)
          = Returned (merr.Status (meta_TransferReplica s collectionID source target n)) None
        /\ issued (TransferReplica s req) st
             = [C_State; C_ContainResourceGroup source; C_ContainResourceGroup target;
                C_TransferReplica collectionID source target n]).
Proof.
  intros Hh source target collectionID n.
  unfold issued, TransferReplica, merr.CheckHealthy. step.
  rewrite Hh. simpl. fold source target collectionID n.
  destruct (meta_ContainResourceGroup s source) eqn:E1;
    destruct (meta_ContainResourceGroup s target) eqn:E2; simpl;
    read_log; (split; [intros [?|?]|intros [? ?]]);
    try discriminate; split; reflexivity.
Qed.

Lemma TransferReplica_groups_witness :
  server_State (scenarioServer baseline) = commonpb.Healthy
  /\ meta_ContainResourceGroup (scenarioServer baseline) "rgB" = false
  /\ failureOf (fst (TransferReplica (scenarioServer baseline)
                       (TransferReplicaRequest.mk "rgA" "rgB" 100 1) (start loaded100)))
     = Some ResourceGroupNotFound
  /\ fst (TransferReplica (scenarioServer baseline)
            (TransferReplicaRequest.mk "rgA" meta.DefaultResourceGroupName 100 1) (start loaded100))
     = Returned merr.Success None.
Proof.
  split; [reflexivity|]. split; [reflexivity|]. split.
  - apply (TransferReplica_groups (scenarioServer baseline)
             (TransferReplicaRequest.mk "rgA" "rgB" 100 1) (start loaded100)); [reflexivity|].
    right. reflexivity.
  - apply (TransferReplica_groups (scenarioServer baseline)
             (TransferReplicaRequest.mk "rgA" meta.DefaultResourceGroupName 100 1) (start loaded100));
      [reflexivity|].
    split; reflexivity.
Defined.

(** ** Resource-group validation of load requests *)

Lemma size_pos_nonempty (X : gset string) : (0 < size X)%nat <-> X ≠ ∅.
Proof.
  split.
  - intros H ->. rewrite size_empty in H. lia.
  - intros H. destruct (decide (size X = 0%nat)) as [E|E]; [|lia].
    apply size_empty_iff in E. exfalso. apply H. by apply leibniz_equiv.
Qed.

Lemma checkResourceGroup_loop_kind used n rgs e :
  checkResourceGroup_loop used n rgs = Some e -> errKind e = ParameterInvalid.
Proof.
  induction rgs as [|rg rest IH]; simpl; [discriminate|].
  repeat case_match; try (intros [= <-]; reflexivity). exact IH.
Qed.

Lemma checkResourceGroup_loop_None used n rgs :
  checkResourceGroup_loop used n rgs = None <->
  (forall rg, rg ∈ rgs ->
     ~ (used ≠ ∅ /\ rg ∉ used) /\ ~ ((1 < n)%nat /\ rg = meta.DefaultResourceGroupName)).
Proof.
  induction rgs as [|rg rest IH]; simpl.
  - split; [intros _ rg Hin; inversion Hin | done].
  - destruct (bool_decide (0 < size used)%nat && negb (bool_decide (rg ∈ used))) eqn:E1.
    + split; [discriminate|]. intros H. exfalso.
      apply andb_true_iff in E1 as [Ha Hb]. apply bool_decide_eq_true in Ha.
      apply negb_true_iff, bool_decide_eq_false in Hb.
      destruct (H rg) as [H1 _]; [left|]. apply H1. split; [by apply size_pos_nonempty|done].
    + destruct (bool_decide (1 < n)%nat && bool_decide (rg = meta.DefaultResourceGroupName)) eqn:E2.
      * split; [discriminate|]. intros H. exfalso.
        apply andb_true_iff in E2 as [Ha Hb]. apply bool_decide_eq_true in Ha, Hb.
        destruct (H rg) as [_ H2]; [left|]. by apply H2.
      * rewrite IH. split.
        -- intros H rg' Hin. apply elem_of_cons in Hin as [Heq|Hin]; [subst rg'|by apply H].
           split.
           ++ intros [Hne Hnot]. apply andb_false_iff in E1 as [E1|E1].
              ** apply bool_decide_eq_false in E1. by apply E1, size_pos_nonempty.
              ** apply negb_false_iff, bool_decide_eq_true in E1. done.
           ++ intros [Hn Hd]. apply andb_false_iff in E2 as [E2|E2];
                apply bool_decide_eq_false in E2; done.
        -- intros H rg' Hin. apply H. by right.
Qed.

(** The loop of [checkResourceGroup] rejects exactly the requests that
    violate the rule. *)
Lemma violates_checkResourceGroup_loop used rgs :
  violatesGroupRule used rgs <-> checkResourceGroup_loop used (length rgs) rgs ≠ None.
Proof.
  rewrite checkResourceGroup_loop_None. unfold violatesGroupRule. split.
  - intros [[Hne (rg & Hin & Hnot)]|[Hlen Hin]] H.
    + destruct (H rg Hin) as [H1 _]. by apply H1.
    + destruct (H _ Hin) as [_ H2]. by apply H2.
  - intros H.
    destruct (decide (used ≠ ∅ /\ Exists (fun rg => rg ∉ used) rgs)) as [[Hne Hex]|Hn1].
    { left. split; [done|]. apply Exists_exists in Hex. exact Hex. }
    destruct (decide ((1 < length rgs)%nat /\ meta.DefaultResourceGroupName ∈ rgs)) as [Hd|Hn2].
    { by right. }
    exfalso. apply H. intros rg Hin. split.
    + intros [Hne Hnot]. apply Hn1. split; [done|]. apply Exists_exists. eauto.
    + intros [Hlen Heq]. subst rg. apply Hn2. done.
Qed.

Lemma violates_names_groups used rgs : violatesGroupRule used rgs -> length rgs ≠ 0%nat.
Proof.
  intros [[_ (rg & Hin & _)]|[Hlen _]]; [|lia].
  destruct rgs; [inversion Hin|done].
Qed.

(** What [checkResourceGroup] answers, read against the rule. *)
Lemma checkResourceGroup_rule (s : Server) (collectionID : UniqueID) (rgs : list string) (st : St) :
  (violatesGroupRule (meta_GetResourceGroupByCollection s collectionID) rgs ->
     exists e, checkResourceGroup s collectionID rgs st
               = (Some e, mkSt (collections st)
                            (calls st ++ [C_GetResourceGroupByCollection collectionID]))
               /\ errKind e = ParameterInvalid)
  /\ (~ violatesGroupRule (meta_GetResourceGroupByCollection s collectionID) rgs ->
        exists l, checkResourceGroup s collectionID rgs st
                  = (None, mkSt (collections st) (calls st ++ l))
                  /\ existsb is_jobScheduler_Add l = false).
Proof.
  unfold checkResourceGroup. step. split.
  - intros Hv. pose proof (violates_names_groups _ _ Hv) as Hlen.
    apply violates_checkResourceGroup_loop in Hv.
    destruct (decide (length rgs ≠ 0%nat)) as [_|?]; [|done]. simpl.
    destruct (checkResourceGroup_loop _ _ _) as [e|] eqn:E; [|done].
    exists e. split; [reflexivity|]. by apply checkResourceGroup_loop_kind in E.
  - intros Hv. rewrite violates_checkResourceGroup_loop in Hv.
    destruct (decide (length rgs ≠ 0%nat)) as [_|?]; simpl.
    + destruct (checkResourceGroup_loop _ _ _) as [e|] eqn:E; [exfalso; by apply Hv|].
      eexists. split; reflexivity.
    + exists []. rewrite app_nil_r. destruct st. split; reflexivity.
Qed.



(** ** Refresh *)

(** What [refreshCollection] does to the state, case by case. *)
Lemma refreshCollection_run (s : Server) (collectionID : UniqueID) (st : St) :
  (~ isLoaded (collections st) collectionID ->
     exists e, fst (refreshCollection s collectionID st) = Some e /\ errKind e = CollectionNotLoaded)
  /\ (forall id, percentageOf (snd (refreshCollection s collectionID st)) id = percentageOf st id)
  /\ (exists l, calls (snd (refreshCollection s collectionID st)) = (calls st ++ l)%list
                /\ existsb is_jobScheduler_Add l = false).
Proof.
  unfold refreshCollection, isLoaded, percentageOf. step.
  destruct (collections st !! collectionID) as [c|] eqn:E; simpl.
  - destruct (decide (meta.Status c ≠ querypb.LoadStatus_Loaded)) as [Hn|Hl]; simpl.
    + split; [intros _; eexists; split; reflexivity|]. split; [done|].
      eexists. split; reflexivity.
    + assert (Hl' : meta.Status c = querypb.LoadStatus_Loaded) by (by apply dec_stable).
      destruct (targetObserver_UpdateNextTarget s collectionID) as [err|ch]; simpl.
      * split; [intros H; exfalso; apply H; eauto|]. split; [done|].
        eexists. rewrite <- app_assoc. split; reflexivity.
      * split; [intros H; exfalso; apply H; eauto|]. split.
        -- intros id. rewrite lookup_alter. case_decide as Hid; [|done].
           subst id. rewrite E. reflexivity.
        -- eexists. rewrite <- !app_assoc. split; reflexivity.
  - split; [intros _; eexists; split; reflexivity|]. split; [done|].
    eexists. split; reflexivity.
Qed.

(** C3, as the code has it. A load request with the refresh flag
    (LoadCollection or LoadPartitions, coordinator healthy) on a collection
    that is absent from the store or whose load status is not Loaded fails
    with CollectionNotLoaded, whatever its load percentage; the test is on
    the status, so a collection whose status is Loaded is refreshed even
    while its percentage is below 100.  In every case the refresh leaves
    the load percentage of every collection as it was and submits no
    job. *)
Theorem refresh_requires_loaded_status (s : Server) (st : St) :
  server_State s = commonpb.Healthy ->
  (forall req : LoadCollectionRequest.t,
     LoadCollectionRequest.Refresh req = true ->
     (~ isLoaded (collections st) (LoadCollectionRequest.CollectionID req) ->
        failureOf (fst (LoadCollection s req st)) = Some CollectionNotLoaded)
     /\ (forall id, percentageOf (snd (LoadCollection s req st)) id = percentageOf st id)
     /\ existsb is_jobScheduler_Add (issued (LoadCollection s req) st) = false)
  /\ (forall req : LoadPartitionsRequest.t,
        LoadPartitionsRequest.Refresh req = true ->
        (~ isLoaded (collections st) (LoadPartitionsRequest.CollectionID req) ->
           failureOf (fst (LoadPartitions s req st)) = Some CollectionNotLoaded)
        /\ (forall id, percentageOf (snd (LoadPartitions s req st)) id = percentageOf st id)
        /\ existsb is_jobScheduler_Add (issued (LoadPartitions s req) st) = false).
Proof.
  intros Hh. split; intros req Hr.
  - set (st1 := mkSt (collections st) (calls st ++ [C_State])).
    destruct (refreshCollection_run s (LoadCollectionRequest.CollectionID req) st1)
      as (Hfail & Hpct & (l & Hlog & Hjob)).
    assert (Hrun : LoadCollection s req st
                   = (Returned
                        (merr.Status
                           (fst (refreshCollection s (LoadCollectionRequest.CollectionID req) st1)))
                        None,
                      snd (refreshCollection s (LoadCollectionRequest.CollectionID req) st1))).
    { unfold LoadCollection, merr.CheckHealthy, State.
      unfold bind at 1. unfold call at 1. simpl. rewrite Hh, Hr. simpl.
      unfold bind, ret. fold st1. destruct (refreshCollection s _ st1); reflexivity. }
    split; [|split].
    + intros Hn. rewrite Hrun. simpl. destruct (Hfail Hn) as (e & -> & Hk). simpl. by rewrite Hk.
    + intros id. rewrite Hrun. simpl. apply Hpct.
    + unfold issued. rewrite Hrun. simpl. rewrite Hlog. unfold st1. simpl.
      read_log. simpl. exact Hjob.
  - set (st1 := mkSt (collections st) (calls st ++ [C_State])).
    destruct (refreshCollection_run s (LoadPartitionsRequest.CollectionID req) st1)
      as (Hfail & Hpct & (l & Hlog & Hjob)).
    assert (Hrun : LoadPartitions s req st
                   = (Returned
                        (merr.Status
                           (fst (refreshCollection s (LoadPartitionsRequest.CollectionID req) st1)))
                        None,
                      snd (refreshCollection s (LoadPartitionsRequest.CollectionID req) st1))).
    { unfold LoadPartitions, merr.CheckHealthy, State.
      unfold bind at 1. unfold call at 1. simpl. rewrite Hh, Hr. simpl.
      unfold bind, ret. fold st1. destruct (refreshCollection s _ st1); reflexivity. }
    split; [|split].
    + intros Hn. rewrite Hrun. simpl. destruct (Hfail Hn) as (e & -> & Hk). simpl. by rewrite Hk.
    + intros id. rewrite Hrun. simpl. apply Hpct.
    + unfold issued. rewrite Hrun. simpl. rewrite Hlog. unfold st1. simpl.
      read_log. simpl. exact Hjob.
Qed.

Lemma refresh_requires_loaded_status_witness :
  server_State (scenarioServer catchingUp) = commonpb.Healthy
  /\ ~ isLoaded (collections (start loading50)) 100
  /\ failureOf (fst (LoadCollection (scenarioServer catchingUp)
                       (LoadCollectionRequest.mk 100 1 [] true) (start loading50)))
     = Some CollectionNotLoaded
  /\ percentageOf (snd (LoadPartitions (scenarioServer catchingUp)
                          (LoadPartitionsRequest.mk 100 [1] 1 [] true) (start loaded50))) 100
     = Some 50.
Proof.
  assert (Hn : ~ isLoaded (collections (start loading50)) 100).
  { intros (c & Hc & Hs). simpl in Hc. unfold loading50 in Hc.
    rewrite lookup_singleton_eq in Hc. injection Hc as <-. discriminate. }
  split; [reflexivity|]. split; [exact Hn|]. split.
  - destruct (refresh_requires_loaded_status (scenarioServer catchingUp) (start loading50) eq_refl)
      as [Hcoll _].
    destruct (Hcoll (LoadCollectionRequest.mk 100 1 [] true) eq_refl) as (Hfail & _ & _).
    exact (Hfail Hn).
  - destruct (refresh_requires_loaded_status (scenarioServer catchingUp) (start loaded50) eq_refl)
      as [_ Hpart].
    destruct (Hpart (LoadPartitionsRequest.mk 100 [1] 1 [] true) eq_refl) as (_ & Hpct & _).
    rewrite Hpct. reflexivity.
Defined.

(** C3 as stated fails: collection 100 has load status Loaded while its
    load percentage, recorded and calculated, is 50; a load request with
    the refresh flag succeeds on it. *)
Lemma refresh_below_100_succeeds :
  percentageOf (start loaded50) 100 = Some 50
  /\ meta_CalculateLoadPercentage (scenarioServer catchingUp) 100 = 50
  /\ fst (LoadCollection (scenarioServer catchingUp) (LoadCollectionRequest.mk 100 1 [] true)
            (start loaded50))
     = Returned merr.Success None
  /\ fst (LoadPartitions (scenarioServer catchingUp) (LoadPartitionsRequest.mk 100 [1] 1 [] true)
            (start loaded50))
     = Returned merr.Success None.
Proof. repeat split; vm_compute; reflexivity. Qed.

(** ** GetShardLeaders: the load check *)

(** C5. On a healthy coordinator, GetShardLeaders answers a negative
    calculated load percentage with CollectionNotLoaded, and a percentage
    from 0 to 99 with CollectionNotFullyLoaded unless the collection's load
    status is Loaded; both answers come up front, before any channel or
    leader is looked up.  A collection whose status is Loaded (percentage
    not negative) goes on to channel resolution exactly as one at 100
    does: the run is that of the resolution step, which does not depend on
    the percentage. *)
Theorem GetShardLeaders_load_check (s : Server) (req : GetShardLeadersRequest.t) (st : St) :
  server_State s = commonpb.Healthy ->
  let collectionID := GetShardLeadersRequest.CollectionID req in
  let percentage := meta_CalculateLoadPercentage s collectionID in
  (percentage < 0 ->
     leadersFailure (fst (GetShardLeaders s req st)) = Some CollectionNotLoaded
     /\ issued (GetShardLeaders s req) st = [C_State; C_CalculateLoadPercentage collectionID])
  /\ (0 <= percentage < 100 -> ~ isLoaded (collections st) collectionID ->
        leadersFailure (fst (GetShardLeaders s req st)) = Some CollectionNotFullyLoaded
        /\ issued (GetShardLeaders s req) st
             = [C_State; C_CalculateLoadPercentage collectionID; C_GetCollection collectionID])
  /\ (0 <= percentage -> isLoaded (collections st) collectionID \/ 100 <= percentage ->
        GetShardLeaders s req st
          = GetShardLeaders_resolve s collectionID (GetShardLeadersResponse.mk merr.Success [])
              (mkSt (collections st)
                 (calls st ++ [C_State; C_CalculateLoadPercentage collectionID;
                               C_GetCollection collectionID]))).
Proof.
  intros Hh collectionID percentage.
  unfold issued, GetShardLeaders, merr.CheckHealthy, isLoaded.
  unfold State, CalculateLoadPercentage, GetCollection. unfold bind, call, ret. simpl.
  rewrite Hh. simpl. fold collectionID. fold percentage.
  split; [|split].
  - intros Hneg. destruct (decide (percentage < 0)); [|lia]. simpl.
    split; [reflexivity|]. read_log. reflexivity.
  - intros Hp Hn. destruct (decide (percentage < 0)); [lia|]. simpl.
    destruct (collections st !! collectionID) as [c|] eqn:E; simpl.
    + destruct (decide (meta.Status c = querypb.LoadStatus_Loaded)) as [Hl|Hl].
      { exfalso. apply Hn. eauto. }
      destruct (decide (percentage < 100)); [|lia]. simpl.
      split; [reflexivity|]. read_log. reflexivity.
    + destruct (decide (percentage < 100)); [|lia]. simpl.
      split; [reflexivity|]. read_log. reflexivity.
  - intros Hp Hok. destruct (decide (percentage < 0)); [lia|]. simpl.
    rewrite <- !app_assoc. simpl.
    destruct (collections st !! collectionID) as [c|] eqn:E; simpl.
    + destruct (decide (meta.Status c = querypb.LoadStatus_Loaded)) as [Hl|Hl].
      * destruct (decide (100 < 100)); [lia|]. reflexivity.
      * destruct Hok as [(c' & Hc' & Hs)|Hge].
        { exfalso. apply Hl. congruence. }
        destruct (decide (percentage < 100)); [lia|]. reflexivity.
    + destruct Hok as [(c' & Hc' & Hs)|Hge]; [discriminate|].
      destruct (decide (percentage < 100)); [lia|]. reflexivity.
Qed.

Lemma GetShardLeaders_load_check_witness :
  server_State (scenarioServer catchingUp) = commonpb.Healthy
  /\ meta_CalculateLoadPercentage (scenarioServer catchingUp) 100 = 50
  /\ isLoaded (collections (start loaded50)) 100
  /\ ~ isLoaded (collections (start loading50)) 100
  /\ GetShardLeaders (scenarioServer catchingUp) (GetShardLeadersRequest.mk 100) (start loaded50)
     = GetShardLeaders_resolve (scenarioServer catchingUp) 100
         (GetShardLeadersResponse.mk merr.Success [])
         (mkSt loaded50 [C_State; C_CalculateLoadPercentage 100; C_GetCollection 100])
  /\ leadersFailure (fst (GetShardLeaders (scenarioServer catchingUp) (GetShardLeadersRequest.mk 100)
                            (start loading50)))
     = Some CollectionNotFullyLoaded
  /\ leadersFailure (fst (GetShardLeaders (scenarioServer catchingUp) (GetShardLeadersRequest.mk 7)
                            (start loaded50)))
     = Some CollectionNotLoaded.
Proof.
  assert (Hl : isLoaded (collections (start loaded50)) 100).
  { eexists. split; [apply lookup_singleton_eq|reflexivity]. }
  assert (Hn : ~ isLoaded (collections (start loading50)) 100).
  { intros (c & Hc & Hs). simpl in Hc. unfold loading50 in Hc.
    rewrite lookup_singleton_eq in Hc. injection Hc as <-. discriminate. }
  split; [reflexivity|]. split; [reflexivity|]. split; [exact Hl|]. split; [exact Hn|].
  split; [|split].
  - apply (GetShardLeaders_load_check (scenarioServer catchingUp) (GetShardLeadersRequest.mk 100)
             (start loaded50) eq_refl); [simpl; lia | left; exact Hl].
  - apply (GetShardLeaders_load_check (scenarioServer catchingUp) (GetShardLeadersRequest.mk 100)
             (start loading50) eq_refl); [simpl; lia | exact Hn].
  - apply (GetShardLeaders_load_check (scenarioServer catchingUp) (GetShardLeadersRequest.mk 7)
             (start loaded50) eq_refl). simpl; lia.
Defined.

(** ** LoadBalance: destinations and sealed segments *)

Lemma logs_issued {A} (m : M A) st a l : logs m st a l -> fst (m st) = a /\ issued m st = l.
Proof. unfold logs, issued. intros ->. simpl. by rewrite drop_app_length. Qed.

Lemma Set_Insert_elem {A} `{EqDecision A} (set : list A) (x y : A) :
  y ∈ Set_Insert set x <-> y ∈ set \/ y = x.
Proof.
  unfold Set_Insert. case_decide as Hin.
  - split; [by left|]. intros [? | ->]; done.
  - rewrite elem_of_app, list_elem_of_singleton. done.
Qed.

Lemma SliceToMap_fold {A} (key : A -> Z) (l : list A) (m : gmap Z A) (k : Z) :
  is_Some (fold_left (fun m a => <[key a := a]> m) l m !! k)
  <-> is_Some (m !! k) \/ exists a, a ∈ l /\ key a = k.
Proof.
  revert m. induction l as [|a l IH]; intros m; simpl.
  - split; [by left|]. intros [?|(a & Hin & _)]; [done|inversion Hin].
  - rewrite IH. rewrite lookup_insert_is_Some. split.
    + intros [[Hk|[Hne Hs]]|(b & Hin & Hk)].
      * right. exists a. split; [left|done].
      * by left.
      * right. exists b. split; [by right|done].
    + intros [Hs|(b & Hin & Hk)].
      * destruct (decide (key a = k)); [left; by left|left; right; done].
      * apply elem_of_cons in Hin as [Hb|Hin]; [subst b; left; by left|right; eauto].
Qed.

Lemma SliceToMap_is_Some {A} (key : A -> Z) (l : list A) (k : Z) :
  is_Some (SliceToMap key l !! k) <-> exists a, a ∈ l /\ key a = k.
Proof.
  unfold SliceToMap. rewrite SliceToMap_fold. rewrite lookup_empty.
  split; [intros [[? [=]]|?]; done | by right].
Qed.

Lemma LoadBalance_sealed_run (s : Server) (m : gmap Z meta.Segment) (ids : list UniqueID) :
  forall (acc : list meta.Segment) (st : St),
    exists r l,
      logs (LoadBalance_sealed s m ids acc) st r l
      /\ existsb is_balanceSegments l = false
      /\ ((exists id, id ∈ ids /\ m !! id = None) ->
            exists e, r = inl e /\ errKind e = SegmentNotFound)
      /\ ((forall id, id ∈ ids -> is_Some (m !! id)) ->
            exists toBalance,
              r = inr toBalance
              /\ forall seg, seg ∈ toBalance
                   <-> seg ∈ acc \/ exists id, id ∈ ids /\ m !! id = Some seg /\ inCurrentTarget s seg).
Proof.
  unfold logs, inCurrentTarget.
  induction ids as [|id rest IH]; intros acc st; simpl.
  - exists (inr acc), []. unfold ret. rewrite app_nil_r. destruct st. simpl.
    split; [done|]. split; [done|]. split.
    + intros (id & Hin & _). inversion Hin.
    + intros _. exists acc. split; [done|]. intros seg. split; [by left|].
      intros [?|(id & Hin & _)]; [done|inversion Hin].
  - destruct (m !! id) as [segment|] eqn:E.
    + step.
      destruct (targetMgr_GetSealedSegment s (meta.SegCollectionID segment) (meta.SegmentID segment)
                  meta.CurrentTarget) as [t|] eqn:Et.
      * destruct (IH (Set_Insert acc segment)
                    (mkSt (collections st)
                       (calls st ++ [C_GetSealedSegment (meta.SegCollectionID segment)
                                       (meta.SegmentID segment) meta.CurrentTarget])))
          as (r & l & Hrun & Hl & Hmiss & Hall).
        simpl in Hrun. exists r, (C_GetSealedSegment (meta.SegCollectionID segment)
                                     (meta.SegmentID segment) meta.CurrentTarget :: l).
        rewrite Hrun. rewrite <- app_assoc. simpl. split; [done|]. split; [done|]. split.
        -- intros (id' & Hin & Hnone). apply Hmiss.
           apply elem_of_cons in Hin as [-> | Hin]; [congruence|eauto].
        -- intros Hsome. destruct Hall as (tb & -> & Htb).
           { intros id' Hin. apply Hsome. by right. }
           exists tb. split; [done|]. intros seg. rewrite Htb, Set_Insert_elem. split.
           ++ intros [[? | ->]|(id' & Hin & Hm & Ht)].
              ** by left.
              ** right. exists id. split; [left|]. split; [done|]. rewrite Et. eauto.
              ** right. exists id'. split; [by right|done].
           ++ intros [?|(id' & Hin & Hm & Ht)]; [left; by left|].
              apply elem_of_cons in Hin as [-> | Hin].
              ** left. right. congruence.
              ** right. eauto.
      * destruct (IH acc
                    (mkSt (collections st)
                       (calls st ++ [C_GetSealedSegment (meta.SegCollectionID segment)
                                       (meta.SegmentID segment) meta.CurrentTarget])))
          as (r & l & Hrun & Hl & Hmiss & Hall).
        simpl in Hrun. exists r, (C_GetSealedSegment (meta.SegCollectionID segment)
                                     (meta.SegmentID segment) meta.CurrentTarget :: l).
        rewrite Hrun. rewrite <- app_assoc. simpl. split; [done|]. split; [done|]. split.
        -- intros (id' & Hin & Hnone). apply Hmiss.
           apply elem_of_cons in Hin as [-> | Hin]; [congruence|eauto].
        -- intros Hsome. destruct Hall as (tb & -> & Htb).
           { intros id' Hin. apply Hsome. by right. }
           exists tb. split; [done|]. intros seg. rewrite Htb. split.
           ++ intros [?|(id' & Hin & Hm & Ht)]; [by left|].
              right. exists id'. split; [by right|done].
           ++ intros [?|(id' & Hin & Hm & Ht)]; [by left|].
              apply elem_of_cons in Hin as [-> | Hin].
              ** exfalso. rewrite E in Hm. injection Hm as <-. rewrite Et in Ht.
                 by destruct Ht.
              ** right. eauto.
    + eexists (inl _), []. unfold ret. rewrite app_nil_r. destruct st. simpl.
      split; [done|]. split; [done|]. split.
      * intros _. eexists. split; reflexivity.
      * intros Hsome. destruct (Hsome id) as [x Hx]; [left|]. congruence.
Qed.

Lemma LoadBalance_dstNodes_ok (replica : meta.Replica) (dsts : list UniqueID) :
  forall acc : gset Z,
    (forall d, d ∈ dsts -> d ∈ meta.Nodes replica) ->
    LoadBalance_dstNodes replica dsts acc = inr (list_to_set dsts ∪ acc).
Proof.
  induction dsts as [|d rest IH]; intros acc Hin; simpl.
  - f_equal. set_solver.
  - unfold meta.Contains. rewrite bool_decide_eq_true_2 by (apply Hin; left). simpl.
    rewrite IH by (intros; apply Hin; by right). f_equal. set_solver.
Qed.

Lemma LoadBalance_dstNodes_missing (replica : meta.Replica) (dsts : list UniqueID) :
  forall acc : gset Z,
    (exists d, d ∈ dsts /\ d ∉ meta.Nodes replica) ->
    exists e, LoadBalance_dstNodes replica dsts acc = inl e /\ errKind e = NodeNotFound.
Proof.
  induction dsts as [|d rest IH]; intros acc (d' & Hin & Hnot); simpl.
  - inversion Hin.
  - unfold meta.Contains. destruct (bool_decide (d ∈ meta.Nodes replica)) eqn:E; simpl.
    + apply IH. apply elem_of_cons in Hin as [-> | Hin]; [|eauto].
      apply bool_decide_eq_true in E. done.
    + eexists. split; reflexivity.
Qed.

Lemma isStoppingNode_ok (s : Server) (nodeID : UniqueID) (st : St) :
  nodeMgr_IsStoppingNode s nodeID = inr false ->
  logs (isStoppingNode s nodeID) st None [C_IsStoppingNode nodeID].
Proof. intros H. unfold logs, isStoppingNode. step. by rewrite H. Qed.

Lemma isStoppingNode_rejects (s : Server) (nodeID : UniqueID) (st : St) :
  nodeMgr_IsStoppingNode s nodeID ≠ inr false ->
  exists e, logs (isStoppingNode s nodeID) st (Some e) [C_IsStoppingNode nodeID].
Proof.
  intros H. unfold logs, isStoppingNode. step.
  destruct (nodeMgr_IsStoppingNode s nodeID) as [e|[|]]; [eauto..|done].
Qed.

Lemma LoadBalance_checkDst_ok (s : Server) (dsts : list UniqueID) :
  forall st,
    (forall d, d ∈ dsts -> nodeMgr_IsStoppingNode s d = inr false) ->
    logs (LoadBalance_checkDst s dsts) st None (map C_IsStoppingNode dsts).
Proof.
  unfold logs. induction dsts as [|d rest IH]; intros st Hok; simpl.
  - unfold ret. rewrite app_nil_r. by destruct st.
  - unfold bind. rewrite (isStoppingNode_ok s d st) by (apply Hok; left).
    rewrite IH by (intros; apply Hok; by right). simpl. by rewrite <- app_assoc.
Qed.



(** C2. The failing input: collection 100 is fully loaded on the replica
    of nodes 1 and 2, and the request names source node 1 and no
    destination.  The request is accepted, and the destinations handed to
    the balance executor are 2 and 1: the source node is among them,
    where the comment in the code and the design say the default is the
    other nodes of the replica. *)
Theorem LoadBalance_default_destinations_include_source :
  LoadBalanceRequest.DstNodeIDs (LoadBalanceRequest.mk 100 [1] [] []) = []
  /\ fst (LoadBalance (scenarioServer baseline) (LoadBalanceRequest.mk 100 [1] [] []) (start loaded100))
     = Returned merr.Success None
  /\ balanceDestinations
       (issued (LoadBalance (scenarioServer baseline) (LoadBalanceRequest.mk 100 [1] [] []))
          (start loaded100))
     = Some [2; 1].
Proof. split; [|split]; vm_compute; reflexivity. Qed.

(** ** CheckHealth *)

Lemma checkNodeHealth_tasks_run (s : Server) (nodes : list session.NodeInfo) :
  forall (acc : list string * option Err) (st : St),
    foldM (checkNodeHealth_task s) nodes acc st
    = (((fst acc ++ unhealthyReasons s nodes)%list,
        match snd acc with Some first => Some first | None => firstProbeError s nodes end),
       mkSt (collections st)
         (calls st ++ map (fun node => C_GetComponentStates (session.ID node)) nodes)).
Proof.
  induction nodes as [|node rest IH]; intros [reasons err] st; simpl.
  - unfold ret. rewrite !app_nil_r. destruct st, err; reflexivity.
  - unfold bind at 1. unfold checkNodeHealth_task at 1. unfold bind at 1.
    unfold GetComponentStates, call. simpl.
    destruct (cluster_GetComponentStates s (session.ID node)) as [e|resp].
    + unfold ret. simpl. rewrite IH. simpl. rewrite <- app_assoc. simpl. destruct err; reflexivity.
    + destruct (merr_AnalyzeState s "QueryNode" (session.ID node) resp) as [e|].
      * unfold ret. simpl. rewrite IH. simpl. rewrite <- !app_assoc. reflexivity.
      * unfold ret. simpl. rewrite IH. simpl. rewrite <- !app_assoc. reflexivity.
Qed.

Lemma checkNodeHealth_run (s : Server) (st : St) :
  checkNodeHealth s st
  = ((unhealthyReasons s (nodeMgr_GetAll s), firstProbeError s (nodeMgr_GetAll s)),
     mkSt (collections st)
       (calls st ++ C_nodeMgr_GetAll
                    :: map (fun node => C_GetComponentStates (session.ID node)) (nodeMgr_GetAll s))).
Proof.
  unfold checkNodeHealth, checkNodeHealth_tasks, nodeMgr_GetAll_call.
  unfold bind at 1. unfold call at 1. simpl.
  rewrite checkNodeHealth_tasks_run. simpl. by rewrite <- app_assoc.
Qed.

Lemma firstProbeError_Some (s : Server) (nodes : list session.NodeInfo) :
  (exists node err, node ∈ nodes /\ cluster_GetComponentStates s (session.ID node) = inl err)
  -> exists err, firstProbeError s nodes = Some err.
Proof.
  induction nodes as [|n rest IH]; intros (node & err & Hin & Herr); simpl.
  - inversion Hin.
  - destruct (cluster_GetComponentStates s (session.ID n)) as [e|r] eqn:E; [eauto|].
    apply IH. apply elem_of_cons in Hin as [-> | Hin]; [congruence|eauto].
Qed.

(** C1, as the code has it. In CheckHealth on a healthy coordinator, a
    transport error returned by the component-state probe of any node
    makes [checkNodeHealth] return an error, and CheckHealth answers that
    with an ordinary response: Go error nil, status Success, IsHealthy
    false, and as reasons those of the nodes that reported a non-healthy
    state -- the probes of the other nodes are not cut short, and the
    error itself is not among the reasons. *)
Theorem CheckHealth_transport_error (s : Server) (req : CheckHealthRequest.t) (st : St) :
  server_State s = commonpb.Healthy ->
  (exists node err,
      node ∈ nodeMgr_GetAll s /\ cluster_GetComponentStates s (session.ID node) = inl err) ->
  (exists err, snd (fst (checkNodeHealth s st)) = Some err)
  /\ fst (CheckHealth s req st)
     = Returned (CheckHealthResponse.mk merr.Success false (unhealthyReasons s (nodeMgr_GetAll s)))
         None.
Proof.
  intros Hh Hex. apply firstProbeError_Some in Hex as [err Herr]. split.
  - rewrite checkNodeHealth_run. simpl. eauto.
  - unfold CheckHealth, merr.CheckHealthy, State. unfold bind at 1. unfold call at 1. simpl.
    rewrite Hh. simpl. unfold bind at 1. rewrite checkNodeHealth_run. simpl. rewrite Herr.
    reflexivity.
Qed.

Lemma CheckHealth_transport_error_witness :
  (exists err, snd (fst (checkNodeHealth (scenarioServer unreachableFleet) (start loaded100))) = Some err)
  /\ fst (CheckHealth (scenarioServer unreachableFleet) CheckHealthRequest.mk (start loaded100))
     = Returned (CheckHealthResponse.mk merr.Success false []) None.
Proof.
  apply (CheckHealth_transport_error (scenarioServer unreachableFleet) CheckHealthRequest.mk
           (start loaded100)).
  - reflexivity.
  - exists (node 1 false), transportError. split; [left | reflexivity].
Defined.

(** C1 as stated fails: with three nodes of which node 2 answers the probe
    with a transport error, CheckHealth returns a nil Go error and a
    Success status, and its response is the very response it gives when
    node 2 is healthy -- node 1 reported unhealthy in both. *)
Lemma CheckHealth_transport_error_is_not_a_hard_failure :
  cluster_GetComponentStates (scenarioServer (fleetWithNode2 (inl transportError))) 2
    = inl transportError
  /\ fst (CheckHealth (scenarioServer (fleetWithNode2 (inl transportError))) CheckHealthRequest.mk
            (start loaded100))
     = Returned (CheckHealthResponse.mk merr.Success false ["QueryNode 1 is Abnormal"]) None
  /\ fst (CheckHealth (scenarioServer (fleetWithNode2 (inl transportError))) CheckHealthRequest.mk
            (start loaded100))
     = fst (CheckHealth (scenarioServer (fleetWithNode2 healthyProbe)) CheckHealthRequest.mk
              (start loaded100)).
Proof. split; [|split]; vm_compute; reflexivity. Qed.

(** ** GetShardLeaders: failing channels *)

Lemma GetShardLeaders_leader_step (s : Server) ct (leader : meta.LeaderView)
  (rest : list meta.LeaderView) (acc : gmap Z meta.LeaderView * option Err) (st : St) :
  foldM (GetShardLeaders_leader s ct) (leader :: rest) acc st
  = foldM (GetShardLeaders_leader s ct) rest
      (match checkers_CheckLeaderAvailable s leader ct with
       | Some err => (fst acc, multierr_AppendInto (snd acc) err)
       | None => (<[meta.ID leader := leader]> (fst acc), snd acc)
       end)
      (mkSt (collections st) (calls st ++ [C_CheckLeaderAvailable leader])).
Proof.
  simpl. unfold bind at 1. unfold GetShardLeaders_leader at 1. unfold bind at 1.
  unfold CheckLeaderAvailable, call. simpl.
  destruct (checkers_CheckLeaderAvailable s leader ct); reflexivity.
Qed.

Lemma GetShardLeaders_leaders_fold (s : Server) ct (leaders : list meta.LeaderView) :
  forall (acc : gmap Z meta.LeaderView * option Err) (st : St),
    let r := fst (foldM (GetShardLeaders_leader s ct) leaders acc st) in
    (fst acc ≠ ∅ -> fst r ≠ ∅)
    /\ (snd acc ≠ None -> snd r ≠ None)
    /\ (leaders ≠ [] -> fst r = ∅ -> snd r ≠ None).
Proof.
  induction leaders as [|leader rest IH]; intros [readable cerr] st.
  - simpl. done.
  - rewrite GetShardLeaders_leader_step. simpl.
    match goal with |- context [foldM _ rest ?a ?b] => destruct (IH a b) as (H1 & H2 & H3) end.
    destruct (checkers_CheckLeaderAvailable s leader ct) as [e|]; simpl in *.
    + split; [exact H1|]. split.
      * intros _. apply H2. by destruct cerr.
      * intros _ _. apply H2. by destruct cerr.
    + split; [|split].
      * intros _. apply H1. apply insert_non_empty.
      * exact H2.
      * intros _ He. exfalso. revert He. apply H1, insert_non_empty.
Qed.

(** Whatever [GetShardLeaders] returns for the channels is either the
    full list, one entry per channel, or a ChannelNotAvailable failure
    with no shard at all. *)
Lemma GetShardLeaders_channels_all_or_nothing (s : Server) ct (channels : list meta.DmChannel) :
  forall resp st r e,
    fst (GetShardLeaders_channels s ct channels resp st) = Returned r e ->
    (GetShardLeadersResponse.Status r = GetShardLeadersResponse.Status resp
     /\ exists shards,
          GetShardLeadersResponse.Shards r = (GetShardLeadersResponse.Shards resp ++ shards)%list
          /\ map querypb.ChannelName shards = map meta.ChannelName channels)
    \/ (commonpb.Code (GetShardLeadersResponse.Status r) = Some ChannelNotAvailable
        /\ GetShardLeadersResponse.Shards r = []).
Proof.
  induction channels as [|ch rest IH]; intros resp st r e; simpl.
  - unfold ret. simpl. intros [= <- <-]. left. split; [done|]. exists []. by rewrite app_nil_r.
  - unfold LeaderViewManager_GetByFilter. unfold bind at 1. unfold call at 1. simpl.
    unfold bind at 1. destruct (GetShardLeaders_leaders _ _ _ _ _) as [[readable cerr] st1]. simpl.
    case_match.
    + case_match; unfold ret; simpl; [|discriminate]. intros [= <- <-]. by right.
    + unfold bind at 1. destruct (GetShardLeaders_addrs _ _ _) as [[ids addrs] st2]. simpl.
      case_match.
      * case_match; unfold ret; simpl; [|discriminate]. intros [= <- <-]. by right.
      * intros Hr. apply IH in Hr as [(Hs & shards & Hsh & Hn)|Hfail]; [left|by right].
        simpl in *. split; [done|]. eexists (_ :: shards). rewrite Hsh, <- app_assoc. simpl.
        split; [reflexivity|]. by rewrite Hn.
Qed.

(** The first failure site of a channel never meets a nil [channelErr]:
    without a readable leader, either no view was reported (ChannelLack)
    or some view failed the availability check. *)
Lemma GetShardLeaders_leaders_error (s : Server) ct (leaders : list meta.LeaderView) (name : string)
  (st : St) :
  let channelErr :=
    if decide (length leaders = 0%nat)
    then Some (merr.WrapErrChannelLack name ["channel not subscribed"]) else None in
  let r := fst (GetShardLeaders_leaders s ct leaders channelErr st) in
  size (fst r) = 0%nat -> snd r ≠ None.
Proof.
  intros channelErr r Hsize. apply map_size_empty_iff in Hsize.
  destruct (GetShardLeaders_leaders_fold s ct leaders (∅, channelErr) st) as (_ & H2 & H3).
  unfold channelErr in *. destruct leaders as [|l0 rest].
  - apply H2. simpl. done.
  - apply H3; done.
Qed.

(** C10. The failing input: channel dml-0 has one leader view, on node 1,
    which passes the availability check; node 1 is gone from the node
    manager when its address is looked up.  No identifier is collected,
    [channelErr] is still nil, and the handler panics on
    [channelErr.Error()] where the response should carry the
    ChannelNotAvailable status and no shards. *)
Theorem GetShardLeaders_panics_when_leader_unaddressable :
  dist_LeaderViewManager_GetByFilter (scenarioServer leaderGone)
    [meta.WithChannelName2LeaderView "dml-0"] = [meta.mkLeaderView 1 100 "dml-0" 3]
  /\ checkers_CheckLeaderAvailable (scenarioServer leaderGone) (meta.mkLeaderView 1 100 "dml-0" 3) ∅
     = None
  /\ nodeMgr_Get (scenarioServer leaderGone) 1 = None
  /\ fst (GetShardLeaders (scenarioServer leaderGone) (GetShardLeadersRequest.mk 100) (start loaded100))
     = Panicked.
Proof. repeat split; vm_compute; reflexivity. Qed.

(** ** The Go-level error of every handler *)

Lemma nilError_Returned {R} (r : R) : nilError (Returned r None).
Proof. by right. Qed.

Lemma nilError_Panicked {R} : nilError (@Panicked R).
Proof. by left. Qed.

Create HintDb nilerr.
#[local] Hint Resolve nilError_Returned nilError_Panicked : nilerr.

(** Walks through the branches of a handler without loops. *)
Ltac branches :=
  repeat (first [ progress (unfold bind, call, ret; simpl) | case_match ]);
  auto with nilerr.

Lemma ShowCollections_loop_nil (s : Server) (isGetAll : bool) (ids : list UniqueID) :
  forall resp st, nilError (fst (ShowCollections_loop s isGetAll ids resp st)).
Proof.
  induction ids as [|id rest IH]; intros resp st; simpl; [apply nilError_Returned|].
  unfold GetCollection, CalculateLoadPercentage, GlobalFailedLoadCache_Get, checkAnyReplicaAvailable.
  unfold bind at 1. unfold call at 1. simpl. unfold bind at 1. unfold call at 1. simpl.
  case_match; [case_match|].
  - apply IH.
  - branches.
  - unfold bind at 1. unfold call at 1. simpl. apply IH.
Qed.

Lemma ShowPartitions_loop_nil (s : Server) (collectionID : UniqueID) (ids : list UniqueID) :
  forall acc st o, fst (ShowPartitions_loop s collectionID ids acc st) = inl o -> nilError o.
Proof.
  induction ids as [|id rest IH]; intros acc st o; simpl; [discriminate|].
  unfold GetPartitionLoadPercentage, GlobalFailedLoadCache_Get.
  unfold bind at 1. unfold call at 1. simpl.
  case_match.
  - unfold bind, call, ret. simpl. case_match; simpl; intros [= <-]; auto with nilerr.
  - apply IH.
Qed.

Lemma GetPartitionStates_released_nil notLoadResp released state (ids : list UniqueID) :
  forall acc o, GetPartitionStates_released notLoadResp released state ids acc = inl o -> nilError o.
Proof.
  induction ids as [|id rest IH]; intros acc o; simpl; [discriminate|].
  case_match; [intros [= <-]; auto with nilerr | apply IH].
Qed.

Lemma GetPartitionStates_partitions_nil (s : Server) notLoadResp (ids : list UniqueID) :
  forall acc st o, fst (GetPartitionStates_partitions s notLoadResp ids acc st) = inl o -> nilError o.
Proof.
  induction ids as [|id rest IH]; intros acc st o; simpl; [discriminate|].
  unfold GetPartition. unfold bind at 1. unfold call at 1. simpl.
  case_match; [apply IH|]. unfold ret. simpl. intros [= <-]; auto with nilerr.
Qed.

Lemma GetSegmentInfo_loop_nil (s : Server) (ids : list UniqueID) :
  forall acc st o, fst (GetSegmentInfo_loop s ids acc st) = inl o -> nilError o.
Proof.
  induction ids as [|id rest IH]; intros acc st o; simpl; [discriminate|].
  unfold SegmentDistManager_GetByFilter. unfold bind at 1. unfold call at 1. simpl.
  case_match; [|apply IH]. unfold ret. simpl. intros [= <-]; auto with nilerr.
Qed.

Lemma GetShardLeaders_channels_nil (s : Server) ct (channels : list meta.DmChannel) :
  forall resp st, nilError (fst (GetShardLeaders_channels s ct channels resp st)).
Proof.
  induction channels as [|ch rest IH]; intros resp st; simpl; [apply nilError_Returned|].
  unfold LeaderViewManager_GetByFilter. unfold bind at 1. unfold call at 1. simpl.
  unfold bind at 1. destruct (GetShardLeaders_leaders _ _ _ _ _) as [[readable cerr] st1]. simpl.
  case_match.
  - case_match; unfold ret; simpl; auto with nilerr.
  - unfold bind at 1. destruct (GetShardLeaders_addrs _ _ _) as [[ids addrs] st2]. simpl.
    case_match; [case_match; unfold ret; simpl; auto with nilerr | apply IH].
Qed.

Section NilError.
Variables (s : Server) (st : St).

Lemma ShowCollections_nil req : nilError (fst (ShowCollections s req st)).
Proof.
  unfold ShowCollections, State, GlobalFailedLoadCache_TryExpire.
  unfold bind at 1. unfold call at 1. simpl. case_match; [branches|].
  unfold bind at 1. destruct (_ : list meta.Collection * St) as [all st1]. 
  unfold bind at 1.
  match goal with |- context [ShowCollections_loop ?a ?b ?c ?d ?e] =>
    pose proof (ShowCollections_loop_nil a b c d e) as Hloop; destruct (ShowCollections_loop a b c d e) end.
  branches.
Qed.

Lemma ShowPartitions_nil req : nilError (fst (ShowPartitions s req st)).
Proof.
  unfold ShowPartitions, State, GlobalFailedLoadCache_TryExpire.
  unfold bind at 1. unfold call at 1. simpl. case_match; [branches|].
  unfold bind at 1. destruct (_ : list UniqueID * St) as [parts st1].
  unfold bind at 1.
  match goal with |- context [ShowPartitions_loop ?a ?b ?c ?d ?e] =>
    pose proof (ShowPartitions_loop_nil a b c d e) as Hloop; destruct (ShowPartitions_loop a b c d e) as [[o|pcts] st2] end.
  - simpl in Hloop. autounfold with calls. branches.
  - autounfold with calls. branches.
Qed.

Lemma refresh_nil A (k : option Err -> M (Outcome A)) cid st0 :
  (forall e st1, nilError (fst (k e st1))) -> nilError (fst (bind (refreshCollection s cid) k st0)).
Proof. intros H. unfold bind. destruct (refreshCollection s cid st0). apply H. Qed.

Lemma LoadCollection_nil req : nilError (fst (LoadCollection s req st)).
Proof.
  unfold LoadCollection, checkResourceGroup. autounfold with calls.
  unfold bind at 1. unfold call at 1. simpl. case_match; [branches|].
  case_match; [apply refresh_nil; intros; branches|]. branches.
Qed.

Lemma ReleaseCollection_nil req : nilError (fst (ReleaseCollection s req st)).
Proof. unfold ReleaseCollection. autounfold with calls. branches. Qed.

Lemma LoadPartitions_nil req : nilError (fst (LoadPartitions s req st)).
Proof.
  unfold LoadPartitions, checkResourceGroup. autounfold with calls.
  unfold bind at 1. unfold call at 1. simpl. case_match; [branches|].
  case_match; [apply refresh_nil; intros; branches|]. branches.
Qed.

Lemma ReleasePartitions_nil req : nilError (fst (ReleasePartitions s req st)).
Proof. unfold ReleasePartitions. autounfold with calls. branches. Qed.

Lemma GetPartitionStates_nil req : nilError (fst (GetPartitionStates s req st)).
Proof.
  unfold GetPartitionStates. autounfold with calls.
  unfold bind at 1. unfold call at 1. simpl. case_match; [branches|].
  unfold bind at 1. unfold call at 1. simpl. case_match.
  - branches.
  - unfold bind at 1.
    match goal with |- context [GetPartitionStates_partitions ?a ?b ?c ?d ?e] =>
      pose proof (GetPartitionStates_partitions_nil a b c d e) as Hloop;
      destruct (GetPartitionStates_partitions a b c d e) as [[o|x] st2] end.
    + simpl in Hloop. branches.
    + branches.
  - unfold bind at 1. unfold call at 1. simpl. case_match; [|branches].
    match goal with |- context [GetPartitionStates_released ?a ?b ?c ?d ?e] =>
      pose proof (GetPartitionStates_released_nil a b c d e) as Hloop;
      destruct (GetPartitionStates_released a b c d e) as [o|x] end.
    + unfold ret. simpl. auto.
    + branches.
Qed.

Lemma GetSegmentInfo_nil req : nilError (fst (GetSegmentInfo s req st)).
Proof.
  unfold GetSegmentInfo. autounfold with calls.
  unfold bind at 1. unfold call at 1. simpl. case_match; [branches|].
  case_match; [branches|]. unfold bind at 1.
  match goal with |- context [GetSegmentInfo_loop ?a ?b ?c ?d] =>
    pose proof (GetSegmentInfo_loop_nil a b c d) as Hloop;
    destruct (GetSegmentInfo_loop a b c d) as [[o|x] st2] end.
  - simpl in Hloop. branches.
  - branches.
Qed.

Lemma SyncNewCreatedPartition_nil req : nilError (fst (SyncNewCreatedPartition s req st)).
Proof. unfold SyncNewCreatedPartition. autounfold with calls. branches. Qed.

Lemma LoadBalance_nil req : nilError (fst (LoadBalance s req st)).
Proof.
  unfold LoadBalance, isStoppingNode. autounfold with calls.
  repeat (first [ progress (unfold bind at 1; unfold call, ret; simpl)
                | match goal with
                  | |- context [LoadBalance_checkDst ?a ?b ?c] => destruct (LoadBalance_checkDst a b c)
                  | |- context [LoadBalance_sealed ?a ?b ?c ?d ?e] => destruct (LoadBalance_sealed a b c d e)
                  end
                | case_match ]); simpl; auto with nilerr.
Qed.

Lemma ShowConfigurations_nil req : nilError (fst (ShowConfigurations s req st)).
Proof. unfold ShowConfigurations. autounfold with calls. branches. Qed.

Lemma GetMetrics_nil req : nilError (fst (GetMetrics s req st)).
Proof. unfold GetMetrics. autounfold with calls. branches. Qed.

Lemma GetReplicas_nil req : nilError (fst (GetReplicas s req st)).
Proof.
  unfold GetReplicas. autounfold with calls.
  unfold bind at 1. unfold call at 1. simpl. case_match; [branches|].
  unfold bind at 1. unfold call at 1. simpl. case_match; [branches|].
  unfold bind at 1. destruct (foldM _ _ _ _). branches.
Qed.

Lemma GetShardLeaders_nil req : nilError (fst (GetShardLeaders s req st)).
Proof.
  unfold GetShardLeaders, GetShardLeaders_resolve. autounfold with calls.
  repeat (first [ progress (unfold bind at 1; unfold call, ret; simpl)
                | apply GetShardLeaders_channels_nil
                | case_match ]); simpl; auto with nilerr.
Qed.

Lemma CheckHealth_nil req : nilError (fst (CheckHealth s req st)).
Proof.
  unfold CheckHealth. autounfold with calls.
  unfold bind at 1. unfold call at 1. simpl. case_match; [branches|].
  unfold bind at 1. destruct (checkNodeHealth s _). branches.
Qed.

Lemma CreateResourceGroup_nil req : nilError (fst (CreateResourceGroup s req st)).
Proof. unfold CreateResourceGroup. autounfold with calls. branches. Qed.

Lemma UpdateResourceGroups_nil req : nilError (fst (UpdateResourceGroups s req st)).
Proof. unfold UpdateResourceGroups. autounfold with calls. branches. Qed.

Lemma DropResourceGroup_nil req : nilError (fst (DropResourceGroup s req st)).
Proof. unfold DropResourceGroup. autounfold with calls. branches. Qed.

Lemma TransferNode_nil req : nilError (fst (TransferNode s req st)).
Proof. unfold TransferNode. autounfold with calls. branches. Qed.

Lemma TransferReplica_nil req : nilError (fst (TransferReplica s req st)).
Proof. unfold TransferReplica. autounfold with calls. branches. Qed.

Lemma ListResourceGroups_nil req : nilError (fst (ListResourceGroups s req st)).
Proof. unfold ListResourceGroups. autounfold with calls. branches. Qed.

Lemma DescribeResourceGroup_nil req : nilError (fst (DescribeResourceGroup s req st)).
Proof.
  unfold DescribeResourceGroup. autounfold with calls.
  repeat (first [ progress (unfold bind at 1; unfold call, ret; simpl)
                | match goal with
                  | |- context [DescribeResourceGroup_outgoing ?a ?b ?c] =>
                      destruct (DescribeResourceGroup_outgoing a b c)
                  | |- context [DescribeResourceGroup_incoming ?a ?b ?c ?d] =>
                      destruct (DescribeResourceGroup_incoming a b c d)
                  | |- context [DescribeResourceGroup_nodes ?a ?b ?c] =>
                      destruct (DescribeResourceGroup_nodes a b c)
                  end
                | case_match ]); simpl; auto with nilerr.
Qed.

End NilError.



(** * Further properties of the handlers *)

(** ** Footprints *)

Section Frames.
Context {p : Call -> bool}.

Lemma frames_ret {A} (a : A) : frames p (ret a).
Proof. intros st. exists []. unfold ret. simpl. rewrite app_nil_r. by destruct st. Qed.

Lemma frames_call {A} (c : Call) (a : A) : p c = true -> frames p (call c a).
Proof. intros Hc st. exists [c]. unfold call. simpl. by rewrite Hc. Qed.

Lemma frames_read_store {A} (c : Call) (f : St -> A) :
  p c = true -> frames p (fun st => call c (f st) st).
Proof. intros Hc st. exists [c]. unfold call. simpl. by rewrite Hc. Qed.

Lemma frames_bind {A B} (m : M A) (k : A -> M B) :
  frames p m -> (forall a, frames p (k a)) -> frames p (bind m k).
Proof.
  intros Hm Hk st. unfold bind. destruct (Hm st) as (l1 & E1 & H1).
  destruct (m st) as [a st1]. simpl in E1. subst st1.
  destruct (Hk a (mkSt (collections st) (calls st ++ l1))) as (l2 & E2 & H2).
  exists (l1 ++ l2)%list. rewrite E2. simpl. rewrite app_assoc. split; [done|].
  rewrite forallb_app, H1, H2. done.
Qed.

Lemma frames_foldM {A B} (f : B -> A -> M B) (l : list A) :
  (forall b a, frames p (f b a)) -> forall b, frames p (foldM f l b).
Proof.
  intros Hf. induction l as [|a l IH]; intros b; simpl.
  - apply frames_ret.
  - apply frames_bind; [apply Hf | apply IH].
Qed.

Lemma frames_observe {R} (status : R -> option commonpb.Status) (m : M (Outcome R)) :
  frames p m -> frames p (observe status m).
Proof.
  intros Hm st. destruct (Hm st) as (l & E & H). exists l. unfold observe.
  destruct (m st). simpl in *. done.
Qed.

End Frames.

Lemma frames_mono {A} (p q : Call -> bool) (m : M A) :
  (forall c, p c = true -> q c = true) -> frames p m -> frames q m.
Proof.
  intros Hpq Hm st. destruct (Hm st) as (l & E & H). exists l. split; [done|].
  apply forallb_forall. intros c Hc. apply Hpq. eapply forallb_forall in H; eauto.
Qed.

Lemma frames_issued {A} (p : Call -> bool) (m : M A) (st : St) :
  frames p m ->
  collections (snd (m st)) = collections st /\ forallb p (issued m st) = true.
Proof.
  intros Hm. destruct (Hm st) as (l & E & H). unfold issued. rewrite E. simpl.
  by rewrite drop_app_length.
Qed.

Lemma frames_reads {A} (r : Request) (m : M A) : frames isRead m -> frames (allowed r) m.
Proof. apply frames_mono. intros c Hc. unfold allowed. by rewrite Hc. Qed.

Create HintDb frames.

(** Discharges the membership of a call in a footprint. *)
Ltac in_footprint :=
  first [ reflexivity
        | unfold allowed; simpl; rewrite ?bool_decide_eq_true_2 by reflexivity; reflexivity ].

(** Walks through a handler, one collaborator call at a time. *)
Ltac frame :=
  repeat first
    [ apply frames_ret
    | apply frames_call; in_footprint
    | apply frames_read_store; in_footprint
    | solve [auto with frames]
    | apply frames_reads; solve [auto with frames]
    | apply frames_bind; [ | intros ? ]
    | apply frames_foldM; intros ? ?
    | progress simpl
    | case_match ].

Section Footprints.
Variable s : Server.

Lemma ShowCollections_loop_reads isGetAll ids :
  forall resp, frames isRead (ShowCollections_loop s isGetAll ids resp).
Proof.
  induction ids as [|id rest IH]; intros resp; simpl; [apply frames_ret|].
  autounfold with calls. frame; apply IH.
Qed.

Lemma ShowPartitions_loop_reads collectionID ids :
  forall acc, frames isRead (ShowPartitions_loop s collectionID ids acc).
Proof.
  induction ids as [|id rest IH]; intros acc; simpl; [apply frames_ret|].
  autounfold with calls. frame; apply IH.
Qed.

Lemma GetPartitionStates_partitions_reads notLoadResp ids :
  forall acc, frames isRead (GetPartitionStates_partitions s notLoadResp ids acc).
Proof.
  induction ids as [|id rest IH]; intros acc; simpl; [apply frames_ret|].
  autounfold with calls. frame; apply IH.
Qed.

Lemma GetSegmentInfo_loop_reads ids :
  forall acc, frames isRead (GetSegmentInfo_loop s ids acc).
Proof.
  induction ids as [|id rest IH]; intros acc; simpl; [apply frames_ret|].
  autounfold with calls. frame; apply IH.
Qed.

Lemma isStoppingNode_reads nodeID : frames isRead (isStoppingNode s nodeID).
Proof. unfold isStoppingNode. autounfold with calls. frame. Qed.

Lemma LoadBalance_checkDst_reads dsts : frames isRead (LoadBalance_checkDst s dsts).
Proof.
  induction dsts as [|d rest IH]; simpl; [apply frames_ret|].
  apply frames_bind; [apply isStoppingNode_reads|intros err]. case_match; [apply frames_ret|apply IH].
Qed.

Lemma LoadBalance_sealed_reads m ids :
  forall acc, frames isRead (LoadBalance_sealed s m ids acc).
Proof.
  induction ids as [|id rest IH]; intros acc; simpl; [apply frames_ret|].
  autounfold with calls. frame; apply IH.
Qed.

Lemma GetShardLeaders_leaders_reads ct leaders cerr :
  frames isRead (GetShardLeaders_leaders s ct leaders cerr).
Proof.
  unfold GetShardLeaders_leaders. apply frames_foldM. intros acc leader.
  unfold GetShardLeaders_leader. autounfold with calls. frame.
Qed.

Lemma GetShardLeaders_addrs_reads leaders : frames isRead (GetShardLeaders_addrs s leaders).
Proof. unfold GetShardLeaders_addrs. autounfold with calls. frame. Qed.

Lemma GetShardLeaders_channels_reads ct channels :
  forall resp, frames isRead (GetShardLeaders_channels s ct channels resp).
Proof.
  induction channels as [|ch rest IH]; intros resp; simpl; [apply frames_ret|].
  autounfold with calls.
  apply frames_bind; [apply frames_call; reflexivity|intros leaders].
  apply frames_bind; [apply GetShardLeaders_leaders_reads|intros r].
  case_match; [case_match; apply frames_ret|].
  apply frames_bind; [apply GetShardLeaders_addrs_reads|intros a].
  case_match; [case_match; apply frames_ret|apply IH].
Qed.

Lemma checkNodeHealth_reads : frames isRead (checkNodeHealth s).
Proof.
  unfold checkNodeHealth, checkNodeHealth_tasks. autounfold with calls.
  apply frames_bind; [apply frames_call; reflexivity|intros nodes].
  apply frames_foldM. intros acc node. unfold checkNodeHealth_task. autounfold with calls. frame.
Qed.

Lemma DescribeResourceGroup_outgoing_reads replicas :
  frames isRead (DescribeResourceGroup_outgoing s replicas).
Proof. unfold DescribeResourceGroup_outgoing. autounfold with calls. frame. Qed.

Lemma DescribeResourceGroup_incoming_reads rgName collections :
  frames isRead (DescribeResourceGroup_incoming s rgName collections).
Proof. unfold DescribeResourceGroup_incoming. autounfold with calls. frame. Qed.

Lemma DescribeResourceGroup_nodes_reads nodeIDs : frames isRead (DescribeResourceGroup_nodes s nodeIDs).
Proof. unfold DescribeResourceGroup_nodes. autounfold with calls. frame. Qed.

Lemma checkResourceGroup_reads collectionID rgs : frames isRead (checkResourceGroup s collectionID rgs).
Proof. unfold checkResourceGroup. autounfold with calls. frame. Qed.

End Footprints.

#[local] Hint Resolve ShowCollections_loop_reads ShowPartitions_loop_reads
  GetPartitionStates_partitions_reads GetSegmentInfo_loop_reads isStoppingNode_reads
  LoadBalance_checkDst_reads LoadBalance_sealed_reads GetShardLeaders_leaders_reads
  GetShardLeaders_addrs_reads GetShardLeaders_channels_reads checkNodeHealth_reads
  DescribeResourceGroup_outgoing_reads DescribeResourceGroup_incoming_reads
  DescribeResourceGroup_nodes_reads checkResourceGroup_reads : frames.

Lemma handle_frames (s : Server) (r : Request) :
  isRefresh r = false -> frames (allowed r) (handle s r).
Proof.
  intros Hr. destruct r as [req|req|req|req|req|req|req|req|req|req|req|req|req|req|req|req|req|req|req|req|req|req];
    simpl in Hr; unfold handle; apply frames_observe.
  - unfold ShowCollections. autounfold with calls. frame.
  - unfold ShowPartitions. autounfold with calls. frame.
  - unfold LoadCollection. rewrite Hr. autounfold with calls. frame.
  - unfold ReleaseCollection. autounfold with calls. frame.
  - unfold LoadPartitions. rewrite Hr. autounfold with calls. frame.
  - unfold ReleasePartitions. autounfold with calls. frame.
  - unfold GetPartitionStates. autounfold with calls. frame.
  - unfold GetSegmentInfo. autounfold with calls. frame.
  - unfold SyncNewCreatedPartition. autounfold with calls. frame.
  - unfold LoadBalance. autounfold with calls. frame.
  - unfold ShowConfigurations. autounfold with calls. frame.
  - unfold GetMetrics. autounfold with calls. frame.
  - unfold GetReplicas. autounfold with calls. frame.
  - unfold GetShardLeaders, GetShardLeaders_resolve. autounfold with calls. frame.
  - unfold CheckHealth. autounfold with calls. frame.
  - unfold CreateResourceGroup. autounfold with calls. frame.
  - unfold UpdateResourceGroups. autounfold with calls. frame.
  - unfold DropResourceGroup. autounfold with calls. frame.
  - unfold TransferNode. autounfold with calls. frame.
  - unfold TransferReplica. autounfold with calls. frame.
  - unfold ListResourceGroups. autounfold with calls. frame.
  - unfold DescribeResourceGroup. autounfold with calls. frame.
Qed.

(** ** The footprint of a handler *)

(** X2. The handler of a request other than a refresh-mode load leaves
    the collection store untouched, and every collaborator call it issues
    is a query or one of the handler's own state-changing calls: only the
    five job handlers submit and await a job, and only the job built from
    their own request; only ShowCollections and ShowPartitions expire the
    failed-load cache; only the release handlers drop a failed-load
    record, and only that of their own collection; only LoadBalance calls
    the balance executor, synchronously and not in copy mode; the
    resource-group handlers call only their own method of the resource or
    replica manager; UpdateNextTarget and SetRefreshNotifier are never
    called. *)
Theorem handler_footprint (s : Server) (r : Request) (st : St) :
  isRefresh r = false ->
  collections (snd (handle s r st)) = collections st
  /\ forallb (allowed r) (issued (handle s r) st) = true.
Proof. intros Hr. apply frames_issued. by apply handle_frames. Qed.

Lemma handler_footprint_witness :
  isRefresh (ReqReleaseCollection (ReleaseCollectionRequest.mk 100)) = false
  /\ collections (snd (handle (scenarioServer baseline)
                         (ReqReleaseCollection (ReleaseCollectionRequest.mk 100)) (start loaded100)))
     = collections (start loaded100)
  /\ forallb (allowed (ReqReleaseCollection (ReleaseCollectionRequest.mk 100)))
       (issued (handle (scenarioServer baseline) (ReqReleaseCollection (ReleaseCollectionRequest.mk 100)))
          (start loaded100)) = true.
Proof.
  split; [reflexivity|].
  apply (handler_footprint (scenarioServer baseline)
           (ReqReleaseCollection (ReleaseCollectionRequest.mk 100)) (start loaded100)).
  reflexivity.
Defined.

(** ** The health gate *)

Lemma CheckHealthy_unhealthy (state : commonpb.StateCode) :
  state ≠ commonpb.Healthy -> merr.CheckHealthy state = Some (merr.WrapErrServiceNotReady state).
Proof. intros H. unfold merr.CheckHealthy. by case_decide. Qed.

(** X1. Every handler other than GetMetrics refuses to serve while the
    coordinator is not in state Healthy (state StandBy included): it
    returns a ServiceNotReady status with a nil Go error, and the read of
    the coordinator state is the only collaborator call it makes; the
    collection store is left as it was. *)
Theorem unhealthy_coordinator_rejects (s : Server) (r : Request) (st : St) :
  server_State s ≠ commonpb.Healthy ->
  isGetMetrics r = false ->
  exists status,
    logs (handle s r) st (Returned (Some status) None) [C_State]
    /\ commonpb.Code status = Some ServiceNotReady.
Proof.
  intros Hs Hr. apply CheckHealthy_unhealthy in Hs. unfold logs.
  destruct r; try discriminate Hr; unfold handle, observe;
    [ unfold ShowCollections | unfold ShowPartitions | unfold LoadCollection | unfold ReleaseCollection
    | unfold LoadPartitions | unfold ReleasePartitions | unfold GetPartitionStates | unfold GetSegmentInfo
    | unfold SyncNewCreatedPartition | unfold LoadBalance | unfold ShowConfigurations | unfold GetReplicas
    | unfold GetShardLeaders | unfold CheckHealth | unfold CreateResourceGroup | unfold UpdateResourceGroups
    | unfold DropResourceGroup | unfold TransferNode | unfold TransferReplica | unfold ListResourceGroups
    | unfold DescribeResourceGroup ];
    unfold bind at 1; unfold State, call; simpl; rewrite Hs; unfold ret; simpl;
    eexists; (split; [reflexivity|reflexivity]).
Qed.

Lemma unhealthy_coordinator_rejects_witness :
  server_State (scenarioServer standby) ≠ commonpb.Healthy
  /\ exists status,
       logs (handle (scenarioServer standby) (ReqShowCollections (ShowCollectionsRequest.mk [])))
         (start loaded100) (Returned (Some status) None) [C_State]
       /\ commonpb.Code status = Some ServiceNotReady.
Proof.
  split; [discriminate|].
  apply (unhealthy_coordinator_rejects (scenarioServer standby)
           (ReqShowCollections (ShowCollectionsRequest.mk [])) (start loaded100));
    [discriminate|reflexivity].
Defined.

(** ** ShowCollections *)

Lemma logs_ret {A} (a : A) (st : St) : logs (ret a) st a [].
Proof. unfold logs, ret. rewrite app_nil_r. by destruct st. Qed.

Lemma logs_bind {A B} (m : M A) (k : A -> M B) st a l b l' :
  logs m st a l ->
  logs (k a) (mkSt (collections st) (calls st ++ l)) b l' ->
  logs (bind m k) st b (l ++ l').
Proof.
  unfold logs, bind. intros -> H. rewrite H. simpl. by rewrite app_assoc.
Qed.

Section ShowCollections.
Variable s : Server.

Lemma ShowCollections_loop_ok (isGetAll : bool) (ids : list UniqueID) :
  forall (resp : ShowCollectionsResponse.t) (st : St),
    isGetAll = true \/ Forall (fun id => 0 <= meta_CalculateLoadPercentage s id) ids ->
    exists l,
      logs (ShowCollections_loop s isGetAll ids resp) st
        (Returned
           (ShowCollectionsResponse.mk
              (ShowCollectionsResponse.Status resp)
              (ShowCollectionsResponse.CollectionIDs resp ++ filter (fun id => 0 <= meta_CalculateLoadPercentage s id) ids)
              (ShowCollectionsResponse.InMemoryPercentages resp
                 ++ map (meta_CalculateLoadPercentage s) (filter (fun id => 0 <= meta_CalculateLoadPercentage s id) ids))
              (ShowCollectionsResponse.QueryServiceAvailable resp
                 ++ map (server_checkAnyReplicaAvailable s) (filter (fun id => 0 <= meta_CalculateLoadPercentage s id) ids))
              (ShowCollectionsResponse.RefreshProgress resp
                 ++ map (fun id => if meta_IsRefreshed s (collections st !! id) then 100 else 0)
                      (filter (fun id => 0 <= meta_CalculateLoadPercentage s id) ids)))
           None)
        l.
Proof.
  induction ids as [|id rest IH]; intros resp st Hok.
  - exists []. simpl. rewrite !app_nil_r. destruct resp. apply logs_ret.
  - simpl ShowCollections_loop. unfold logs in *. step.
    rewrite filter_cons.
    destruct (decide (meta_CalculateLoadPercentage s id < 0)) as [Hneg|Hpos]; simpl.
    + destruct (decide (0 <= meta_CalculateLoadPercentage s id)) as [?|_]; [lia|].
      destruct isGetAll.
      * destruct (IH resp (mkSt (collections st)
                             ((calls st ++ [C_GetCollection id]) ++ [C_CalculateLoadPercentage id])))
          as [l Hl]; [by left|].
        simpl in Hl. rewrite Hl. eexists. rewrite <- !app_assoc. reflexivity.
      * destruct Hok as [?|Hall]; [done|]. inversion Hall; subst. lia.
    + destruct (decide (0 <= meta_CalculateLoadPercentage s id)) as [_|?]; [|lia].
      edestruct (IH (ShowCollectionsResponse.mk
                      (ShowCollectionsResponse.Status resp)
                      (ShowCollectionsResponse.CollectionIDs resp ++ [id])
                      (ShowCollectionsResponse.InMemoryPercentages resp ++ [meta_CalculateLoadPercentage s id])
                      (ShowCollectionsResponse.QueryServiceAvailable resp
                         ++ [server_checkAnyReplicaAvailable s id])
                      (ShowCollectionsResponse.RefreshProgress resp
                         ++ [if meta_IsRefreshed s (collections st !! id) then 100 else 0]))
                   (mkSt (collections st)
                      (((calls st ++ [C_GetCollection id]) ++ [C_CalculateLoadPercentage id])
                         ++ [C_checkAnyReplicaAvailable id])))
        as [l Hl].
      { destruct Hok as [?|Hall]; [by left|right]. by inversion Hall. }
      simpl in Hl. rewrite Hl. eexists. simpl. rewrite <- !app_assoc. reflexivity.
Qed.

Lemma ShowCollections_loop_fail (ids : list UniqueID) :
  forall (resp : ShowCollectionsResponse.t) (st : St),
    Exists (fun id => meta_CalculateLoadPercentage s id < 0) ids ->
    exists id l,
      id ∈ ids /\ meta_CalculateLoadPercentage s id < 0
      /\ logs (ShowCollections_loop s false ids resp) st
           (Returned
              (ShowCollectionsResponse.mk
                 (merr.Status
                    (Some match FailedLoadCache_Get s id with
                          | Some err => errors.Wrap err "show collection failed"
                          | None => merr.WrapErrCollectionNotLoaded id []
                          end))
                 [] [] [] [])
              None)
           l.
Proof.
  induction ids as [|id rest IH]; intros resp st Hbad; [inversion Hbad|].
  simpl ShowCollections_loop. unfold logs in *. step.
  destruct (decide (meta_CalculateLoadPercentage s id < 0)) as [Hneg|Hpos]; simpl.
  - exists id. destruct (FailedLoadCache_Get s id) as [err|]; simpl;
      eexists; (split; [left|]); (split; [done|]); rewrite <- !app_assoc; reflexivity.
  - apply Exists_cons in Hbad as [?|Hbad]; [lia|].
    edestruct IH as (id' & l & Hin & Hneg & Hl); [exact Hbad|].
    exists id'. simpl in Hl. rewrite Hl. eexists. split; [by right|]. split; [done|].
    simpl. rewrite <- !app_assoc. reflexivity.
Qed.

End ShowCollections.

Lemma filter_all {A} (P : A -> Prop) `{forall x, Decision (P x)} (l : list A) :
  Forall P l -> filter P l = l.
Proof.
  induction 1 as [|x l Hx _ IH]; [done|]. rewrite filter_cons. rewrite decide_True by done.
  by rewrite IH.
Qed.







(** ** ShowPartitions *)

Section ShowPartitions.
Variable s : Server.

Lemma ShowPartitions_loop_ok (collectionID : UniqueID) (ids : list UniqueID) :
  forall (acc : list Z) (st : St),
    Forall (fun id => 0 <= meta_GetPartitionLoadPercentage s id) ids ->
    logs (ShowPartitions_loop s collectionID ids acc) st (inr (acc ++ map (meta_GetPartitionLoadPercentage s) ids)%list)
      (map C_GetPartitionLoadPercentage ids).
Proof.
  induction ids as [|id rest IH]; intros acc st Hall.
  - simpl. rewrite app_nil_r. apply logs_ret.
  - inversion Hall as [|? ? Hid Hrest]; subst.
    simpl ShowPartitions_loop. unfold logs in *. step.
    destruct (decide (meta_GetPartitionLoadPercentage s id < 0)) as [?|_]; [lia|].
    rewrite IH by done. simpl. rewrite <- !app_assoc. reflexivity.
Qed.

Lemma ShowPartitions_loop_fail (collectionID : UniqueID) (ids : list UniqueID) :
  forall (acc : list Z) (st : St),
    Exists (fun id => meta_GetPartitionLoadPercentage s id < 0) ids ->
    exists id l,
      id ∈ ids /\ meta_GetPartitionLoadPercentage s id < 0
      /\ logs (ShowPartitions_loop s collectionID ids acc) st
           (inl (Returned
                   (ShowPartitionsResponse.mk
                      (merr.Status
                         (Some match FailedLoadCache_Get s collectionID with
                               | Some err => err
                               | None => merr.WrapErrPartitionNotLoaded (fmtd id) []
                               end))
                      [] [] [])
                   None))
           l.
Proof.
  induction ids as [|id rest IH]; intros acc st Hbad; [inversion Hbad|].
  simpl ShowPartitions_loop. unfold logs in *. step.
  destruct (decide (meta_GetPartitionLoadPercentage s id < 0)) as [Hneg|Hpos]; simpl.
  - exists id. destruct (FailedLoadCache_Get s collectionID) as [err|]; simpl;
      eexists; (split; [left|]); (split; [done|]); rewrite <- !app_assoc; reflexivity.
  - apply Exists_cons in Hbad as [?|Hbad]; [lia|].
    edestruct IH as (id' & l & Hin & Hneg & Hl); [exact Hbad|].
    exists id'. simpl in Hl. rewrite Hl. eexists. split; [by right|]. split; [done|].
    simpl. rewrite <- !app_assoc. reflexivity.
Qed.

End ShowPartitions.

Lemma shownPartitions_eq (s : Server) (req : ShowPartitionsRequest.t) :
  shownPartitions s req
  = if decide (length (ShowPartitionsRequest.PartitionIDs req) = 0%nat)
    then map meta.PartitionID (meta_GetPartitionsByCollection s (ShowPartitionsRequest.CollectionID req))
    else ShowPartitionsRequest.PartitionIDs req.
Proof. unfold shownPartitions. by destruct (ShowPartitionsRequest.PartitionIDs req). Qed.

Lemma replicate_map {A B} (b : B) (l : list A) : map (fun _ => b) l = replicate (length l) b.
Proof. induction l as [|x l IH]; simpl; [done|]. by rewrite IH. Qed.

(** X8. ShowPartitions on a healthy coordinator, when every partition it
    is about (the ones the request names, or all partitions of the
    collection when it names none) has a non-negative load percentage,
    succeeds with these partitions in order, their percentages at the same
    index, and one refresh progress per partition: 100 when the collection
    is in the store and refreshed, otherwise 0.  The failed-load cache is
    expired as the last action. *)
Theorem ShowPartitions_lists_every_partition (s : Server) (req : ShowPartitionsRequest.t) (st : St) :
  server_State s = commonpb.Healthy ->
  Forall (fun id => 0 <= meta_GetPartitionLoadPercentage s id) (shownPartitions s req) ->
  exists l,
    logs (ShowPartitions s req) st
      (Returned
         (ShowPartitionsResponse.mk merr.Success
            (shownPartitions s req)
            (map (meta_GetPartitionLoadPercentage s) (shownPartitions s req))
            (replicate (length (shownPartitions s req))
               match collections st !! ShowPartitionsRequest.CollectionID req with
               | Some c => if meta_IsRefreshed s (Some c) then 100 else 0
               | None => 0
               end))
         None)
      (C_State :: l ++ [C_FailedLoadCache_TryExpire]).
Proof.
  intros Hs Hall. unfold ShowPartitions, logs. step. rewrite Hs. simpl.
  rewrite shownPartitions_eq in *.
  destruct (decide (length (ShowPartitionsRequest.PartitionIDs req) = 0%nat)) as [Hlen|Hlen]; simpl.
  - match goal with
    | |- context [ShowPartitions_loop s ?c ?ps ?acc ?st0] =>
        pose proof (ShowPartitions_loop_ok s c ps acc st0 Hall) as Hloop
    end.
    unfold logs in Hloop. simpl in Hloop. rewrite Hloop. simpl.
    rewrite replicate_map, length_map. rewrite <- !app_assoc. simpl.
    eexists (_ :: _ ++ [_])%list. simpl. rewrite <- app_assoc. reflexivity.
  - match goal with
    | |- context [ShowPartitions_loop s ?c ?ps ?acc ?st0] =>
        pose proof (ShowPartitions_loop_ok s c ps acc st0 Hall) as Hloop
    end.
    unfold logs in Hloop. simpl in Hloop. rewrite Hloop. simpl.
    rewrite replicate_map. rewrite <- !app_assoc. simpl.
    eexists (_ ++ [_])%list. rewrite <- app_assoc. reflexivity.
Qed.

Lemma ShowPartitions_lists_every_partition_witness :
  server_State (scenarioServer baseline) = commonpb.Healthy
  /\ exists l,
       logs (ShowPartitions (scenarioServer baseline) (ShowPartitionsRequest.mk 100 [7; 8])) (start loaded100)
         (Returned (ShowPartitionsResponse.mk merr.Success [7; 8] [100; 100] [100; 100]) None)
         (C_State :: l ++ [C_FailedLoadCache_TryExpire]).
Proof.
  split; [reflexivity|].
  apply (ShowPartitions_lists_every_partition (scenarioServer baseline)
           (ShowPartitionsRequest.mk 100 [7; 8]) (start loaded100) eq_refl).
  repeat constructor; vm_compute; discriminate.
Defined.

(** X9. ShowPartitions on a healthy coordinator, when a partition it is
    about has a negative load percentage, fails with empty lists: the
    status is the recorded load failure of the collection, not wrapped,
    or, when none is recorded, PartitionNotLoaded for such a partition.
    The failed-load cache is still expired as the last action. *)
Theorem ShowPartitions_fails_on_unloaded (s : Server) (req : ShowPartitionsRequest.t) (st : St) :
  server_State s = commonpb.Healthy ->
  Exists (fun id => meta_GetPartitionLoadPercentage s id < 0) (shownPartitions s req) ->
  exists id l,
    id ∈ shownPartitions s req
    /\ meta_GetPartitionLoadPercentage s id < 0
    /\ logs (ShowPartitions s req) st
         (Returned
            (ShowPartitionsResponse.mk
               (merr.Status
                  (Some match FailedLoadCache_Get s (ShowPartitionsRequest.CollectionID req) with
                        | Some err => err
                        | None => merr.WrapErrPartitionNotLoaded (fmtd id) []
                        end))
               [] [] [])
            None)
         (C_State :: l ++ [C_FailedLoadCache_TryExpire]).
Proof.
  intros Hs Hbad. unfold ShowPartitions, logs. step. rewrite Hs. simpl.
  rewrite shownPartitions_eq in *.
  destruct (decide (length (ShowPartitionsRequest.PartitionIDs req) = 0%nat)) as [Hlen|Hlen]; simpl.
  - match goal with
    | |- context [ShowPartitions_loop s ?c ?ps ?acc ?st0] =>
        destruct (ShowPartitions_loop_fail s c ps acc st0 Hbad) as (id & l & Hin & Hneg & Hloop)
    end.
    unfold logs in Hloop. simpl in Hloop. rewrite Hloop. simpl.
    exists id. eexists (_ :: l)%list. split; [done|]. split; [done|].
    rewrite <- !app_assoc. reflexivity.
  - match goal with
    | |- context [ShowPartitions_loop s ?c ?ps ?acc ?st0] =>
        destruct (ShowPartitions_loop_fail s c ps acc st0 Hbad) as (id & l & Hin & Hneg & Hloop)
    end.
    unfold logs in Hloop. simpl in Hloop. rewrite Hloop. simpl.
    exists id, l. split; [done|]. split; [done|].
    rewrite <- !app_assoc. reflexivity.
Qed.

Lemma ShowPartitions_fails_on_unloaded_witness :
  server_State (catalogServer baseline twoGroups) = commonpb.Healthy
  /\ exists id l,
       id ∈ [7; 9]
       /\ meta_GetPartitionLoadPercentage (catalogServer baseline twoGroups) id < 0
       /\ logs (ShowPartitions (catalogServer baseline twoGroups) (ShowPartitionsRequest.mk 100 [7; 9]))
            (start loaded100)
            (Returned
               (ShowPartitionsResponse.mk
                  (merr.Status (Some (merr.WrapErrPartitionNotLoaded (fmtd id) []))) [] [] [])
               None)
            (C_State :: l ++ [C_FailedLoadCache_TryExpire]).
Proof.
  split; [reflexivity|].
  apply (ShowPartitions_fails_on_unloaded (catalogServer baseline twoGroups)
           (ShowPartitionsRequest.mk 100 [7; 9]) (start loaded100) eq_refl).
  apply Exists_cons_tl, Exists_cons_hd. vm_compute. reflexivity.
Defined.

(** ** GetPartitionStates *)

Lemma GetPartitionStates_released_ok notLoadResp (released : gset Z) state (ids : list UniqueID) :
  forall acc,
    Forall (fun id => id ∉ released) ids ->
    GetPartitionStates_released notLoadResp released state ids acc
    = inr (acc ++ map (fun id => querypb.mkPartitionStates id state) ids)%list.
Proof.
  induction ids as [|id rest IH]; intros acc Hall; simpl.
  - by rewrite app_nil_r.
  - inversion Hall as [|? ? Hid Hrest]; subst.
    rewrite bool_decide_eq_false_2 by done. rewrite IH by done. by rewrite <- app_assoc.
Qed.

Lemma GetPartitionStates_released_fail notLoadResp (released : gset Z) state (ids : list UniqueID) :
  forall acc,
    Exists (fun id => id ∈ released) ids ->
    GetPartitionStates_released notLoadResp released state ids acc = inl (Returned notLoadResp None).
Proof.
  induction ids as [|id rest IH]; intros acc Hbad; simpl; [inversion Hbad|].
  destruct (bool_decide (id ∈ released)) eqn:E; [done|].
  apply bool_decide_eq_false in E. apply Exists_cons in Hbad as [?|Hbad]; [done|]. by apply IH.
Qed.

Lemma GetPartitionStates_released_returns notLoadResp (released : gset Z) state (ids : list UniqueID) :
  forall acc, GetPartitionStates_released notLoadResp released state ids acc ≠ inl Panicked.
Proof.
  induction ids as [|id rest IH]; intros acc; simpl; [discriminate|].
  case_match; [discriminate|apply IH].
Qed.

Lemma GetPartitionStates_partitions_ok (s : Server) notLoadResp (ids : list UniqueID) :
  forall acc st,
    Forall (fun id => is_Some (meta_GetPartition s id)) ids ->
    logs (GetPartitionStates_partitions s notLoadResp ids acc) st
      (inr (acc ++ map (fun id =>
                          querypb.mkPartitionStates id
                            (partitionStateOf
                               (from_option meta.PartLoadPercentage 0 (meta_GetPartition s id))))
                     ids)%list)
      (map C_GetPartition ids).
Proof.
  induction ids as [|id rest IH]; intros acc st Hall.
  - simpl. rewrite app_nil_r. apply logs_ret.
  - inversion Hall as [|? ? [p Hp] Hrest]; subst.
    simpl GetPartitionStates_partitions. unfold logs in *. step. rewrite Hp. simpl.
    rewrite IH by done. simpl. rewrite <- !app_assoc. reflexivity.
Qed.

Lemma GetPartitionStates_partitions_fail (s : Server) notLoadResp (ids : list UniqueID) :
  forall acc st,
    Exists (fun id => meta_GetPartition s id = None) ids ->
    exists l, logs (GetPartitionStates_partitions s notLoadResp ids acc) st
                (inl (Returned notLoadResp None)) l.
Proof.
  induction ids as [|id rest IH]; intros acc st Hbad; [inversion Hbad|].
  simpl GetPartitionStates_partitions. unfold logs in *. step.
  destruct (meta_GetPartition s id) as [p|] eqn:E; simpl.
  - apply Exists_cons in Hbad as [?|Hbad]; [congruence|].
    edestruct IH as [l Hl]; [exact Hbad|]. simpl in Hl. rewrite Hl.
    exists (C_GetPartition id :: l). simpl. rewrite <- app_assoc. reflexivity.
  - eexists. reflexivity.
Qed.

(** X10. GetPartitionStates for a collection loaded as a whole and
    present in the store: when a requested partition is among the
    released partitions of the collection the answer is PartitionNotLoaded
    with no state at all; otherwise it is Success with one state per
    requested partition, in request order, each InMemory exactly when the
    load percentage of the collection is at least 100. *)
Theorem GetPartitionStates_of_collection_load (s : Server) (req : GetPartitionStatesRequest.t)
  (st : St) (c : meta.Collection) :
  server_State s = commonpb.Healthy ->
  meta_GetLoadType s (GetPartitionStatesRequest.CollectionID req) = querypb.LoadType_LoadCollection ->
  collections st !! GetPartitionStatesRequest.CollectionID req = Some c ->
  let ids := GetPartitionStatesRequest.PartitionIDs req in
  (Exists (fun id => id ∈ meta.ReleasedPartitions c) ids
   /\ fst (GetPartitionStates s req st) = Returned (partitionsNotLoaded req) None)
  \/ (Forall (fun id => id ∉ meta.ReleasedPartitions c) ids
      /\ fst (GetPartitionStates s req st)
         = Returned
             (GetPartitionStatesResponse.mk merr.Success
                (map (fun id => querypb.mkPartitionStates id (partitionStateOf (meta.LoadPercentage c)))
                   ids))
             None).
Proof.
  intros Hs Ht Hc ids. unfold GetPartitionStates. step. rewrite Hs. simpl. rewrite Ht. simpl.
  rewrite Hc. simpl. fold ids.
  destruct (decide (Exists (fun id => id ∈ meta.ReleasedPartitions c) ids)) as [Hbad|Hok].
  - left. split; [done|].
    rewrite GetPartitionStates_released_fail; [done|].
    eapply Exists_impl; [exact Hbad|]. intros id Hin. by apply elem_of_list_to_set.
  - right. apply not_Exists_Forall in Hok; [|intros id; apply _]. split; [done|].
    rewrite GetPartitionStates_released_ok; [done|].
    eapply Forall_impl; [exact Hok|]. simpl. intros id Hin. by rewrite elem_of_list_to_set.
Qed.

Lemma GetPartitionStates_of_collection_load_witness :
  server_State (scenarioServer baseline) = commonpb.Healthy
  /\ meta_GetLoadType (scenarioServer baseline) 100 = querypb.LoadType_LoadCollection
  /\ fst (GetPartitionStates (scenarioServer baseline) (GetPartitionStatesRequest.mk 100 [7; 8])
            (start loaded100))
     = Returned
         (GetPartitionStatesResponse.mk merr.Success
            [querypb.mkPartitionStates 7 querypb.PartitionState_InMemory;
             querypb.mkPartitionStates 8 querypb.PartitionState_InMemory])
         None.
Proof.
  split; [reflexivity|]. split; [reflexivity|].
  destruct (GetPartitionStates_of_collection_load (scenarioServer baseline)
              (GetPartitionStatesRequest.mk 100 [7; 8]) (start loaded100)
              (meta.mkCollection 100 querypb.LoadStatus_Loaded 100 [] None) eq_refl eq_refl eq_refl)
    as [[Hbad _]|[_ Hrun]].
  - exfalso. apply Exists_exists in Hbad as (id & _ & Hin). inversion Hin.
  - exact Hrun.
Defined.

(** X11. GetPartitionStates for a collection loaded by partitions: when
    a requested partition is unknown to the meta store the answer is
    PartitionNotLoaded with no state at all; otherwise it is Success with
    one state per requested partition, in request order, each InMemory
    exactly when the load percentage of that partition is at least 100. *)
Theorem GetPartitionStates_of_partition_load (s : Server) (req : GetPartitionStatesRequest.t)
  (st : St) :
  server_State s = commonpb.Healthy ->
  meta_GetLoadType s (GetPartitionStatesRequest.CollectionID req) = querypb.LoadType_LoadPartition ->
  let ids := GetPartitionStatesRequest.PartitionIDs req in
  (Exists (fun id => meta_GetPartition s id = None) ids
   /\ fst (GetPartitionStates s req st) = Returned (partitionsNotLoaded req) None)
  \/ (exists states,
        fst (GetPartitionStates s req st)
        = Returned (GetPartitionStatesResponse.mk merr.Success states) None
        /\ Forall2 (fun id d =>
                      querypb.PartitionID d = id
                      /\ exists p, meta_GetPartition s id = Some p
                                   /\ querypb.State d = partitionStateOf (meta.PartLoadPercentage p))
             ids states).
Proof.
  intros Hs Ht ids. unfold GetPartitionStates. step. rewrite Hs. simpl. rewrite Ht. simpl. fold ids.
  destruct (decide (Exists (fun id => meta_GetPartition s id = None) ids)) as [Hbad|Hok].
  - left. split; [done|].
    match goal with
    | |- context [GetPartitionStates_partitions s ?nl ?l ?acc ?st0] =>
        destruct (GetPartitionStates_partitions_fail s nl l acc st0 Hbad) as [l' Hl]
    end.
    unfold logs in Hl. rewrite Hl. reflexivity.
  - right. apply not_Exists_Forall in Hok; [|intros id; apply _].
    assert (Hall : Forall (fun id => is_Some (meta_GetPartition s id)) ids).
    { eapply Forall_impl; [exact Hok|]. simpl. intros id Hn.
      destruct (meta_GetPartition s id); [eauto|done]. }
    match goal with
    | |- context [GetPartitionStates_partitions s ?nl ?l ?acc ?st0] =>
        pose proof (GetPartitionStates_partitions_ok s nl l acc st0 Hall) as Hl
    end.
    unfold logs in Hl. rewrite Hl. simpl.
    eexists. split; [reflexivity|]. clear Hl Hok.
    induction Hall as [|id l [p Hp] _ IH]; simpl; constructor; [|done].
    simpl. split; [done|]. exists p. by rewrite Hp.
Qed.

Lemma GetPartitionStates_of_partition_load_witness :
  server_State (catalogServer baseline twoGroups) = commonpb.Healthy
  /\ meta_GetLoadType (catalogServer baseline twoGroups) 100 = querypb.LoadType_LoadPartition
  /\ exists states,
       fst (GetPartitionStates (catalogServer baseline twoGroups)
              (GetPartitionStatesRequest.mk 100 [7; 8]) (start loaded100))
       = Returned (GetPartitionStatesResponse.mk merr.Success states) None
       /\ Forall2 (fun id d =>
                     querypb.PartitionID d = id
                     /\ exists p, meta_GetPartition (catalogServer baseline twoGroups) id = Some p
                                  /\ querypb.State d = partitionStateOf (meta.PartLoadPercentage p))
            [7; 8] states.
Proof.
  split; [reflexivity|]. split; [reflexivity|].
  destruct (GetPartitionStates_of_partition_load (catalogServer baseline twoGroups)
              (GetPartitionStatesRequest.mk 100 [7; 8]) (start loaded100) eq_refl eq_refl)
    as [[Hbad _]|Hok].
  - exfalso. apply Exists_exists in Hbad as (id & Hin & Hnone).
    apply elem_of_cons in Hin as [->|Hin]; [discriminate Hnone|].
    apply elem_of_cons in Hin as [->|Hin]; [discriminate Hnone|inversion Hin].
  - exact Hok.
Defined.

(** X12. On a healthy coordinator GetPartitionStates panics exactly when
    the load type of the collection is LoadCollection while the collection
    is absent from the store (the load percentage is read off a nil
    collection); in every other case it returns. *)
Theorem GetPartitionStates_panics_iff (s : Server) (req : GetPartitionStatesRequest.t) (st : St) :
  server_State s = commonpb.Healthy ->
  fst (GetPartitionStates s req st) = Panicked
  <-> meta_GetLoadType s (GetPartitionStatesRequest.CollectionID req) = querypb.LoadType_LoadCollection
      /\ collections st !! GetPartitionStatesRequest.CollectionID req = None.
Proof.
  intros Hs. unfold GetPartitionStates. step. rewrite Hs. simpl.
  destruct (meta_GetLoadType s (GetPartitionStatesRequest.CollectionID req)) eqn:Ht; simpl.
  - split; [discriminate|]. intros [? _]. congruence.
  - split; [|intros [? _]; congruence].
    match goal with
    | |- context [GetPartitionStates_partitions s ?nl ?l ?acc ?st0] =>
        destruct (decide (Exists (fun id => meta_GetPartition s id = None) l)) as [Hbad|Hok];
        [ destruct (GetPartitionStates_partitions_fail s nl l acc st0 Hbad) as [l' Hl]
        | apply not_Exists_Forall in Hok; [|intros id; apply _];
          assert (Hall : Forall (fun id => is_Some (meta_GetPartition s id)) l)
            by (eapply Forall_impl; [exact Hok|]; simpl; intros id Hn;
                destruct (meta_GetPartition s id); [eauto|done]);
          pose proof (GetPartitionStates_partitions_ok s nl l acc st0 Hall) as Hl ]
    end; unfold logs in Hl; rewrite Hl; simpl; discriminate.
  - destruct (collections st !! GetPartitionStatesRequest.CollectionID req) as [c|] eqn:Hc; simpl.
    + split; [|intros [_ ?]; congruence].
      destruct (GetPartitionStates_released _ _ _ _ _) as [early|states] eqn:E; simpl; [|discriminate].
      intros ->. by apply GetPartitionStates_released_returns in E.
    + done.
Qed.

Lemma GetPartitionStates_panics_iff_witness :
  server_State (scenarioServer baseline) = commonpb.Healthy
  /\ fst (GetPartitionStates (scenarioServer baseline) (GetPartitionStatesRequest.mk 100 [7])
            (start ∅))
     = Panicked.
Proof.
  split; [reflexivity|].
  apply (GetPartitionStates_panics_iff (scenarioServer baseline) (GetPartitionStatesRequest.mk 100 [7])
           (start ∅) eq_refl).
  split; reflexivity.
Defined.

(** ** Loops without early exit *)

Lemma logs_call {A} (c : Call) (a : A) (st : St) : logs (call c a) st a [c].
Proof. reflexivity. Qed.

Lemma foldM_logs {A B} (f : B -> A -> M B) (g : B -> A -> B) (c : A -> list Call) :
  (forall b a st, logs (f b a) st (g b a) (c a)) ->
  forall l b st, logs (foldM f l b) st (fold_left g l b) (concat (map c l)).
Proof.
  intros Hf l. induction l as [|a l IH]; intros b st; simpl.
  - apply logs_ret.
  - eapply logs_bind; [apply Hf|apply IH].
Qed.

Lemma fold_left_snoc_map {A B} (h : A -> B) (l : list A) (acc : list B) :
  fold_left (fun acc a => acc ++ [h a])%list l acc = (acc ++ map h l)%list.
Proof.
  revert acc. induction l as [|a l IH]; intros acc; simpl; [by rewrite app_nil_r|].
  rewrite IH. by rewrite <- app_assoc.
Qed.

Lemma concat_map_singleton {A B} (h : A -> B) (l : list A) :
  concat (map (fun a => [h a]) l) = map h l.
Proof. induction l as [|a l IH]; simpl; [done|]. by rewrite IH. Qed.

(** ** GetSegmentInfo *)

Section GetSegmentInfo.
Variable s : Server.

Lemma GetSegmentInfo_loop_ok (ids : list UniqueID) :
  forall acc st,
    Forall (fun id => dist_SegmentDistManager_GetByFilter s [meta.WithSegmentID id] ≠ []) ids ->
    logs (GetSegmentInfo_loop s ids acc) st
      (inr (acc ++ map (fun id => utils_MergeMetaSegmentIntoSegmentInfo s (dist_SegmentDistManager_GetByFilter s [meta.WithSegmentID id])) ids)%list)
      (map (fun id => C_SegmentDist_GetByFilter [meta.WithSegmentID id]) ids).
Proof.
  induction ids as [|id rest IH]; intros acc st Hall.
  - simpl. rewrite app_nil_r. apply logs_ret.
  - inversion Hall as [|? ? Hid Hrest]; subst.
    simpl GetSegmentInfo_loop. unfold logs in *. step.
    destruct (decide (length (dist_SegmentDistManager_GetByFilter s [meta.WithSegmentID id]) = 0%nat)) as [Hlen|_].
    { destruct (dist_SegmentDistManager_GetByFilter s [meta.WithSegmentID id]); [done|discriminate]. }
    rewrite IH by done. simpl. rewrite <- !app_assoc. reflexivity.
Qed.

Lemma GetSegmentInfo_loop_fail (ids : list UniqueID) :
  forall acc st,
    Exists (fun id => dist_SegmentDistManager_GetByFilter s [meta.WithSegmentID id] = []) ids ->
    exists id l,
      id ∈ ids /\ dist_SegmentDistManager_GetByFilter s [meta.WithSegmentID id] = []
      /\ logs (GetSegmentInfo_loop s ids acc) st
           (inl (Returned
                   (GetSegmentInfoResponse.mk
                      (merr.Status
                         (Some (errors.Wrap (merr.WrapErrSegmentNotLoaded id [])
                                  ("segment " ++ fmtd id ++ " not found in any node"))))
                      [])
                   None))
           l.
Proof.
  induction ids as [|id rest IH]; intros acc st Hbad; [inversion Hbad|].
  simpl GetSegmentInfo_loop. unfold logs in *. step.
  destruct (decide (length (dist_SegmentDistManager_GetByFilter s [meta.WithSegmentID id]) = 0%nat)) as [Hlen|Hlen]; simpl.
  - exists id. eexists. split; [left|]. split; [by destruct (dist_SegmentDistManager_GetByFilter s [meta.WithSegmentID id])|]. reflexivity.
  - apply Exists_cons in Hbad as [Hnil|Hbad]; [by rewrite Hnil in Hlen|].
    edestruct IH as (id' & l & Hin & Hnil & Hl); [exact Hbad|].
    exists id'. simpl in Hl. rewrite Hl.
    exists (C_SegmentDist_GetByFilter [meta.WithSegmentID id] :: l).
    split; [by right|]. split; [done|]. simpl. rewrite <- app_assoc. reflexivity.
Qed.

End GetSegmentInfo.

(** X13. GetSegmentInfo on a healthy coordinator: without segment
    identifiers it answers with what getCollectionSegmentInfo gives for
    the collection; with identifiers that are all in the distribution it
    answers Success with one info per identifier, in request order, merged
    from the segments the distribution holds for it; and when an
    identifier is in no node's distribution it answers SegmentNotLoaded
    for that identifier, with no info at all. *)
Theorem GetSegmentInfo_all_or_nothing (s : Server) (req : GetSegmentInfoRequest.t) (st : St) :
  server_State s = commonpb.Healthy ->
  let ids := GetSegmentInfoRequest.SegmentIDs req in
  let dist id := dist_SegmentDistManager_GetByFilter s [meta.WithSegmentID id] in
  (ids = []
   /\ fst (GetSegmentInfo s req st)
      = Returned
          (GetSegmentInfoResponse.mk merr.Success
             (server_getCollectionSegmentInfo s (GetSegmentInfoRequest.CollectionID req)))
          None)
  \/ (ids ≠ [] /\ Forall (fun id => dist id ≠ []) ids
      /\ fst (GetSegmentInfo s req st)
         = Returned
             (GetSegmentInfoResponse.mk merr.Success
                (map (fun id => utils_MergeMetaSegmentIntoSegmentInfo s (dist id)) ids))
             None)
  \/ (exists id,
        id ∈ ids /\ dist id = []
        /\ fst (GetSegmentInfo s req st)
           = Returned
               (GetSegmentInfoResponse.mk
                  (merr.Status
                     (Some (errors.Wrap (merr.WrapErrSegmentNotLoaded id [])
                              ("segment " ++ fmtd id ++ " not found in any node"))))
                  [])
               None).
Proof.
  intros Hs ids dist. unfold GetSegmentInfo. step. rewrite Hs. simpl. fold ids.
  destruct (decide (length ids = 0%nat)) as [Hlen|Hlen]; simpl.
  { left. split; [by destruct ids|done]. }
  right.
  destruct (decide (Exists (fun id => dist id = []) ids)) as [Hbad|Hok].
  - right.
    match goal with
    | |- context [GetSegmentInfo_loop s ?l ?acc ?st0] =>
        destruct (GetSegmentInfo_loop_fail s l acc st0 Hbad) as (id & l' & Hin & Hnil & Hl)
    end.
    exists id. unfold logs in Hl. rewrite Hl. done.
  - left. apply not_Exists_Forall in Hok; [|intros id; apply _].
    assert (Hall : Forall (fun id => dist id ≠ []) ids) by exact Hok.
    match goal with
    | |- context [GetSegmentInfo_loop s ?l ?acc ?st0] =>
        pose proof (GetSegmentInfo_loop_ok s l acc st0 Hall) as Hl
    end.
    unfold logs in Hl. rewrite Hl. split; [by destruct ids|]. done.
Qed.

Lemma GetSegmentInfo_all_or_nothing_witness :
  server_State (scenarioServer unsegmented) = commonpb.Healthy
  /\ exists id,
       id ∈ [11]
       /\ fst (GetSegmentInfo (scenarioServer unsegmented) (GetSegmentInfoRequest.mk 100 [11])
                 (start loaded100))
          = Returned
              (GetSegmentInfoResponse.mk
                 (merr.Status
                    (Some (errors.Wrap (merr.WrapErrSegmentNotLoaded id [])
                             ("segment " ++ fmtd id ++ " not found in any node"))))
                 [])
              None.
Proof.
  split; [reflexivity|].
  destruct (GetSegmentInfo_all_or_nothing (scenarioServer unsegmented)
              (GetSegmentInfoRequest.mk 100 [11]) (start loaded100) eq_refl)
    as [[Hnil _]|[(_ & Hall & _)|(id & Hin & _ & Hrun)]].
  - discriminate Hnil.
  - exfalso. inversion Hall as [|? ? Hne _]; subst. by apply Hne.
  - exists id. split; [exact Hin|exact Hrun].
Defined.

(** ** GetReplicas *)

(** X14. GetReplicas on a healthy coordinator reads the replicas of the
    collection once and fills one info per replica, in the order the
    replica manager lists them, with the with-shard-nodes flag of the
    request; the status is Success, except that for a collection without
    replicas the response carries no status at all (a nil pointer) and an
    empty list. *)
Theorem GetReplicas_one_info_per_replica (s : Server) (req : GetReplicasRequest.t) (st : St) :
  server_State s = commonpb.Healthy ->
  let replicas := meta_GetByCollection s (GetReplicasRequest.CollectionID req) in
  logs (GetReplicas s req) st
    (Returned
       (GetReplicasResponse.mk
          (match replicas with [] => None | _ => Some merr.Success end)
          (map (fun r => server_fillReplicaInfo s r (GetReplicasRequest.WithShardNodes req)) replicas))
       None)
    (C_State :: C_GetByCollection (GetReplicasRequest.CollectionID req) :: map C_fillReplicaInfo replicas).
Proof.
  intros Hs replicas. unfold GetReplicas.
  eapply (logs_bind _ _ _ _ [C_State]); [apply logs_call|]. rewrite Hs. simpl.
  eapply (logs_bind _ _ _ _ [C_GetByCollection _]); [apply logs_call|]. fold replicas.
  destruct (decide (length replicas = 0%nat)) as [Hlen|Hlen].
  - destruct replicas; [|discriminate]. apply logs_ret.
  - rewrite <- (app_nil_r (map C_fillReplicaInfo replicas)).
    eapply logs_bind.
    + rewrite <- (concat_map_singleton C_fillReplicaInfo).
      apply (foldM_logs _
               (fun acc r => acc ++ [server_fillReplicaInfo s r (GetReplicasRequest.WithShardNodes req)])%list
               (fun r => [C_fillReplicaInfo r])).
      intros b a st0. eapply (logs_bind _ _ _ _ [_] _ []); [apply logs_call|apply logs_ret].
    + rewrite fold_left_snoc_map. simpl. destruct replicas; [done|]. apply logs_ret.
Qed.

Lemma GetReplicas_one_info_per_replica_witness :
  server_State (catalogServer baseline twoGroups) = commonpb.Healthy
  /\ logs (GetReplicas (catalogServer baseline twoGroups) (GetReplicasRequest.mk 100 false))
       (start loaded100)
       (Returned
          (GetReplicasResponse.mk (Some merr.Success)
             [ReplicaInfo.mk 7 100 [1; 2] "rgA"; ReplicaInfo.mk 8 100 [3; 2] "rgB"])
          None)
       [C_State; C_GetByCollection 100; C_fillReplicaInfo replica12; C_fillReplicaInfo replica8].
Proof.
  split; [reflexivity|].
  exact (GetReplicas_one_info_per_replica (catalogServer baseline twoGroups)
           (GetReplicasRequest.mk 100 false) (start loaded100) eq_refl).
Defined.

(** ** DescribeResourceGroup *)

Lemma int32_add_l (x y : Z) : int32 (int32 x + y) = int32 (x + y).
Proof.
  unfold int32. f_equal.
  replace ((x + 2147483648) mod 4294967296 - 2147483648 + y + 2147483648)
    with ((x + 2147483648) mod 4294967296 + y) by lia.
  rewrite Zplus_mod_idemp_l. f_equal. lia.
Qed.

Lemma incr_lookup (m : gmap Z Z) (a k : Z) :
  incr m a !! k = if decide (a = k) then Some (int32 (default 0 (m !! k) + 1)) else m !! k.
Proof.
  unfold incr. case_decide as Hk.
  - subst a. by rewrite lookup_insert_eq.
  - by rewrite lookup_insert_ne.
Qed.

Lemma fold_incr_lookup (keys : list Z) (k : Z) :
  forall m : gmap Z Z,
    fold_left incr keys m !! k
    = match length (filter (fun x => x = k) keys) with
      | O => m !! k
      | S n => Some (int32 (default 0 (m !! k) + Z.of_nat (S n)))
      end.
Proof.
  induction keys as [|a keys IH]; intros m; simpl; [done|].
  rewrite IH. rewrite filter_cons. rewrite incr_lookup.
  destruct (decide (a = k)) as [->|Hne]; simpl; [|done].
  destruct (length (filter (fun x => x = k) keys)) as [|n]; simpl.
  - done.
  - f_equal. rewrite int32_add_l. f_equal. lia.
Qed.

Lemma fold_incr_tally (keys : list Z) (k : Z) : fold_left incr keys ∅ !! k = tally keys k.
Proof.
  rewrite fold_incr_lookup. unfold tally. rewrite lookup_empty. simpl.
  by destruct (length _).
Qed.

Lemma fold_left_flat_map {A B C} (g : C -> B -> C) (h : A -> list B) (l : list A) :
  forall c, fold_left (fun c a => fold_left g (h a) c) l c = fold_left g (flat_map h l) c.
Proof.
  induction l as [|a l IH]; intros c; simpl; [done|]. rewrite IH. by rewrite fold_left_app.
Qed.

Section DescribeResourceGroup.
Variable s : Server.

Lemma DescribeResourceGroup_outgoing_run (replicasInRG : list meta.Replica) (st : St) :
  logs (DescribeResourceGroup_outgoing s replicasInRG) st
    (fold_left incr (map meta.ReplicaCollectionID replicasInRG) ∅,
     fold_left incr (outgoingKeys s replicasInRG) ∅)
    (flat_map (fun replica =>
                 map (C_ContainsNode (meta.ReplicaResourceGroup replica)) (meta.Nodes replica))
       replicasInRG).
Proof.
  unfold DescribeResourceGroup_outgoing.
  set (inner := fun (replica : meta.Replica) (node : UniqueID) =>
                  if meta_ContainsNode s (meta.ReplicaResourceGroup replica) node then []
                  else [meta.ReplicaCollectionID replica]).
  set (g := fun (acc : gmap Z Z * gmap Z Z) (replica : meta.Replica) =>
              (incr (fst acc) (meta.ReplicaCollectionID replica),
               fold_left incr (flat_map (inner replica) (meta.Nodes replica)) (snd acc))).
  set (c := fun replica : meta.Replica =>
              map (C_ContainsNode (meta.ReplicaResourceGroup replica)) (meta.Nodes replica)).
  match goal with
  | |- logs (foldM ?F _ _) _ _ _ => assert (Hstep : forall b a st0, logs (F b a) st0 (g b a) (c a))
  end.
  { intros acc replica st0. unfold g, c.
    rewrite <- (app_nil_r (map _ (meta.Nodes replica))).
    eapply logs_bind; [|apply logs_ret].
    rewrite <- (concat_map_singleton (C_ContainsNode (meta.ReplicaResourceGroup replica))).
    rewrite <- (fold_left_flat_map incr (inner replica)).
    apply (foldM_logs _ (fun out node => fold_left incr (inner replica node) out)
             (fun node => [C_ContainsNode (meta.ReplicaResourceGroup replica) node])).
    intros out node st1. eapply (logs_bind _ _ _ _ [_] _ []); [apply logs_call|].
    unfold inner. simpl.
    destruct (meta_ContainsNode s (meta.ReplicaResourceGroup replica) node); apply logs_ret. }
  pose proof (foldM_logs _ g c Hstep replicasInRG (∅, ∅) st) as Hrun.
  rewrite flat_map_concat_map.
  replace (fold_left incr (map meta.ReplicaCollectionID replicasInRG) ∅,
           fold_left incr (outgoingKeys s replicasInRG) ∅)
    with (fold_left g replicasInRG (∅, ∅)); [exact Hrun|].
  unfold outgoingKeys. fold inner. clear Hstep Hrun. subst g.
  generalize (∅ : gmap Z Z) at 1 3. generalize (∅ : gmap Z Z).
  induction replicasInRG as [|r l IH]; intros m1 m2; simpl; [done|].
  rewrite IH. by rewrite fold_left_app.
Qed.

Lemma DescribeResourceGroup_incoming_run (rgName : string) (collections : list UniqueID) (st : St) :
  exists l,
    logs (DescribeResourceGroup_incoming s rgName collections) st
      (fold_left incr (incomingKeys s rgName collections) ∅) l.
Proof.
  unfold DescribeResourceGroup_incoming, incomingKeys.
  set (perNode := fun (collection : UniqueID) (node : UniqueID) =>
                    if meta_ContainsNode s rgName node then [collection] else []).
  set (perReplica := fun (collection : UniqueID) (replica : meta.Replica) =>
                       if decide (meta.ReplicaResourceGroup replica = rgName) then []
                       else flat_map (perNode collection) (meta.Nodes replica)).
  set (perCollection := fun collection : UniqueID =>
                          flat_map (perReplica collection) (meta_GetByCollection s collection)).
  rewrite <- (fold_left_flat_map incr perCollection).
  eexists.
  match goal with
  | |- logs (foldM ?F _ _) _ _ _ =>
      apply (foldM_logs F (fun inc collection => fold_left incr (perCollection collection) inc)
               (fun collection =>
                  C_GetByCollection collection
                  :: flat_map (fun replica =>
                                 if decide (meta.ReplicaResourceGroup replica = rgName) then []
                                 else map (C_ContainsNode rgName) (meta.Nodes replica))
                       (meta_GetByCollection s collection)))
  end.
  intros inc collection st0.
  eapply (logs_bind _ _ _ _ [_]); [apply logs_call|].
  unfold perCollection. rewrite <- (fold_left_flat_map incr (perReplica collection)).
  rewrite flat_map_concat_map.
  apply (foldM_logs _ (fun inc replica => fold_left incr (perReplica collection replica) inc)
           (fun replica =>
              if decide (meta.ReplicaResourceGroup replica = rgName) then []
              else map (C_ContainsNode rgName) (meta.Nodes replica))).
  intros inc' replica st1. unfold perReplica.
  destruct (decide (meta.ReplicaResourceGroup replica = rgName)); [apply logs_ret|].
  rewrite <- (fold_left_flat_map incr (perNode collection)).
  rewrite <- (concat_map_singleton (C_ContainsNode rgName)).
  apply (foldM_logs _ (fun inc node => fold_left incr (perNode collection node) inc)
           (fun node => [C_ContainsNode rgName node])).
  intros inc'' node st2. eapply (logs_bind _ _ _ _ [_] _ []); [apply logs_call|].
  unfold perNode. simpl. destruct (meta_ContainsNode s rgName node); apply logs_ret.
Qed.

Lemma DescribeResourceGroup_nodes_run (nodeIDs : list UniqueID) (st : St) :
  logs (DescribeResourceGroup_nodes s nodeIDs) st (servingNodes s nodeIDs) (map C_nodeMgr_Get nodeIDs).
Proof.
  unfold DescribeResourceGroup_nodes, servingNodes.
  set (h := fun nodeID : UniqueID =>
              match nodeMgr_Get s nodeID with
              | Some info =>
                  if session.IsStoppingState info then []
                  else [commonpb.mkNodeInfo (session.ID info) (session.Addr info) (session.Hostname info)]
              | None => []
              end).
  replace (flat_map h nodeIDs) with (fold_left (fun acc nodeID => acc ++ h nodeID)%list nodeIDs []).
  - rewrite <- (concat_map_singleton C_nodeMgr_Get).
    apply (foldM_logs _ (fun acc nodeID => acc ++ h nodeID)%list (fun nodeID => [C_nodeMgr_Get nodeID])).
    intros acc nodeID st0. eapply (logs_bind _ _ _ _ [_] _ []); [apply logs_call|].
    unfold h. destruct (nodeMgr_Get s nodeID) as [info|]; simpl.
    + destruct (session.IsStoppingState info); simpl; [rewrite app_nil_r|]; apply logs_ret.
    + rewrite app_nil_r. apply logs_ret.
  - rewrite <- (app_nil_l (flat_map h nodeIDs)). generalize (@nil commonpb.NodeInfo).
    induction nodeIDs as [|a l IH]; intros acc; simpl; [by rewrite app_nil_r|].
    rewrite IH. by rewrite <- app_assoc.
Qed.

End DescribeResourceGroup.

Lemma DescribeResourceGroup_run (s : Server) (req : DescribeResourceGroupRequest.t) (st : St)
  (rg : meta.ResourceGroup) :
  server_State s = commonpb.Healthy ->
  meta_GetResourceGroup s (DescribeResourceGroupRequest.ResourceGroup req) = Some rg ->
  let rgName := DescribeResourceGroupRequest.ResourceGroup req in
  let replicasInRG := meta_GetByResourceGroup s rgName in
  fst (DescribeResourceGroup s req st)
  = Returned
      (DescribeResourceGroupResponse.mk merr.Success
         (Some (querypb.mkResourceGroupInfo rgName
                  (int32 (meta.RGCapacity rg))
                  (int32 (Z.of_nat (length (servingNodes s (meta.RGNodes rg)))))
                  (fold_left incr (map meta.ReplicaCollectionID replicasInRG) ∅)
                  (fold_left incr (outgoingKeys s replicasInRG) ∅)
                  (fold_left incr (incomingKeys s rgName (meta_GetAll s)) ∅)
                  (meta.RGConfig rg)
                  (servingNodes s (meta.RGNodes rg)))))
      None.
Proof.
  intros Hs Hrg rgName replicasInRG. unfold DescribeResourceGroup.
  unfold bind at 1. unfold State, call at 1. simpl. rewrite Hs. simpl.
  unfold bind at 1. unfold GetResourceGroup, call at 1. simpl. rewrite Hrg.
  unfold bind at 1. unfold GetByResourceGroup, call at 1. simpl.
  unfold bind at 1. rewrite DescribeResourceGroup_outgoing_run.
  unfold bind at 1. unfold GetAll, call at 1. simpl.
  unfold bind at 1.
  match goal with
  | |- context [DescribeResourceGroup_incoming s ?n ?cs ?st0] =>
      destruct (DescribeResourceGroup_incoming_run s n cs st0) as [l Hl]
  end.
  unfold logs in Hl. rewrite Hl.
  unfold bind at 1. rewrite DescribeResourceGroup_nodes_run. reflexivity.
Qed.

(** X19. The three counting maps of a successful DescribeResourceGroup:
    for every collection, NumLoadedReplica is the number of replicas of
    the group that belong to it, NumOutgoingNode the number of nodes of
    these replicas that the group of the replica does not hold, and
    NumIncomingNode the number of nodes of the group that replicas of
    other groups use; a collection that counts zero has no entry, and the
    counts are kept as int32. *)
Theorem DescribeResourceGroup_counts (s : Server) (req : DescribeResourceGroupRequest.t) (st : St)
  (rg : meta.ResourceGroup) :
  server_State s = commonpb.Healthy ->
  meta_GetResourceGroup s (DescribeResourceGroupRequest.ResourceGroup req) = Some rg ->
  let rgName := DescribeResourceGroupRequest.ResourceGroup req in
  exists info,
    fst (DescribeResourceGroup s req st)
    = Returned (DescribeResourceGroupResponse.mk merr.Success (Some info)) None
    /\ (forall c, querypb.NumLoadedReplica info !! c
                  = tally (map meta.ReplicaCollectionID (meta_GetByResourceGroup s rgName)) c)
    /\ (forall c, querypb.NumOutgoingNode info !! c
                  = tally (outgoingKeys s (meta_GetByResourceGroup s rgName)) c)
    /\ (forall c, querypb.NumIncomingNode info !! c
                  = tally (incomingKeys s rgName (meta_GetAll s)) c).
Proof.
  intros Hs Hrg rgName. rewrite (DescribeResourceGroup_run s req st rg Hs Hrg).
  eexists. split; [reflexivity|]. simpl.
  split; [|split]; intros c; apply fold_incr_tally.
Qed.

Lemma DescribeResourceGroup_counts_witness :
  server_State (catalogServer baseline twoGroups) = commonpb.Healthy
  /\ exists info,
       fst (DescribeResourceGroup (catalogServer baseline twoGroups)
              (DescribeResourceGroupRequest.mk "rgB") (start loaded100))
       = Returned (DescribeResourceGroupResponse.mk merr.Success (Some info)) None
       /\ querypb.NumLoadedReplica info !! 100 = Some 1
       /\ querypb.NumOutgoingNode info !! 100 = Some 1
       /\ querypb.NumIncomingNode info !! 100 = None.
Proof.
  split; [reflexivity|].
  destruct (DescribeResourceGroup_counts (catalogServer baseline twoGroups)
              (DescribeResourceGroupRequest.mk "rgB") (start loaded100)
              (meta.mkResourceGroup [3] 1 "") eq_refl eq_refl)
    as (info & Hrun & Hloaded & Hout & Hin).
  exists info. split; [exact Hrun|]. rewrite Hloaded, Hout, Hin. repeat split.
Defined.

Lemma elem_of_servingNodes (s : Server) (nodeIDs : list UniqueID) (n : commonpb.NodeInfo) :
  n ∈ servingNodes s nodeIDs
  <-> exists id info,
        id ∈ nodeIDs /\ nodeMgr_Get s id = Some info /\ session.IsStoppingState info = false
        /\ n = commonpb.mkNodeInfo (session.ID info) (session.Addr info) (session.Hostname info).
Proof.
  unfold servingNodes. rewrite list_elem_of_In, in_flat_map. split.
  - intros (id & Hin & Hn). apply list_elem_of_In in Hin.
    destruct (nodeMgr_Get s id) as [info|] eqn:E; [|done].
    destruct (session.IsStoppingState info) eqn:Es; [done|].
    destruct Hn as [<-|[]]. exists id, info. done.
  - intros (id & info & Hin & Hget & Hstop & ->). exists id. split; [by apply list_elem_of_In|].
    rewrite Hget, Hstop. by left.
Qed.

Lemma servingNodes_length (s : Server) (nodeIDs : list UniqueID) :
  (length (servingNodes s nodeIDs) <= length nodeIDs)%nat.
Proof.
  induction nodeIDs as [|id l IH]; simpl; [done|]. rewrite length_app.
  destruct (nodeMgr_Get s id) as [info|]; [destruct (session.IsStoppingState info)|]; simpl; lia.
Qed.

(** X20. A successful DescribeResourceGroup names the group, its
    capacity (as int32) and its configuration, and lists exactly the
    nodes of the group that the node manager knows and that are not
    stopping; NumAvailableNode is the number of nodes listed, at most the
    number of nodes of the group. *)
Theorem DescribeResourceGroup_lists_serving_nodes (s : Server) (req : DescribeResourceGroupRequest.t)
  (st : St) (rg : meta.ResourceGroup) :
  server_State s = commonpb.Healthy ->
  meta_GetResourceGroup s (DescribeResourceGroupRequest.ResourceGroup req) = Some rg ->
  exists info,
    fst (DescribeResourceGroup s req st)
    = Returned (DescribeResourceGroupResponse.mk merr.Success (Some info)) None
    /\ querypb.Name info = DescribeResourceGroupRequest.ResourceGroup req
    /\ querypb.Capacity info = int32 (meta.RGCapacity rg)
    /\ querypb.Config info = meta.RGConfig rg
    /\ querypb.NumAvailableNode info = int32 (Z.of_nat (length (querypb.Nodes info)))
    /\ (length (querypb.Nodes info) <= length (meta.RGNodes rg))%nat
    /\ (forall n,
          n ∈ querypb.Nodes info
          <-> exists id node,
                id ∈ meta.RGNodes rg /\ nodeMgr_Get s id = Some node
                /\ session.IsStoppingState node = false
                /\ n = commonpb.mkNodeInfo (session.ID node) (session.Addr node) (session.Hostname node)).
Proof.
  intros Hs Hrg. rewrite (DescribeResourceGroup_run s req st rg Hs Hrg).
  eexists. split; [reflexivity|]. simpl.
  repeat split; try reflexivity.
  - apply servingNodes_length.
  - apply elem_of_servingNodes.
  - apply elem_of_servingNodes.
Qed.

Lemma DescribeResourceGroup_lists_serving_nodes_witness :
  server_State (catalogServer baseline twoGroups) = commonpb.Healthy
  /\ exists info,
       fst (DescribeResourceGroup (catalogServer baseline twoGroups)
              (DescribeResourceGroupRequest.mk "rgA") (start loaded100))
       = Returned (DescribeResourceGroupResponse.mk merr.Success (Some info)) None
       /\ querypb.Name info = "rgA"
       /\ querypb.NumAvailableNode info = int32 (Z.of_nat (length (querypb.Nodes info)))
       /\ (length (querypb.Nodes info) <= 2)%nat.
Proof.
  split; [reflexivity|].
  destruct (DescribeResourceGroup_lists_serving_nodes (catalogServer baseline twoGroups)
              (DescribeResourceGroupRequest.mk "rgA") (start loaded100)
              (meta.mkResourceGroup [1; 2] 2 "") eq_refl eq_refl)
    as (info & Hrun & Hname & _ & _ & Havail & Hlen & _).
  exists info. repeat split; assumption.
Defined.

(** X21. DescribeResourceGroup on a healthy coordinator answers
    ResourceGroupNotFound, with no group description, for a group the
    resource manager does not know, and consults neither the replica
    manager nor the node manager. *)
Theorem DescribeResourceGroup_unknown_group (s : Server) (req : DescribeResourceGroupRequest.t)
  (st : St) :
  server_State s = commonpb.Healthy ->
  meta_GetResourceGroup s (DescribeResourceGroupRequest.ResourceGroup req) = None ->
  logs (DescribeResourceGroup s req) st
    (Returned
       (DescribeResourceGroupResponse.mk
          (merr.Status
             (Some (merr.WrapErrResourceGroupNotFound (DescribeResourceGroupRequest.ResourceGroup req) [])))
          None)
       None)
    [C_State; C_GetResourceGroup (DescribeResourceGroupRequest.ResourceGroup req)].
Proof.
  intros Hs Hrg. unfold DescribeResourceGroup, logs. step. rewrite Hs. simpl. rewrite Hrg. simpl.
  by rewrite <- app_assoc.
Qed.

Lemma DescribeResourceGroup_unknown_group_witness :
  server_State (scenarioServer baseline) = commonpb.Healthy
  /\ logs (DescribeResourceGroup (scenarioServer baseline) (DescribeResourceGroupRequest.mk "rgA"))
       (start loaded100)
       (Returned
          (DescribeResourceGroupResponse.mk
             (merr.Status (Some (merr.WrapErrResourceGroupNotFound "rgA" []))) None)
          None)
       [C_State; C_GetResourceGroup "rgA"].
Proof.
  split; [reflexivity|].
  apply (DescribeResourceGroup_unknown_group (scenarioServer baseline)
           (DescribeResourceGroupRequest.mk "rgA") (start loaded100)); reflexivity.
Defined.

(** ** CheckHealth on a healthy coordinator *)

Lemma all_probes_clean (s : Server) (nodes : list session.NodeInfo) :
  firstProbeError s nodes = None /\ unhealthyReasons s nodes = [] <-> Forall (nodeHealthy s) nodes.
Proof.
  unfold nodeHealthy. induction nodes as [|node rest IH]; simpl.
  - split; [constructor|done].
  - rewrite Forall_cons, <- IH.
    destruct (cluster_GetComponentStates s (session.ID node)) as [e|resp].
    + split; [intros [[=] _]|intros [(r & [=] & _) _]].
    + destruct (merr_AnalyzeState s "QueryNode" (session.ID node) resp) as [e|] eqn:E.
      * split; [intros [_ [=]]|intros [(r & [= <-] & Hr) _]; congruence].
      * split; [intros [? ?]; eauto|intros [_ ?]; done].
Qed.

(** X18. CheckHealth on a healthy coordinator probes every node of the
    node manager exactly once, answers with status Success and a nil Go
    error, gives as reasons those of the nodes that reported a non-healthy
    state, and reports IsHealthy exactly when every probe succeeded and
    reported a state that AnalyzeState accepts; with no node at all it
    reports healthy. *)
Theorem CheckHealth_healthy_iff_all_nodes_healthy (s : Server) (req : CheckHealthRequest.t) (st : St) :
  server_State s = commonpb.Healthy ->
  exists resp probes,
    logs (CheckHealth s req) st (Returned resp None) (C_State :: C_nodeMgr_GetAll :: probes)
    /\ probes ≡ₚ map (fun node => C_GetComponentStates (session.ID node)) (nodeMgr_GetAll s)
    /\ CheckHealthResponse.Status resp = merr.Success
    /\ CheckHealthResponse.Reasons resp ≡ₚ unhealthyReasons s (nodeMgr_GetAll s)
    /\ (CheckHealthResponse.IsHealthy resp = true <-> Forall (nodeHealthy s) (nodeMgr_GetAll s)).
Proof.
  intros Hs. unfold CheckHealth, logs. unfold bind at 1. unfold State, call at 1. simpl.
  rewrite Hs. simpl. unfold bind at 1. rewrite checkNodeHealth_run. simpl.
  destruct (firstProbeError s (nodeMgr_GetAll s)) as [e|] eqn:E; simpl.
  - eexists _, _. rewrite <- app_assoc. split; [reflexivity|]. simpl.
    split; [done|]. split; [done|]. split; [done|]. rewrite <- all_probes_clean, E.
    split; [done|]. intros [[=] _].
  - destruct (unhealthyReasons s (nodeMgr_GetAll s)) as [|r rs] eqn:Er; simpl.
    + eexists _, _. rewrite <- app_assoc. split; [reflexivity|]. simpl.
      split; [done|]. split; [done|]. split; [done|].
      rewrite <- all_probes_clean, E, Er. done.
    + eexists _, _. rewrite <- app_assoc. split; [reflexivity|]. simpl.
      split; [done|]. split; [done|]. split; [done|].
      rewrite <- all_probes_clean, E, Er. split; [done|]. intros [_ [=]].
Qed.

Lemma CheckHealth_healthy_iff_all_nodes_healthy_witness :
  server_State (scenarioServer baseline) = commonpb.Healthy
  /\ exists resp probes,
       logs (CheckHealth (scenarioServer baseline) CheckHealthRequest.mk) (start loaded100)
         (Returned resp None) (C_State :: C_nodeMgr_GetAll :: probes)
       /\ probes ≡ₚ [C_GetComponentStates 1; C_GetComponentStates 2; C_GetComponentStates 3]
       /\ CheckHealthResponse.Status resp = merr.Success
       /\ CheckHealthResponse.Reasons resp ≡ₚ []
       /\ (CheckHealthResponse.IsHealthy resp = true
           <-> Forall (nodeHealthy (scenarioServer baseline)) [node 1 false; node 2 false; node 3 false]).
Proof.
  split; [reflexivity|].
  apply (CheckHealth_healthy_iff_all_nodes_healthy (scenarioServer baseline) CheckHealthRequest.mk
           (start loaded100)).
  reflexivity.
Defined.

(** ** GetShardLeaders: the shape of an answer *)

Section ShardShape.
Variable s : Server.

Lemma GetShardLeaders_addrs_run (leaders : list meta.LeaderView) (st : St) :
  exists ids addrs l,
    logs (GetShardLeaders_addrs s leaders) st (ids, addrs) l /\ Forall2 (addressable s) ids addrs.
Proof.
  unfold GetShardLeaders_addrs.
  set (g := fun (acc : list UniqueID * list string) (leader : meta.LeaderView) =>
              match nodeMgr_Get s (meta.ID leader) with
              | Some info => ((fst acc ++ [session.ID info])%list, (snd acc ++ [session.Addr info])%list)
              | None => acc
              end).
  match goal with
  | |- context [foldM ?F _ _] =>
      assert (Hstep : forall b a st0, logs (F b a) st0 (g b a) [C_nodeMgr_Get (meta.ID a)])
  end.
  { intros acc leader st0. eapply (logs_bind _ _ _ _ [_] _ []); [apply logs_call|].
    unfold g. destruct (nodeMgr_Get s (meta.ID leader)); apply logs_ret. }
  pose proof (foldM_logs _ g _ Hstep leaders ([], []) st) as Hrun.
  destruct (fold_left g leaders ([], [])) as [ids addrs] eqn:E.
  exists ids, addrs. eexists. split; [exact Hrun|].
  assert (Hinv : forall acc,
             Forall2 (addressable s) (fst acc) (snd acc) ->
             Forall2 (addressable s) (fst (fold_left g leaders acc)) (snd (fold_left g leaders acc))).
  { clear. induction leaders as [|leader rest IH]; intros acc Hacc; simpl; [done|].
    apply IH. unfold g. destruct (nodeMgr_Get s (meta.ID leader)) as [info|] eqn:Ei; simpl; [|done].
    apply Forall2_app; [done|]. constructor; [|constructor]. by exists (meta.ID leader), info. }
  specialize (Hinv ([], [])). rewrite E in Hinv. apply Hinv. constructor.
Qed.

Lemma GetShardLeaders_channels_shape ct (channels : list meta.DmChannel) :
  forall resp st r e,
    Forall (shardServed s) (GetShardLeadersResponse.Shards resp) ->
    fst (GetShardLeaders_channels s ct channels resp st) = Returned r e ->
    (GetShardLeadersResponse.Status r = GetShardLeadersResponse.Status resp
     /\ Forall (shardServed s) (GetShardLeadersResponse.Shards r)
     /\ exists shards,
          GetShardLeadersResponse.Shards r = (GetShardLeadersResponse.Shards resp ++ shards)%list
          /\ map querypb.ChannelName shards = map meta.ChannelName channels)
    \/ (commonpb.Code (GetShardLeadersResponse.Status r) = Some ChannelNotAvailable
        /\ GetShardLeadersResponse.Shards r = []).
Proof.
  induction channels as [|ch rest IH]; intros resp st r e Hresp; simpl.
  - unfold ret. simpl. intros [= <- <-]. left. split; [done|]. split; [done|].
    exists []. by rewrite app_nil_r.
  - unfold LeaderViewManager_GetByFilter. unfold bind at 1. unfold call at 1. simpl.
    unfold bind at 1. destruct (GetShardLeaders_leaders _ _ _ _ _) as [[readable cerr] st1]. simpl.
    case_match.
    + case_match; unfold ret; simpl; [|discriminate]. intros [= <- <-]. by right.
    + unfold bind at 1.
      match goal with
      | |- context [GetShardLeaders_addrs s ?ls ?st0] =>
          destruct (GetShardLeaders_addrs_run ls st0) as (ids & addrs & l & Hl & Haddr)
      end.
      unfold logs in Hl. rewrite Hl. simpl.
      case_match.
      * case_match; unfold ret; simpl; [|discriminate]. intros [= <- <-]. by right.
      * intros Hr. apply IH in Hr.
        2:{ simpl. apply Forall_app. split; [done|]. constructor; [|constructor].
            split; simpl; [by destruct ids|done]. }
        destruct Hr as [(Hs & Hserved & shards & Hsh & Hn)|Hfail]; [left|by right].
        simpl in *. split; [done|]. split; [done|].
        eexists (_ :: shards). rewrite Hsh, <- app_assoc. simpl.
        split; [reflexivity|]. by rewrite Hn.
Qed.

End ShardShape.

(** X17. Whenever GetShardLeaders returns on a healthy coordinator, its
    answer is all or nothing: either the status is Success and there is
    exactly one shard entry per channel of the current target, at least
    one, each naming at least one node and as many addresses as nodes,
    every node with its address taken from the node manager; or the status
    is a failure and the response carries no shard. *)
Theorem GetShardLeaders_all_or_nothing (s : Server) (req : GetShardLeadersRequest.t) (st : St)
  (resp : GetShardLeadersResponse.t) (err : option Err) :
  server_State s = commonpb.Healthy ->
  fst (GetShardLeaders s req st) = Returned resp err ->
  (commonpb.Code (GetShardLeadersResponse.Status resp) = None
   /\ map querypb.ChannelName (GetShardLeadersResponse.Shards resp)
      ≡ₚ map meta.ChannelName
           (targetMgr_GetDmChannelsByCollection s (GetShardLeadersRequest.CollectionID req)
              meta.CurrentTarget)
   /\ GetShardLeadersResponse.Shards resp ≠ []
   /\ Forall (shardServed s) (GetShardLeadersResponse.Shards resp))
  \/ (is_Some (commonpb.Code (GetShardLeadersResponse.Status resp))
      /\ GetShardLeadersResponse.Shards resp = []).
Proof.
  intros Hs. unfold GetShardLeaders. step. rewrite Hs. simpl.
  case_decide; simpl; [intros [= <- <-]; right; simpl; eauto|].
  case_decide; simpl; [intros [= <- <-]; right; simpl; eauto|].
  unfold GetShardLeaders_resolve. step.
  case_decide as Hch; simpl; [intros [= <- <-]; right; simpl; eauto|].
  intros Hr. apply GetShardLeaders_channels_shape in Hr; [|constructor].
  destruct Hr as [(Hst & Hserved & shards & Hsh & Hn)|[Hcode Hnil]].
  - left. simpl in *. rewrite Hst. split; [done|]. rewrite Hsh in *. split; [by rewrite Hn|].
    split; [|done]. intros Hnil. rewrite Hnil in Hn.
    destruct (targetMgr_GetDmChannelsByCollection s _ _); done.
  - right. rewrite Hcode. eauto.
Qed.

Lemma GetShardLeaders_all_or_nothing_witness :
  server_State (scenarioServer baseline) = commonpb.Healthy
  /\ fst (GetShardLeaders (scenarioServer baseline) (GetShardLeadersRequest.mk 100) (start loaded100))
     = Returned
         (GetShardLeadersResponse.mk merr.Success
            [querypb.mkShardLeadersList "dml-0" [1] ["10.0.0.1:21123"]])
         None
  /\ Forall (shardServed (scenarioServer baseline))
       [querypb.mkShardLeadersList "dml-0" [1] ["10.0.0.1:21123"]].
Proof.
  split; [reflexivity|]. split; [vm_compute; reflexivity|].
  destruct (GetShardLeaders_all_or_nothing (scenarioServer baseline) (GetShardLeadersRequest.mk 100)
              (start loaded100)
              (GetShardLeadersResponse.mk merr.Success
                 [querypb.mkShardLeadersList "dml-0" [1] ["10.0.0.1:21123"]])
              None eq_refl)
    as [(_ & _ & _ & Hserved)|[_ Hnil]].
  - vm_compute. reflexivity.
  - exact Hserved.
  - discriminate Hnil.
Defined.

(** ** LoadBalance: what reaches the balance executor *)

Section FramesP.
Context {P : Call -> Prop}.

Lemma framesP_ret {A} (a : A) : framesP P (ret a).
Proof. intros st. exists []. unfold ret. simpl. rewrite app_nil_r. by destruct st. Qed.

Lemma framesP_call {A B} (c : Call) (a : A) (k : A -> M B) :
  P c -> framesP P (k a) -> framesP P (bind (call c a) k).
Proof.
  intros Hc Hk st. unfold bind, call.
  destruct (Hk (mkSt (collections st) (calls st ++ [c]))) as (l & Hl & HP).
  exists (c :: l). rewrite Hl. simpl. rewrite <- app_assoc. split; [done|]. by constructor.
Qed.

Lemma framesP_bind {A B} (Q : A -> Prop) (m : M A) (k : A -> M B) :
  (forall st, exists a l, logs m st a l /\ Forall P l /\ Q a) ->
  (forall a, Q a -> framesP P (k a)) ->
  framesP P (bind m k).
Proof.
  intros Hm Hk st. unfold bind. destruct (Hm st) as (a & l & Hl & HP & HQ).
  unfold logs in Hl. rewrite Hl.
  destruct (Hk a HQ (mkSt (collections st) (calls st ++ l))) as (l' & Hl' & HP').
  exists (l ++ l')%list. rewrite Hl'. simpl. rewrite <- app_assoc. split; [done|].
  by apply Forall_app.
Qed.

Lemma framesP_issued {A} (m : M A) (st : St) :
  framesP P m -> Forall P (issued m st).
Proof.
  intros Hm. destruct (Hm st) as (l & Hl & HP). unfold issued. rewrite Hl. simpl.
  by rewrite drop_app_length.
Qed.

End FramesP.

Section LoadBalance.
Variable s : Server.
Variable req : LoadBalanceRequest.t.

Lemma reads_balanceSafe (l : list Call) : forallb isRead l = true -> Forall (balanceSafe s req) l.
Proof.
  intros Hl. apply Forall_forall. intros c Hc.
  rewrite forallb_forall in Hl. specialize (Hl c).
  rewrite <- list_elem_of_In in Hl. specialize (Hl Hc). by destruct c.
Qed.

Lemma isStoppingNode_spec (nodeID : UniqueID) (st : St) :
  exists a l,
    logs (isStoppingNode s nodeID) st a l
    /\ Forall (balanceSafe s req) l
    /\ (a = None -> nodeMgr_IsStoppingNode s nodeID = inr false).
Proof.
  unfold isStoppingNode, logs. step.
  destruct (nodeMgr_IsStoppingNode s nodeID) as [e|[|]]; simpl;
    eexists _, [_]; (split; [reflexivity|]); (split; [by repeat constructor|]); done.
Qed.

Lemma LoadBalance_checkDst_spec (dsts : list UniqueID) :
  forall st,
    exists a l,
      logs (LoadBalance_checkDst s dsts) st a l
      /\ Forall (balanceSafe s req) l
      /\ (a = None -> forall d, d ∈ dsts -> nodeMgr_IsStoppingNode s d = inr false).
Proof.
  induction dsts as [|d rest IH]; intros st; simpl.
  - exists None, []. split; [apply logs_ret|]. split; [constructor|].
    intros _ d Hd. inversion Hd.
  - destruct (isStoppingNode_spec d st) as (a & l & Hl & HP & Hq).
    unfold logs in *. unfold bind. rewrite Hl. destruct a as [e|].
    + eexists _, l. split; [reflexivity|]. split; [done|]. done.
    + destruct (IH (mkSt (collections st) (calls st ++ l))) as (a' & l' & Hl' & HP' & Hq').
      simpl in Hl'. exists a', (l ++ l')%list. rewrite Hl'.
      split; [by rewrite app_assoc|]. split; [by apply Forall_app|].
      intros Ha d' Hd'. apply elem_of_cons in Hd' as [->|Hd']; [by apply Hq|by apply Hq'].
Qed.

Lemma LoadBalance_dstNodes_spec (replica : meta.Replica) (dsts : list UniqueID) :
  forall (acc set : gset Z),
    LoadBalance_dstNodes replica dsts acc = inr set ->
    (forall d, d ∈ dsts -> d ∈ meta.Nodes replica)
    /\ set = list_to_set dsts ∪ acc.
Proof.
  induction dsts as [|d rest IH]; intros acc set; simpl.
  - intros [= <-]. split; [intros d Hd; inversion Hd|set_solver].
  - unfold meta.Contains. destruct (bool_decide (d ∈ meta.Nodes replica)) eqn:E; simpl; [|discriminate].
    apply bool_decide_eq_true in E. intros Hr. apply IH in Hr as [Hin ->]. split.
    + intros d' Hd'. apply elem_of_cons in Hd' as [->|Hd']; [done|by apply Hin].
    + set_solver.
Qed.

Lemma SliceToMap_lookup {A} (key : A -> Z) (l : list A) (k : Z) (a : A) :
  SliceToMap key l !! k = Some a -> a ∈ l.
Proof.
  unfold SliceToMap.
  assert (H : forall m : gmap Z A,
             fold_left (fun m a => <[key a := a]> m) l m !! k = Some a -> m !! k = Some a \/ a ∈ l).
  { induction l as [|x l IH]; intros m; simpl; [by left|].
    intros Hm. apply IH in Hm as [Hm|Hm]; [|right; by right].
    apply lookup_insert_Some in Hm as [[_ <-]|[_ Hm]]; [right; left|by left]. }
  intros Hm. apply H in Hm as [Hm|Hm]; [by rewrite lookup_empty in Hm|done].
Qed.

Lemma LoadBalance_sealed_spec (m : gmap Z meta.Segment) (ids : list UniqueID) :
  forall acc st,
    exists r l,
      logs (LoadBalance_sealed s m ids acc) st r l
      /\ Forall (balanceSafe s req) l
      /\ (forall toBalance seg,
            r = inr toBalance -> seg ∈ toBalance -> seg ∈ acc \/ exists id, m !! id = Some seg).
Proof.
  unfold logs. induction ids as [|id rest IH]; intros acc st; simpl.
  - exists (inr acc), []. split; [apply logs_ret|]. split; [constructor|].
    intros tb seg [= <-] Hin. by left.
  - destruct (m !! id) as [segment|] eqn:E.
    + unfold bind, GetSealedSegment, call. simpl.
      destruct (targetMgr_GetSealedSegment s _ _ _) as [t|].
      * destruct (IH (Set_Insert acc segment)
                    (mkSt (collections st)
                       (calls st ++ [C_GetSealedSegment (meta.SegCollectionID segment)
                                       (meta.SegmentID segment) meta.CurrentTarget])))
          as (r & l & Hl & HP & Hq).
        simpl in Hl.
        exists r, (C_GetSealedSegment (meta.SegCollectionID segment) (meta.SegmentID segment)
                     meta.CurrentTarget :: l).
        rewrite Hl. split; [by rewrite <- app_assoc|]. split; [by constructor|].
        intros tb seg Hr Hin. destruct (Hq tb seg Hr Hin) as [Hacc|?]; [|by right].
        apply Set_Insert_elem in Hacc as [?|Heq]; [by left|right; subst; eauto].
      * destruct (IH acc
                    (mkSt (collections st)
                       (calls st ++ [C_GetSealedSegment (meta.SegCollectionID segment)
                                       (meta.SegmentID segment) meta.CurrentTarget])))
          as (r & l & Hl & HP & Hq).
        simpl in Hl.
        exists r, (C_GetSealedSegment (meta.SegCollectionID segment) (meta.SegmentID segment)
                     meta.CurrentTarget :: l).
        rewrite Hl. split; [by rewrite <- app_assoc|]. split; [by constructor|]. done.
    + eexists (inl _), []. split; [apply logs_ret|]. split; [constructor|]. done.
Qed.

Lemma Set_Insert_fold {A} `{EqDecision A} (l : list A) :
  forall acc x, x ∈ fold_left Set_Insert l acc -> x ∈ acc \/ x ∈ l.
Proof.
  induction l as [|a l IH]; intros acc x; simpl; [by left|].
  intros Hx. apply IH in Hx as [Hx|Hx]; [|right; by right].
  apply Set_Insert_elem in Hx as [?|Heq]; [by left|right; subst; left].
Qed.

Lemma LoadBalance_framesP : framesP (balanceSafe s req) (LoadBalance s req).
Proof.
  unfold LoadBalance, State.
  apply framesP_call; [reflexivity|].
  destruct (merr.CheckHealthy (server_State s)) as [e|] eqn:Hh; [apply framesP_ret|].
  assert (Hs : server_State s = commonpb.Healthy).
  { unfold merr.CheckHealthy in Hh. by case_decide. }
  case_decide as Hlen; [apply framesP_ret|].
  try apply dec_stable in Hlen.
  destruct (LoadBalanceRequest.SourceNodeIDs req) as [|srcNode [|? ?]] eqn:Hsrc; try discriminate.
  simpl. unfold CalculateLoadPercentage. apply framesP_call; [reflexivity|].
  case_decide as Hpct; [apply framesP_ret|].
  unfold GetByCollectionAndNode. apply framesP_call; [reflexivity|].
  destruct (meta_GetByCollectionAndNode s (LoadBalanceRequest.CollectionID req) srcNode)
    as [replica|] eqn:Hrep; [|apply framesP_ret].
  apply (framesP_bind (fun a => a = None -> nodeMgr_IsStoppingNode s srcNode = inr false));
    [apply isStoppingNode_spec|].
  intros [e|] Hstop; [apply framesP_ret|]. specialize (Hstop eq_refl).
  match goal with
  | |- framesP _ (match ?d with inl _ => _ | inr _ => _ end) => destruct d as [e|dstNodeSet] eqn:Hdst
  end; [apply framesP_ret|].
  assert (Hdsts : (forall d, d ∈ dstNodeSet -> d ∈ meta.Nodes replica)
                  /\ (LoadBalanceRequest.DstNodeIDs req ≠ [] ->
                      forall d, d ∈ dstNodeSet <-> d ∈ LoadBalanceRequest.DstNodeIDs req)).
  { case_decide as Hd.
    - injection Hdst as <-. split; [intros d; by rewrite elem_of_list_to_set|].
      intros Hne. by destruct (LoadBalanceRequest.DstNodeIDs req).
    - apply LoadBalance_dstNodes_spec in Hdst as [Hin ->]. split.
      + intros d. rewrite elem_of_union, elem_of_list_to_set. intros [?|?]; [by apply Hin|set_solver].
      + intros _ d. set_solver. }
  destruct Hdsts as [Hin Hnamed]. clear Hdst.
  apply (framesP_bind
           (fun a => a = None ->
                     forall d, d ∈ elements dstNodeSet -> nodeMgr_IsStoppingNode s d = inr false));
    [apply LoadBalance_checkDst_spec|].
  intros [e|] Hok; [apply framesP_ret|]. specialize (Hok eq_refl).
  unfold SegmentDistManager_GetByFilter. apply framesP_call; [reflexivity|].
  set (segments := dist_SegmentDistManager_GetByFilter s _).
  apply (framesP_bind
           (fun r => forall toBalance seg, r = inr toBalance -> seg ∈ toBalance -> seg ∈ segments)).
  { intros st. destruct (decide (length (LoadBalanceRequest.SealedSegmentIDs req) = 0%nat)).
    - eexists _, []. split; [apply logs_ret|]. split; [constructor|].
      intros tb seg [= <-] Hseg. apply Set_Insert_fold in Hseg as [Hseg|?]; [inversion Hseg|done].
    - destruct (LoadBalance_sealed_spec (SliceToMap meta.SegmentID segments)
                  (LoadBalanceRequest.SealedSegmentIDs req) [] st) as (r & l & Hl & HP & Hq).
      exists r, l. split; [done|]. split; [done|].
      intros tb seg Hr Hseg. destruct (Hq tb seg Hr Hseg) as [Hnil|[id Hid]]; [inversion Hnil|].
      by apply SliceToMap_lookup in Hid. }
  intros [e|toBalance] Hsegs; [apply framesP_ret|].
  unfold balanceSegments. apply framesP_call.
  - simpl. unfold balanceChecked. split; [done|]. split; [done|]. split; [lia|].
    split; [done|]. split; [done|]. split; [done|]. split.
    { apply Forall_forall. intros d Hd. split; [apply Hin|by apply Hok].
      by apply elem_of_elements in Hd. }
    split.
    { intros Hne d. rewrite elem_of_elements. by apply Hnamed. }
    split; [|done].
    apply Forall_forall. intros seg Hseg. by apply (Hsegs toBalance).
  - case_match; apply framesP_ret.
Qed.

End LoadBalance.

(** X15. Whenever LoadBalance calls the balance executor, every check of
    the handler has passed: the coordinator is healthy, the request names
    the one source node of the call, the collection is at 100, the replica
    of the call is the one the replica manager gives for the source node,
    neither the source nor any destination is stopping, every destination
    is a node of that replica (and the destinations are the named ones
    when the request names any), every segment handed over is in the
    distribution of the collection on the source node, and the call is
    synchronous and not in copy mode. *)
Theorem LoadBalance_calls_executor_only_after_checks (s : Server) (req : LoadBalanceRequest.t)
  (st : St) (collectionID : UniqueID) (replica : meta.Replica) (srcNode : UniqueID)
  (dstNodes : list UniqueID) (segments : list meta.Segment) (sync copyMode : bool) :
  C_balanceSegments collectionID replica srcNode dstNodes segments sync copyMode
    ∈ issued (LoadBalance s req) st ->
  balanceChecked s req collectionID replica srcNode dstNodes segments sync copyMode.
Proof.
  intros Hin.
  pose proof (framesP_issued (LoadBalance s req) st (LoadBalance_framesP s req)) as Hall.
  rewrite Forall_forall in Hall. exact (Hall _ Hin).
Qed.

Lemma LoadBalance_calls_executor_only_after_checks_witness :
  balanceChecked (scenarioServer baseline) (LoadBalanceRequest.mk 100 [1] [] []) 100 replica12 1 [2; 1]
    [meta.mkSegment 11 100 1 1; meta.mkSegment 12 100 1 1] true false.
Proof.
  apply (LoadBalance_calls_executor_only_after_checks (scenarioServer baseline)
           (LoadBalanceRequest.mk 100 [1] [] []) (start loaded100)).
  apply list_elem_of_In. vm_compute. do 7 right. left. reflexivity.
Defined.

(** ** The handlers that work through the job scheduler *)

Lemma checkResourceGroup_logs (s : Server) (collectionID : UniqueID) (rgs : list string) (st : St) :
  exists e l, logs (checkResourceGroup s collectionID rgs) st e l /\ forallb isRead l = true.
Proof.
  unfold checkResourceGroup, logs. case_decide.
  - step. eexists _, [_]. split; reflexivity.
  - eexists _, []. split; [apply logs_ret|reflexivity].
Qed.

Lemma refreshCollection_no_job (s : Server) (collectionID : UniqueID) (st : St) :
  exists l, calls (snd (refreshCollection s collectionID st)) = (calls st ++ l)%list
            /\ existsb is_jobScheduler_Add l = false.
Proof. apply refreshCollection_run. Qed.

Lemma existsb_reads_no_job (l : list Call) :
  forallb isRead l = true -> existsb is_jobScheduler_Add l = false.
Proof.
  induction l as [|c l IH]; simpl; [done|]. intros [Hc Hl]%andb_true_iff.
  rewrite IH by done. by destruct c.
Qed.

(** X3. LoadCollection, LoadPartitions, ReleaseCollection,
    ReleasePartitions and SyncNewCreatedPartition either submit no job at
    all, or submit the job built from their request exactly once, after
    queries only, wait for it immediately, and answer with the kind of the
    error the wait returned (Success when it returned none); the release
    handlers drop the failed-load record of their collection after a
    successful wait and only then, and nothing else follows the wait. *)
Theorem job_handlers_submit_then_wait (s : Server) (r : Request) (j : job.Job) (st : St) :
  jobOf r = Some j ->
  existsb is_jobScheduler_Add (issued (handle s r) st) = false
  \/ exists pre status,
       logs (handle s r) st (Returned (Some status) None)
         (pre ++ [C_jobScheduler_Add j; C_job_Wait j]
              ++ match job_Wait s j with None => afterJob r | Some _ => [] end)
       /\ forallb isRead pre = true
       /\ commonpb.Code status = errKind <$> job_Wait s j.
Proof.
  intros Hj. destruct r; try discriminate Hj; injection Hj as <-; unfold handle, observe, issued, logs.
  - (* LoadCollection *)
    unfold LoadCollection. step.
    destruct (merr.CheckHealthy (server_State s)); simpl.
    { left. by read_log. }
    destruct (LoadCollectionRequest.Refresh req); simpl.
    { left. destruct (refreshCollection_no_job s (LoadCollectionRequest.CollectionID req)
                        (mkSt (collections st) (calls st ++ [C_State]))) as (l & Hl & Hno).
      destruct (refreshCollection _ _ _) as [e st']. simpl in *. rewrite Hl.
      read_log. simpl. done. }
    destruct (checkResourceGroup_logs s (LoadCollectionRequest.CollectionID req)
                (LoadCollectionRequest.ResourceGroups req)
                (mkSt (collections st) (calls st ++ [C_State]))) as (e & l & Hl & Hreads).
    unfold logs in Hl. rewrite Hl. simpl. destruct e as [e|]; simpl.
    { left. read_log. simpl. by apply existsb_reads_no_job. }
    right. exists (C_State :: l).
    destruct (job_Wait s (job.NewLoadCollectionJob req)) as [e|]; simpl;
      eexists; (split; [rewrite <- !app_assoc; reflexivity|]); split; done.
  - (* ReleaseCollection *)
    unfold ReleaseCollection. step.
    destruct (merr.CheckHealthy (server_State s)); simpl.
    { left. by read_log. }
    right. exists [C_State].
    destruct (job_Wait s (job.NewReleaseCollectionJob req)) as [e|]; simpl;
      eexists; (split; [rewrite <- !app_assoc; reflexivity|]); split; done.
  - (* LoadPartitions *)
    unfold LoadPartitions. step.
    destruct (merr.CheckHealthy (server_State s)); simpl.
    { left. by read_log. }
    destruct (LoadPartitionsRequest.Refresh req); simpl.
    { left. destruct (refreshCollection_no_job s (LoadPartitionsRequest.CollectionID req)
                        (mkSt (collections st) (calls st ++ [C_State]))) as (l & Hl & Hno).
      destruct (refreshCollection _ _ _) as [e st']. simpl in *. rewrite Hl.
      read_log. simpl. done. }
    destruct (checkResourceGroup_logs s (LoadPartitionsRequest.CollectionID req)
                (LoadPartitionsRequest.ResourceGroups req)
                (mkSt (collections st) (calls st ++ [C_State]))) as (e & l & Hl & Hreads).
    unfold logs in Hl. rewrite Hl. simpl. destruct e as [e|]; simpl.
    { left. read_log. simpl. by apply existsb_reads_no_job. }
    right. exists (C_State :: l).
    destruct (job_Wait s (job.NewLoadPartitionJob req)) as [e|]; simpl;
      eexists; (split; [rewrite <- !app_assoc; reflexivity|]); split; done.
  - (* ReleasePartitions *)
    unfold ReleasePartitions. step.
    destruct (merr.CheckHealthy (server_State s)); simpl.
    { left. by read_log. }
    case_decide; simpl.
    { left. by read_log. }
    right. exists [C_State].
    destruct (job_Wait s (job.NewReleasePartitionJob req)) as [e|]; simpl;
      eexists; (split; [rewrite <- !app_assoc; reflexivity|]); split; done.
  - (* SyncNewCreatedPartition *)
    unfold SyncNewCreatedPartition. step.
    destruct (merr.CheckHealthy (server_State s)); simpl.
    { left. by read_log. }
    right. exists [C_State].
    destruct (job_Wait s (job.NewSyncNewCreatedPartitionJob req)) as [e|]; simpl;
      eexists; (split; [rewrite <- !app_assoc; reflexivity|]); split; done.
Qed.

Lemma job_handlers_submit_then_wait_witness :
  jobOf (ReqReleaseCollection (ReleaseCollectionRequest.mk 100))
  = Some (job.NewReleaseCollectionJob (ReleaseCollectionRequest.mk 100))
  /\ (existsb is_jobScheduler_Add
        (issued (handle (scenarioServer baseline) (ReqReleaseCollection (ReleaseCollectionRequest.mk 100)))
           (start loaded100)) = false
      \/ exists pre status,
           logs (handle (scenarioServer baseline) (ReqReleaseCollection (ReleaseCollectionRequest.mk 100)))
             (start loaded100) (Returned (Some status) None)
             (pre ++ [C_jobScheduler_Add (job.NewReleaseCollectionJob (ReleaseCollectionRequest.mk 100));
                      C_job_Wait (job.NewReleaseCollectionJob (ReleaseCollectionRequest.mk 100))]
                  ++ [C_FailedLoadCache_Remove 100])
           /\ forallb isRead pre = true
           /\ commonpb.Code status = None).
Proof.
  split; [reflexivity|].
  exact (job_handlers_submit_then_wait (scenarioServer baseline)
           (ReqReleaseCollection (ReleaseCollectionRequest.mk 100))
           (job.NewReleaseCollectionJob (ReleaseCollectionRequest.mk 100)) (start loaded100) eq_refl).
Defined.

(** X26. On a healthy coordinator ReleasePartitions rejects a request
    that names no partition with ParameterInvalid, before any job is built:
    the read of the coordinator state is its only collaborator call. *)
Theorem ReleasePartitions_rejects_empty_list (s : Server) (req : ReleasePartitionsRequest.t) (st : St) :
  server_State s = commonpb.Healthy ->
  ReleasePartitionsRequest.PartitionIDs req = [] ->
  logs (ReleasePartitions s req) st
    (Returned (merr.Status (Some (merr.WrapErrParameterInvalid "any partition" "empty partition list" [])))
       None)
    [C_State].
Proof.
  intros Hs Hids. unfold ReleasePartitions, logs. step. rewrite Hs, Hids. reflexivity.
Qed.

Lemma ReleasePartitions_rejects_empty_list_witness :
  server_State (scenarioServer baseline) = commonpb.Healthy
  /\ logs (ReleasePartitions (scenarioServer baseline) (ReleasePartitionsRequest.mk 100 []))
       (start loaded100)
       (Returned
          (merr.Status (Some (merr.WrapErrParameterInvalid "any partition" "empty partition list" [])))
          None)
       [C_State].
Proof.
  split; [reflexivity|].
  apply (ReleasePartitions_rejects_empty_list (scenarioServer baseline)
           (ReleasePartitionsRequest.mk 100 []) (start loaded100)); reflexivity.
Defined.

(** ** Resource groups *)

(** X22. On a healthy coordinator DropResourceGroup refuses, with
    ParameterInvalid and without calling RemoveResourceGroup, to drop a
    resource group that still holds a replica; for a group without
    replicas it calls RemoveResourceGroup once and answers with the result
    of that call. *)
Theorem DropResourceGroup_refuses_group_in_use (s : Server) (req : DropResourceGroupRequest.t)
  (st : St) :
  server_State s = commonpb.Healthy ->
  let rgName := DropResourceGroupRequest.ResourceGroup req in
  (meta_GetByResourceGroup s rgName ≠ []
   /\ exists status,
        logs (DropResourceGroup s req) st (Returned status None) [C_State; C_GetByResourceGroup rgName]
        /\ commonpb.Code status = Some ParameterInvalid)
  \/ (meta_GetByResourceGroup s rgName = []
      /\ logs (DropResourceGroup s req) st
           (Returned (merr.Status (meta_RemoveResourceGroup s rgName)) None)
           [C_State; C_GetByResourceGroup rgName; C_RemoveResourceGroup rgName]).
Proof.
  intros Hs rgName. unfold DropResourceGroup, logs. step. rewrite Hs. simpl. fold rgName.
  destruct (meta_GetByResourceGroup s rgName) as [|first rest]; simpl.
  - right. split; [done|]. rewrite <- !app_assoc.
    by destruct (meta_RemoveResourceGroup s rgName).
  - left. split; [done|]. eexists. rewrite <- !app_assoc. split; reflexivity.
Qed.

Lemma DropResourceGroup_refuses_group_in_use_witness :
  server_State (catalogServer baseline twoGroups) = commonpb.Healthy
  /\ meta_GetByResourceGroup (catalogServer baseline twoGroups) "rgA" = [replica12]
  /\ exists status,
       logs (DropResourceGroup (catalogServer baseline twoGroups) (DropResourceGroupRequest.mk "rgA"))
         (start loaded100) (Returned status None) [C_State; C_GetByResourceGroup "rgA"]
       /\ commonpb.Code status = Some ParameterInvalid.
Proof.
  split; [reflexivity|]. split; [reflexivity|].
  destruct (DropResourceGroup_refuses_group_in_use (catalogServer baseline twoGroups)
              (DropResourceGroupRequest.mk "rgA") (start loaded100) eq_refl)
    as [[_ Hrefused]|[Hnil _]].
  - exact Hrefused.
  - discriminate Hnil.
Defined.

(** X23. On a healthy coordinator TransferNode answers with the result
    of the resource manager's TransferNode, and runs RecoverAllCollection
    after the transfer exactly when the transfer succeeded. *)
Theorem TransferNode_recovers_after_transfer_only (s : Server) (req : TransferNodeRequest.t)
  (st : St) :
  server_State s = commonpb.Healthy ->
  let err := meta_TransferNode s (TransferNodeRequest.SourceResourceGroup req)
               (TransferNodeRequest.TargetResourceGroup req) (TransferNodeRequest.NumNode req) in
  logs (TransferNode s req) st (Returned (merr.Status err) None)
    (C_State
       :: C_TransferNode (TransferNodeRequest.SourceResourceGroup req)
            (TransferNodeRequest.TargetResourceGroup req) (TransferNodeRequest.NumNode req)
       :: match err with None => [C_RecoverAllCollection] | Some _ => [] end).
Proof.
  intros Hs err. unfold TransferNode, logs. step. rewrite Hs. simpl. fold err.
  destruct err; simpl; rewrite <- !app_assoc; reflexivity.
Qed.

Lemma TransferNode_recovers_after_transfer_only_witness :
  server_State (scenarioServer baseline) = commonpb.Healthy
  /\ logs (TransferNode (scenarioServer baseline) (TransferNodeRequest.mk "rgA" "rgB" 1))
       (start loaded100) (Returned merr.Success None)
       [C_State; C_TransferNode "rgA" "rgB" 1; C_RecoverAllCollection].
Proof.
  split; [reflexivity|].
  exact (TransferNode_recovers_after_transfer_only (scenarioServer baseline)
           (TransferNodeRequest.mk "rgA" "rgB" 1) (start loaded100) eq_refl).
Defined.

(** ** GetMetrics *)

(** X24. GetMetrics is served in state StandBy as it is in state
    Healthy: a request whose metric type parses to the system-info metric
    reaches getSystemInfoMetrics once, the response carries the component
    name and the text getSystemInfoMetrics returned -- also when it
    returned an error --, and the status is Success exactly when it
    returned no error, otherwise of the kind of that error. *)
Theorem GetMetrics_served_on_standby (s : Server) (req : GetMetricsRequest.t) (st : St) :
  server_State s = commonpb.Healthy \/ server_State s = commonpb.StandBy ->
  metricsinfo_ParseMetricType s (GetMetricsRequest.Request req) = inr (metricsinfo_SystemInfoMetrics s) ->
  exists status,
    logs (GetMetrics s req) st
      (Returned
         (GetMetricsResponse.mk status (fst (server_getSystemInfoMetrics s req))
            (metricsinfo_ConstructComponentName s))
         None)
      [C_State; C_getSystemInfoMetrics]
    /\ commonpb.Code status = errKind <$> snd (server_getSystemInfoMetrics s req).
Proof.
  intros Hs Hparse. unfold GetMetrics, logs. step.
  assert (Hgate : merr.CheckHealthyStandby (server_State s) = None).
  { unfold merr.CheckHealthyStandby. destruct Hs as [-> | ->]; reflexivity. }
  rewrite Hgate, Hparse. simpl. rewrite decide_False by (intros H; by apply H).
  simpl. destruct (snd (server_getSystemInfoMetrics s req)); simpl;
    eexists; rewrite <- !app_assoc; (split; reflexivity).
Qed.

Lemma GetMetrics_served_on_standby_witness :
  server_State (scenarioServer standby) = commonpb.StandBy
  /\ exists status,
       logs (GetMetrics (scenarioServer standby) (GetMetricsRequest.mk "system_info")) (start loaded100)
         (Returned (GetMetricsResponse.mk status "" "querycoord") None)
         [C_State; C_getSystemInfoMetrics]
       /\ commonpb.Code status = None.
Proof.
  split; [reflexivity|].
  apply (GetMetrics_served_on_standby (scenarioServer standby) (GetMetricsRequest.mk "system_info")
           (start loaded100)); [by right|reflexivity].
Defined.

(** X25. When the coordinator is neither Healthy nor on StandBy, or the
    metric type of the request is not the system-info metric (it does not
    parse, or it is another type), GetMetrics answers with a failure
    status and an empty response text, and never calls
    getSystemInfoMetrics; in the first case the failure is ServiceNotReady
    and the component name is left empty too. *)
Theorem GetMetrics_measures_nothing_otherwise (s : Server) (req : GetMetricsRequest.t) (st : St) :
  (server_State s ≠ commonpb.Healthy /\ server_State s ≠ commonpb.StandBy)
  \/ metricsinfo_ParseMetricType s (GetMetricsRequest.Request req)
     ≠ inr (metricsinfo_SystemInfoMetrics s) ->
  exists status name,
    logs (GetMetrics s req) st (Returned (GetMetricsResponse.mk status "" name) None) [C_State]
    /\ is_Some (commonpb.Code status)
    /\ (server_State s ≠ commonpb.Healthy -> server_State s ≠ commonpb.StandBy ->
        commonpb.Code status = Some ServiceNotReady /\ name = "").
Proof.
  intros Hbad. unfold GetMetrics, logs. step. unfold merr.CheckHealthyStandby.
  destruct (decide (server_State s = commonpb.Healthy)) as [Hh|Hh];
    [|destruct (decide (server_State s = commonpb.StandBy)) as [Hb|Hb]]; simpl.
  - destruct Hbad as [[? _]|Hparse]; [done|].
    destruct (metricsinfo_ParseMetricType s (GetMetricsRequest.Request req)) as [e|t] eqn:E; simpl.
    + eexists _, _. split; [reflexivity|]. split; [simpl; eauto|]. done.
    + rewrite decide_True by congruence. simpl.
      eexists _, _. split; [reflexivity|]. split; [simpl; eauto|]. done.
  - destruct Hbad as [[_ ?]|Hparse]; [done|].
    destruct (metricsinfo_ParseMetricType s (GetMetricsRequest.Request req)) as [e|t] eqn:E; simpl.
    + eexists _, _. split; [reflexivity|]. split; [simpl; eauto|]. done.
    + rewrite decide_True by congruence. simpl.
      eexists _, _. split; [reflexivity|]. split; [simpl; eauto|]. done.
  - eexists _, _. split; [reflexivity|]. split; [simpl; eauto|]. done.
Qed.

Lemma GetMetrics_measures_nothing_otherwise_witness :
  metricsinfo_ParseMetricType (scenarioServer baseline) "dashboard"
  ≠ inr (metricsinfo_SystemInfoMetrics (scenarioServer baseline))
  /\ exists status name,
       logs (GetMetrics (scenarioServer baseline) (GetMetricsRequest.mk "dashboard")) (start loaded100)
         (Returned (GetMetricsResponse.mk status "" name) None) [C_State]
       /\ is_Some (commonpb.Code status)
       /\ (server_State (scenarioServer baseline) ≠ commonpb.Healthy ->
           server_State (scenarioServer baseline) ≠ commonpb.StandBy ->
           commonpb.Code status = Some ServiceNotReady /\ name = "").
Proof.
  split; [discriminate|].
  apply (GetMetrics_measures_nothing_otherwise (scenarioServer baseline)
           (GetMetricsRequest.mk "dashboard") (start loaded100)).
  right. discriminate.
Defined.

(** ** Refresh of a loaded collection *)

(** X4. A load request in refresh mode (LoadCollection or LoadPartitions
    with the refresh flag, coordinator healthy) on a collection whose load
    status is Loaded asks the target observer for the next target and
    nothing else: when UpdateNextTarget succeeds the answer is Success and
    the only change to the collection store is the refresh notifier of
    that collection, set to the channel UpdateNextTarget returned; when it
    fails its error is the status, unwrapped, and the store is unchanged.
    Replica number and resource groups of the request are not looked at,
    and no job is submitted. *)
Theorem refresh_sets_only_the_notifier (s : Server) (r : Request) (st : St)
  (collectionID : UniqueID) (c : meta.Collection) :
  server_State s = commonpb.Healthy ->
  refreshTarget r = Some collectionID ->
  collections st !! collectionID = Some c ->
  meta.Status c = querypb.LoadStatus_Loaded ->
  handle s r st
  = match targetObserver_UpdateNextTarget s collectionID with
    | inr readyCh =>
        (Returned (Some merr.Success) None,
         mkSt (<[collectionID := meta.SetRefreshNotifier c readyCh]> (collections st))
           (calls st ++ [C_State; C_GetCollection collectionID; C_UpdateNextTarget collectionID;
                         C_SetRefreshNotifier collectionID readyCh]))
    | inl err =>
        (Returned (Some (merr.Status (Some err))) None,
         mkSt (collections st)
           (calls st ++ [C_State; C_GetCollection collectionID; C_UpdateNextTarget collectionID]))
    end.
Proof.
  intros Hs Hr Hc Hl.
  assert (Hrun : forall st0,
             collections st0 = collections st ->
             refreshCollection s collectionID st0
             = match targetObserver_UpdateNextTarget s collectionID with
               | inr readyCh =>
                   (None,
                    mkSt (<[collectionID := meta.SetRefreshNotifier c readyCh]> (collections st))
                      (calls st0 ++ [C_GetCollection collectionID; C_UpdateNextTarget collectionID;
                                     C_SetRefreshNotifier collectionID readyCh]))
               | inl err =>
                   (Some err,
                    mkSt (collections st)
                      (calls st0 ++ [C_GetCollection collectionID; C_UpdateNextTarget collectionID]))
               end).
  { intros st0 Hst0. unfold refreshCollection. step. rewrite Hst0, Hc. simpl.
    rewrite decide_False by (intros H; by apply H).
    simpl. destruct (targetObserver_UpdateNextTarget s collectionID) as [err|ch]; simpl.
    - by rewrite <- !app_assoc.
    - rewrite <- !app_assoc. simpl. f_equal. f_equal.
      apply map_eq. intros k. rewrite lookup_alter. case_decide as Hk.
      + subst k. rewrite lookup_insert_eq. unfold UniqueID in *. by rewrite Hc.
      + by rewrite lookup_insert_ne. }
  destruct r; try discriminate Hr; unfold handle, observe; simpl in Hr.
  - destruct (LoadCollectionRequest.Refresh req) eqn:Er; [|discriminate]. injection Hr as Hr.
    unfold LoadCollection. unfold bind at 1. unfold State, call at 1. simpl. rewrite Hs. simpl.
    rewrite Er. unfold bind at 1. rewrite Hr. rewrite Hrun by reflexivity. simpl.
    destruct (targetObserver_UpdateNextTarget s collectionID); unfold ret; simpl;
      rewrite <- !app_assoc; reflexivity.
  - destruct (LoadPartitionsRequest.Refresh req) eqn:Er; [|discriminate]. injection Hr as Hr.
    unfold LoadPartitions. unfold bind at 1. unfold State, call at 1. simpl. rewrite Hs. simpl.
    rewrite Er. unfold bind at 1. rewrite Hr. rewrite Hrun by reflexivity. simpl.
    destruct (targetObserver_UpdateNextTarget s collectionID); unfold ret; simpl;
      rewrite <- !app_assoc; reflexivity.
Qed.

Lemma refresh_sets_only_the_notifier_witness :
  server_State (scenarioServer baseline) = commonpb.Healthy
  /\ handle (scenarioServer baseline)
       (ReqLoadCollection (LoadCollectionRequest.mk 100 1 ["rgB"; meta.DefaultResourceGroupName] true))
       (start loaded100)
     = (Returned (Some merr.Success) None,
        mkSt {[ 100 := meta.mkCollection 100 querypb.LoadStatus_Loaded 100 [] (Some 1) ]}
          [C_State; C_GetCollection 100; C_UpdateNextTarget 100; C_SetRefreshNotifier 100 1]).
Proof.
  split; [reflexivity|].
  rewrite (refresh_sets_only_the_notifier (scenarioServer baseline)
             (ReqLoadCollection (LoadCollectionRequest.mk 100 1 ["rgB"; meta.DefaultResourceGroupName] true))
             (start loaded100) 100 (meta.mkCollection 100 querypb.LoadStatus_Loaded 100 [] None)
             eq_refl eq_refl eq_refl eq_refl).
  vm_compute. reflexivity.
Defined.

(** ** LoadBalance without a segment list *)

Lemma Set_Insert_NoDup {A} `{EqDecision A} (set : list A) (x : A) :
  NoDup set -> NoDup (Set_Insert set x).
Proof.
  intros Hset. unfold Set_Insert. case_decide as Hin; [done|].
  apply NoDup_app. split; [done|]. split; [|apply NoDup_singleton].
  intros y Hy Hx. apply list_elem_of_singleton in Hx as ->. done.
Qed.

Lemma Set_Insert_fold_NoDup {A} `{EqDecision A} (l : list A) :
  forall acc, NoDup acc -> NoDup (fold_left Set_Insert l acc).
Proof.
  induction l as [|a l IH]; intros acc Hacc; simpl; [done|]. by apply IH, Set_Insert_NoDup.
Qed.

Lemma Set_Insert_fold_elem {A} `{EqDecision A} (l : list A) :
  forall acc x, x ∈ fold_left Set_Insert l acc <-> x ∈ acc \/ x ∈ l.
Proof.
  induction l as [|a l IH]; intros acc x; simpl.
  - split; [by left|]. intros [?|Hx]; [done|inversion Hx].
  - rewrite IH, Set_Insert_elem, elem_of_cons. naive_solver.
Qed.

(** X16. LoadBalance without a sealed-segment list, for a request that
    has passed the checks made before the segments are looked at: the
    balance executor is called once, as the last action, with every
    segment the distribution holds for the collection on the source node,
    each once -- whether or not the segment is in the current target,
    which is not consulted --, and the answer is the executor's. *)
Theorem LoadBalance_default_segments (s : Server) (req : LoadBalanceRequest.t) (st : St)
  (srcNode : UniqueID) (replica : meta.Replica) :
  let collectionID := LoadBalanceRequest.CollectionID req in
  let dstNodeSet := dstNodeSetOf replica (LoadBalanceRequest.DstNodeIDs req) in
  let segments :=
    dist_SegmentDistManager_GetByFilter s
      [meta.WithCollectionID collectionID; meta.WithNodeID srcNode] in
  server_State s = commonpb.Healthy ->
  LoadBalanceRequest.SourceNodeIDs req = [srcNode] ->
  100 <= meta_CalculateLoadPercentage s collectionID ->
  meta_GetByCollectionAndNode s collectionID srcNode = Some replica ->
  nodeMgr_IsStoppingNode s srcNode = inr false ->
  (forall d, d ∈ LoadBalanceRequest.DstNodeIDs req -> d ∈ meta.Nodes replica) ->
  (forall d, d ∈ dstNodeSet -> nodeMgr_IsStoppingNode s d = inr false) ->
  LoadBalanceRequest.SealedSegmentIDs req = [] ->
  exists dstNodes toBalance checks,
    (forall d, d ∈ dstNodes <-> d ∈ dstNodeSet)
    /\ NoDup toBalance
    /\ (forall seg, seg ∈ toBalance <-> seg ∈ segments)
    /\ forallb isRead checks = true
    /\ existsb is_GetSealedSegment checks = false
    /\ logs (LoadBalance s req) st
         (Returned
            (match server_balanceSegments s (meta.ReplicaCollectionID replica) replica srcNode
                     dstNodes toBalance true false with
             | Some err => merr.Status (Some (errors.Wrap err "failed to balance segments"))
             | None => merr.Success
             end)
            None)
         (checks ++ [C_balanceSegments (meta.ReplicaCollectionID replica) replica srcNode dstNodes
                       toBalance true false]).
Proof.
  intros collectionID dstNodeSet segments Hh Hsrc Hpct Hrep Hstop Hdst Hdstop Hsealed.
  exists (elements dstNodeSet), (fold_left Set_Insert segments []).
  exists ([C_State; C_CalculateLoadPercentage collectionID;
           C_GetByCollectionAndNode collectionID srcNode; C_IsStoppingNode srcNode]
            ++ map C_IsStoppingNode (elements dstNodeSet)
            ++ [C_SegmentDist_GetByFilter [meta.WithCollectionID collectionID; meta.WithNodeID srcNode]])%list.
  split; [intros d; apply elem_of_elements|].
  split; [apply Set_Insert_fold_NoDup, NoDup_nil_2|].
  split.
  { intros seg. rewrite Set_Insert_fold_elem. split; [intros [Hnil|?]; [inversion Hnil|done]|by right]. }
  split.
  { simpl. rewrite forallb_app. simpl. rewrite andb_true_r. by induction (elements dstNodeSet). }
  split.
  { simpl. rewrite existsb_app. simpl. rewrite orb_false_r. by induction (elements dstNodeSet). }
  assert (Hset : (if decide (length (LoadBalanceRequest.DstNodeIDs req) = 0%nat)
                  then inr (list_to_set (meta.Nodes replica) : gset Z)
                  else LoadBalance_dstNodes replica (LoadBalanceRequest.DstNodeIDs req) ∅)
                 = inr dstNodeSet).
  { unfold dstNodeSet, dstNodeSetOf. case_decide; [done|].
    rewrite LoadBalance_dstNodes_ok by done. f_equal. set_solver. }
  assert (Hdstop' : forall d, d ∈ elements dstNodeSet -> nodeMgr_IsStoppingNode s d = inr false).
  { intros d Hd. apply Hdstop. by apply elem_of_elements. }
  unfold logs, LoadBalance, merr.CheckHealthy.
  unfold State, CalculateLoadPercentage, GetByCollectionAndNode.
  unfold bind at 1. unfold call at 1. simpl. rewrite Hh. simpl.
  fold collectionID. rewrite Hsrc. simpl.
  unfold bind at 1. unfold call at 1. simpl.
  destruct (decide (meta_CalculateLoadPercentage s collectionID < 100)); [lia|].
  unfold bind at 1. unfold call at 1. simpl. rewrite Hrep.
  unfold bind at 1. rewrite (isStoppingNode_ok s srcNode _ Hstop). simpl.
  rewrite Hset. unfold bind at 1.
  rewrite LoadBalance_checkDst_ok by exact Hdstop'. simpl.
  unfold SegmentDistManager_GetByFilter. unfold bind at 1. unfold call at 1. simpl.
  rewrite Hsealed. simpl. unfold bind at 1. unfold ret at 1. simpl.
  unfold balanceSegments, bind, call, ret. simpl. fold segments.
  rewrite <- ?app_assoc. simpl. rewrite <- ?app_assoc. simpl.
  destruct (server_balanceSegments s _ _ _ _ _ _ _); reflexivity.
Qed.

Lemma LoadBalance_default_segments_witness :
  let s := scenarioServer baseline in
  let req := LoadBalanceRequest.mk 100 [1] [2] [] in
  server_State s = commonpb.Healthy
  /\ ~ inCurrentTarget s (meta.mkSegment 12 100 1 1)
  /\ exists dstNodes toBalance checks,
       (forall d, d ∈ dstNodes <-> d ∈ dstNodeSetOf replica12 [2])
       /\ NoDup toBalance
       /\ (forall seg, seg ∈ toBalance <-> seg ∈ [meta.mkSegment 11 100 1 1; meta.mkSegment 12 100 1 1])
       /\ forallb isRead checks = true
       /\ existsb is_GetSealedSegment checks = false
       /\ logs (LoadBalance s req) (start loaded100) (Returned merr.Success None)
            (checks ++ [C_balanceSegments 100 replica12 1 dstNodes toBalance true false]).
Proof.
  intros s req. split; [reflexivity|]. split.
  { intros [x Hx]. vm_compute in Hx. discriminate. }
  apply (LoadBalance_default_segments s req (start loaded100) 1 replica12).
  - reflexivity.
  - reflexivity.
  - vm_compute; discriminate.
  - reflexivity.
  - reflexivity.
  - intros d Hd. apply list_elem_of_singleton in Hd as ->. right; left.
  - intros d Hd. unfold dstNodeSetOf in Hd. simpl in Hd.
    assert (d = 2) as -> by set_solver. reflexivity.
  - reflexivity.
Defined.

(** ** GetShardLeaders: when it returns *)

Section ShardLeadersReturn.
Variable s : Server.

Lemma GetShardLeaders_leaders_reported ct (leaders : list meta.LeaderView) :
  forall (acc : gmap Z meta.LeaderView * option Err) (st : St),
    (forall k leader, fst acc !! k = Some leader -> leader ∈ leaders \/ reportedLeader s leader) ->
    (forall leader, leader ∈ leaders -> reportedLeader s leader) ->
    forall k leader,
      fst (fst (foldM (GetShardLeaders_leader s ct) leaders acc st)) !! k = Some leader ->
      reportedLeader s leader.
Proof.
  induction leaders as [|l0 rest IH]; intros [readable cerr] st Hacc Hrep k leader.
  - simpl. intros Hk. destruct (Hacc k leader Hk) as [Hin|?]; [inversion Hin|done].
  - rewrite GetShardLeaders_leader_step. apply IH.
    + intros k' leader'. destruct (checkers_CheckLeaderAvailable s l0 ct); simpl.
      * intros Hk'. right. destruct (Hacc k' leader' Hk') as [Hin|?]; [by apply Hrep|done].
      * intros Hk'. right. apply lookup_insert_Some in Hk' as [[_ <-]|[_ Hk']].
        -- apply Hrep. left.
        -- destruct (Hacc k' leader' Hk') as [Hin|?]; [by apply Hrep|done].
    + intros leader' Hin. apply Hrep. by right.
Qed.

Lemma GetShardLeaders_addrs_nonempty (leaders : list meta.LeaderView) (st : St) :
  (exists leader, leader ∈ leaders /\ is_Some (nodeMgr_Get s (meta.ID leader))) ->
  fst (fst (GetShardLeaders_addrs s leaders st)) ≠ [].
Proof.
  unfold GetShardLeaders_addrs.
  set (g := fun (acc : list UniqueID * list string) (leader : meta.LeaderView) =>
              match nodeMgr_Get s (meta.ID leader) with
              | Some info => ((fst acc ++ [session.ID info])%list, (snd acc ++ [session.Addr info])%list)
              | None => acc
              end).
  match goal with
  | |- context [foldM ?F _ _] =>
      assert (Hstep : forall b a st0, logs (F b a) st0 (g b a) [C_nodeMgr_Get (meta.ID a)])
  end.
  { intros acc leader st0. eapply (logs_bind _ _ _ _ [_] _ []); [apply logs_call|].
    unfold g. destruct (nodeMgr_Get s (meta.ID leader)); apply logs_ret. }
  pose proof (foldM_logs _ g _ Hstep leaders ([], []) st) as Hrun.
  unfold logs in Hrun. rewrite Hrun. simpl. clear Hrun Hstep.
  assert (Hinv : forall acc,
             fst acc ≠ [] \/ (exists leader, leader ∈ leaders /\ is_Some (nodeMgr_Get s (meta.ID leader))) ->
             fst (fold_left g leaders acc) ≠ []).
  { clear. induction leaders as [|l0 rest IH]; intros acc Hacc; simpl.
    - destruct Hacc as [?|(leader & Hin & _)]; [done|inversion Hin].
    - apply IH. destruct Hacc as [Hne|(leader & Hin & Hknown)].
      + left. unfold g. destruct (nodeMgr_Get s (meta.ID l0)); simpl; [|done].
        by destruct (fst acc).
      + apply elem_of_cons in Hin as [->|Hin]; [|right; eauto].
        left. unfold g. destruct Hknown as [info ->]. simpl. by destruct (fst acc). }
  intros Hex. apply Hinv. by right.
Qed.

Lemma GetShardLeaders_channels_return ct (channels : list meta.DmChannel) :
  leadersStayAddressable s ->
  forall resp st, exists r, fst (GetShardLeaders_channels s ct channels resp st) = Returned r None.
Proof.
  intros Hkeep. induction channels as [|ch rest IH]; intros resp st; simpl.
  - eexists. reflexivity.
  - unfold LeaderViewManager_GetByFilter. unfold bind at 1. unfold call at 1. simpl.
    unfold bind at 1.
    set (leaders := dist_LeaderViewManager_GetByFilter s _).
    set (st1 := mkSt _ _).
    pose proof (GetShardLeaders_leaders_error s ct leaders (meta.ChannelName ch) st1) as Herr.
    simpl in Herr.
    assert (Hrep : forall k leader,
               fst (fst (GetShardLeaders_leaders s ct leaders
                           (if decide (length leaders = 0%nat)
                            then Some (merr.WrapErrChannelLack (meta.ChannelName ch)
                                         ["channel not subscribed"])
                            else None) st1)) !! k = Some leader ->
               reportedLeader s leader).
    { apply GetShardLeaders_leaders_reported.
      - intros k leader Hk. simpl in Hk. by rewrite lookup_empty in Hk.
      - intros leader Hin. by exists (meta.ChannelName ch). }
    destruct (GetShardLeaders_leaders _ _ _ _ _) as [[readable cerr] st2]. simpl in *.
    destruct (decide (size readable = 0%nat)) as [Hsize|Hsize].
    + destruct cerr as [e|]; [eexists; reflexivity|]. by specialize (Herr Hsize).
    + unfold bind at 1.
      assert (Hne : readable ≠ ∅) by (intros ->; by apply Hsize).
      destruct (Hkeep readable Hne Hrep) as (k & leader & Hk & Hknown).
      pose proof (GetShardLeaders_addrs_nonempty
                    (map snd (map_to_list (server_filterDupLeaders s readable))) st2) as Hids.
      destruct (GetShardLeaders_addrs _ _ _) as [[ids addrs] st3]. simpl in *.
      destruct (decide (length ids = 0%nat)) as [Hlen|Hlen].
      * exfalso. apply Hids; [|by destruct ids].
        exists leader. split; [|done]. apply list_elem_of_fmap. exists (k, leader).
        split; [done|]. by apply elem_of_map_to_list.
      * apply IH.
Qed.

End ShardLeadersReturn.



(** ** LoadBalance: invalid destinations *)

(** X28. LoadBalance with a destination list that names a node outside
    the replica of the source node, for a healthy coordinator, one source
    node in service, and a fully loaded collection: the answer is a
    NodeNotFound status with a nil Go error, and the handler stops after
    the stopping check of the source node -- no destination is checked,
    the distribution is not read, the executor is not called. *)
Theorem LoadBalance_rejects_foreign_destination (s : Server) (req : LoadBalanceRequest.t) (st : St)
  (srcNode : UniqueID) (replica : meta.Replica) :
  let collectionID := LoadBalanceRequest.CollectionID req in
  server_State s = commonpb.Healthy ->
  LoadBalanceRequest.SourceNodeIDs req = [srcNode] ->
  100 <= meta_CalculateLoadPercentage s collectionID ->
  meta_GetByCollectionAndNode s collectionID srcNode = Some replica ->
  nodeMgr_IsStoppingNode s srcNode = inr false ->
  (exists d, d ∈ LoadBalanceRequest.DstNodeIDs req /\ d ∉ meta.Nodes replica) ->
  exists status,
    logs (LoadBalance s req) st (Returned status None)
      [C_State; C_CalculateLoadPercentage collectionID;
       C_GetByCollectionAndNode collectionID srcNode; C_IsStoppingNode srcNode]
    /\ commonpb.Code status = Some NodeNotFound.
Proof.
  intros collectionID Hh Hsrc Hpct Hrep Hstop Hbad.
  destruct (LoadBalance_dstNodes_missing replica (LoadBalanceRequest.DstNodeIDs req) ∅ Hbad)
    as (e & He & Hkind).
  unfold logs, LoadBalance, merr.CheckHealthy.
  unfold State, CalculateLoadPercentage, GetByCollectionAndNode.
  unfold bind at 1. unfold call at 1. simpl. rewrite Hh. simpl.
  fold collectionID. rewrite Hsrc. simpl.
  unfold bind at 1. unfold call at 1. simpl.
  destruct (decide (meta_CalculateLoadPercentage s collectionID < 100)); [lia|].
  unfold bind at 1. unfold call at 1. simpl. rewrite Hrep.
  unfold bind at 1. rewrite (isStoppingNode_ok s srcNode _ Hstop). simpl.
  destruct (decide (length (LoadBalanceRequest.DstNodeIDs req) = 0%nat)) as [Hlen|_].
  { destruct Hbad as (d & Hin & _). destruct (LoadBalanceRequest.DstNodeIDs req); [inversion Hin|done]. }
  rewrite He. unfold ret. simpl. eexists. rewrite <- !app_assoc. split; [reflexivity|].
  simpl. by rewrite Hkind.
Qed.

Lemma LoadBalance_rejects_foreign_destination_witness :
  let s := scenarioServer baseline in
  let req := LoadBalanceRequest.mk 100 [1] [2; 3] [] in
  server_State s = commonpb.Healthy
  /\ (3 ∉ meta.Nodes replica12)
  /\ exists status,
       logs (LoadBalance s req) (start loaded100) (Returned status None)
         [C_State; C_CalculateLoadPercentage 100; C_GetByCollectionAndNode 100 1; C_IsStoppingNode 1]
       /\ commonpb.Code status = Some NodeNotFound.
Proof.
  intros s req. split; [reflexivity|].
  assert (Hout : 3 ∉ meta.Nodes replica12).
  { simpl. rewrite !not_elem_of_cons. repeat split; [discriminate..|apply not_elem_of_nil]. }
  split; [exact Hout|].
  apply (LoadBalance_rejects_foreign_destination s req (start loaded100) 1 replica12).
  - reflexivity.
  - reflexivity.
  - vm_compute; discriminate.
  - reflexivity.
  - reflexivity.
  - exists 3. split; [right; left|exact Hout].
Defined.

Lemma isStoppingNode_logs (s : Server) (nodeID : UniqueID) (st : St) :
  logs (isStoppingNode s nodeID) st (stoppingError s nodeID) [C_IsStoppingNode nodeID].
Proof.
  unfold logs, isStoppingNode, stoppingError. step.
  by destruct (nodeMgr_IsStoppingNode s nodeID) as [e|[|]].
Qed.

Lemma LoadBalance_checkDst_stops (s : Server) (dsts : list UniqueID) :
  forall st,
    (exists d, d ∈ dsts /\ is_Some (stoppingError s d)) ->
    exists d e l,
      d ∈ dsts /\ stoppingError s d = Some e
      /\ Forall (fun c => exists d', d' ∈ dsts /\ c = C_IsStoppingNode d') l
      /\ logs (LoadBalance_checkDst s dsts) st
           (Some (errors.Wrap e
                    ("can't balance, because the destination node[" ++ fmtd d ++ "] is invalid")))
           l.
Proof.
  induction dsts as [|d rest IH]; intros st (d0 & Hin & Hbad); [inversion Hin|].
  simpl. unfold logs in *. unfold bind. rewrite isStoppingNode_logs.
  destruct (stoppingError s d) as [e|] eqn:E.
  - exists d, e, [C_IsStoppingNode d]. split; [left|]. split; [done|].
    split; [constructor; [exists d; split; [left|done]|constructor]|]. reflexivity.
  - apply elem_of_cons in Hin as [->|Hin]; [rewrite E in Hbad; by destruct Hbad|].
    destruct (IH (mkSt (collections st) (calls st ++ [C_IsStoppingNode d])))
      as (d1 & e & l & Hin1 & Hbad1 & Hl & Hrun); [eauto|].
    exists d1, e, (C_IsStoppingNode d :: l). split; [by right|]. split; [done|].
    split.
    { constructor; [exists d; split; [left|done]|].
      eapply Forall_impl; [exact Hl|]. intros c (d' & Hd' & ->). exists d'. split; [by right|done]. }
    simpl in Hrun. rewrite Hrun. simpl. by rewrite <- app_assoc.
Qed.

(** X29. LoadBalance whose destination set (the named destinations, all
    in the replica, or every node of the replica when none is named)
    holds a node that [isStoppingNode] rejects: the answer is the error
    of that check for one such destination [d], wrapped as
    [can't balance, because the destination node[d] is invalid], with a
    nil Go error; after the source node's check the handler only checks
    nodes of the destination set, and neither reads the distribution nor
    calls the executor. *)
Theorem LoadBalance_rejects_stopping_destination (s : Server) (req : LoadBalanceRequest.t) (st : St)
  (srcNode : UniqueID) (replica : meta.Replica) :
  let collectionID := LoadBalanceRequest.CollectionID req in
  let dstNodeSet := dstNodeSetOf replica (LoadBalanceRequest.DstNodeIDs req) in
  server_State s = commonpb.Healthy ->
  LoadBalanceRequest.SourceNodeIDs req = [srcNode] ->
  100 <= meta_CalculateLoadPercentage s collectionID ->
  meta_GetByCollectionAndNode s collectionID srcNode = Some replica ->
  stoppingError s srcNode = None ->
  (forall d, d ∈ LoadBalanceRequest.DstNodeIDs req -> d ∈ meta.Nodes replica) ->
  (exists d, d ∈ dstNodeSet /\ is_Some (stoppingError s d)) ->
  exists d e checks,
    d ∈ dstNodeSet
    /\ stoppingError s d = Some e
    /\ Forall (fun c => exists d', d' ∈ dstNodeSet /\ c = C_IsStoppingNode d') checks
    /\ logs (LoadBalance s req) st
         (Returned
            (merr.Status
               (Some (errors.Wrap e
                        ("can't balance, because the destination node[" ++ fmtd d ++ "] is invalid"))))
            None)
         ([C_State; C_CalculateLoadPercentage collectionID;
           C_GetByCollectionAndNode collectionID srcNode; C_IsStoppingNode srcNode] ++ checks).
Proof.
  intros collectionID dstNodeSet Hh Hsrc Hpct Hrep Hstop Hdst Hbad.
  assert (Hset : (if decide (length (LoadBalanceRequest.DstNodeIDs req) = 0%nat)
                  then inr (list_to_set (meta.Nodes replica) : gset Z)
                  else LoadBalance_dstNodes replica (LoadBalanceRequest.DstNodeIDs req) ∅)
                 = inr dstNodeSet).
  { unfold dstNodeSet, dstNodeSetOf. case_decide; [done|].
    rewrite LoadBalance_dstNodes_ok by done. f_equal. set_solver. }
  destruct (LoadBalance_checkDst_stops s (elements dstNodeSet)
              (mkSt (collections st)
                 (calls st ++ [C_State; C_CalculateLoadPercentage collectionID;
                               C_GetByCollectionAndNode collectionID srcNode;
                               C_IsStoppingNode srcNode])))
    as (d & e & l & Hin & Hd & Hl & Hrun).
  { destruct Hbad as (d & Hin & Hd). exists d. split; [by apply elem_of_elements|done]. }
  exists d, e, l. split; [by apply elem_of_elements in Hin|]. split; [done|].
  split.
  { eapply Forall_impl; [exact Hl|]. intros c (d' & Hd' & ->). exists d'.
    split; [by apply elem_of_elements in Hd'|done]. }
  unfold logs in *. unfold LoadBalance, merr.CheckHealthy.
  unfold State, CalculateLoadPercentage, GetByCollectionAndNode.
  unfold bind at 1. unfold call at 1. simpl. rewrite Hh. simpl.
  fold collectionID. rewrite Hsrc. simpl.
  unfold bind at 1. unfold call at 1. simpl.
  destruct (decide (meta_CalculateLoadPercentage s collectionID < 100)); [lia|].
  unfold bind at 1. unfold call at 1. simpl. rewrite Hrep.
  unfold bind at 1. rewrite isStoppingNode_logs. rewrite Hstop. simpl.
  rewrite Hset. unfold bind at 1. rewrite <- !app_assoc. simpl.
  simpl in Hrun. rewrite Hrun. unfold ret. simpl. rewrite <- !app_assoc. reflexivity.
Qed.

Lemma LoadBalance_rejects_stopping_destination_witness :
  let s := scenarioServer node2Stopping in
  let req := LoadBalanceRequest.mk 100 [1] [2] [] in
  server_State s = commonpb.Healthy
  /\ is_Some (stoppingError s 2)
  /\ exists d e checks,
       d ∈ dstNodeSetOf replica12 [2]
       /\ stoppingError s d = Some e
       /\ Forall (fun c => exists d', d' ∈ dstNodeSetOf replica12 [2] /\ c = C_IsStoppingNode d') checks
       /\ logs (LoadBalance s req) (start loaded100)
            (Returned
               (merr.Status
                  (Some (errors.Wrap e
                           ("can't balance, because the destination node[" ++ fmtd d ++ "] is invalid"))))
               None)
            ([C_State; C_CalculateLoadPercentage 100; C_GetByCollectionAndNode 100 1; C_IsStoppingNode 1]
               ++ checks).
Proof.
  intros s req. split; [reflexivity|].
  assert (Hstop : is_Some (stoppingError s 2)) by (vm_compute; eauto).
  split; [exact Hstop|].
  apply (LoadBalance_rejects_stopping_destination s req (start loaded100) 1 replica12).
  - reflexivity.
  - reflexivity.
  - vm_compute; discriminate.
  - reflexivity.
  - reflexivity.
  - intros d Hd. apply list_elem_of_singleton in Hd as ->. right; left.
  - exists 2. split; [|exact Hstop]. unfold dstNodeSetOf. simpl. set_solver.
Defined.

